(** * Triage pipeline and decision broker of triage-ninja

    A shallow embedding of
      - [src/agent.py]                      (the per-issue triage pipeline and
                                             [process_webhook]),
      - [src/discord_bot.py]                (the pending-decision registry and the wait),
      - [src/tools/discord_tools_portia.py] (the [DiscordManager] glue),
      - [src/tools/github_tools_portia.py]  (the [GitHubManager] record store),
      - [src/tools/weaviate_tools_portia.py] ([WeaviateManager.add_issue],
                                             [find_duplicate] and its fallback),
      - [src/tools/ai_tools_portia.py]      ([AIManager]),
      - [src/webhook_server.py]             (the signature check and the handler),
    followed by the properties of the specification that concern them and by
    further properties of the same code.

    Python exceptions are an explicit [Raise] outcome, module-level mutable
    objects live in a [World] record that is threaded through every call, and
    each [await] hands control to the environment for one [tick]. *)

From Stdlib Require Import ZArith QArith Lqa.
From stdpp Require Import base strings gmap list pretty.

Close Scope Q_scope.

(* ===================================================================== *)
(** ** Python values, dictionaries and control flow *)
(* ===================================================================== *)

Module Py.

(** The values stored in the dictionaries of the program: [None], booleans
    and strings. *)
Inductive pyval :=
| PNone
| PBool (b : bool)
| PStr (s : string).

(** Python truthiness, as used by [if v] and by [k for k, v in ... if v]. *)
Definition truthy (v : pyval) : bool :=
  match v with
  | PNone => false
  | PBool b => b
  | PStr s => negb (String.eqb s "")
  end.

(** [str(v)], which is what an f-string inserts. *)
Definition py_str (v : pyval) : string :=
  match v with
  | PNone => "None"
  | PBool true => "True"
  | PBool false => "False"
  | PStr s => s
  end.

Definition of_opt (o : option string) : pyval :=
  match o with
  | Some s => PStr s
  | None => PNone
  end.

(** A [dict] with string keys.  Python dictionaries keep insertion order and
    [", ".join] over their keys exposes it, hence an association list in
    which every key occurs once. *)
Definition pydict := list (string * pyval).

Fixpoint dict_get (k : string) (d : pydict) : option pyval :=
  match d with
  | [] => None
  | (k', v) :: d' => if String.eqb k k' then Some v else dict_get k d'
  end.

(** [d[k] = v]: overwrite in place when the key exists, append otherwise. *)
Fixpoint dict_set (k : string) (v : pyval) (d : pydict) : pydict :=
  match d with
  | [] => [(k, v)]
  | (k', v') :: d' =>
      if String.eqb k k' then (k', v) :: d' else (k', v') :: dict_set k v d'
  end.

(** [d.get(k, default)]: a key that is present with value [None] yields
    [None], not the default. *)
Definition dict_get_default (k : string) (default : pyval) (d : pydict) : pyval :=
  match dict_get k d with
  | Some v => v
  | None => default
  end.

Definition dict_keys (d : pydict) : list string := d.*1.

(** [sep.join(l)] *)
Fixpoint join (sep : string) (l : list string) : string :=
  match l with
  | [] => ""
  | [x] => x
  | x :: l' => x +:+ sep +:+ join sep l'
  end.

(** The answer of an external collaborator: a value or an exception with
    its message. *)
Inductive pyresult (A : Type) :=
| Ok (a : A)
| Exc (msg : string).
Arguments Ok {A} a.
Arguments Exc {A} msg.

(** The outcome of running a piece of the program: it returns, it raises an
    [Exception] with message [msg] (what [str(e)] shows), or it is still
    suspended at an [await] when the modelled environment has no further
    tick to offer. *)
Inductive outcome (A : Type) :=
| Return (a : A)
| Raise (msg : string)
| Waiting.
Arguments Return {A} a.
Arguments Raise {A} msg.
Arguments Waiting {A}.

(** Computations over a mutable state [S]. *)
Definition M (S A : Type) : Type := S -> outcome A * S.

Definition ret {S A} (a : A) : M S A := fun s => (Return a, s).

Definition raise {S A} (msg : string) : M S A := fun s => (Raise msg, s).

Definition bind {S A B} (m : M S A) (k : A -> M S B) : M S B :=
  fun s =>
    match m s with
    | (Return a, s') => k a s'
    | (Raise msg, s') => (Raise msg, s')
    | (Waiting, s') => (Waiting, s')
    end.

Definition get {S} : M S S := fun s => (Return s, s).

Definition modify {S} (f : S -> S) : M S unit := fun s => (Return tt, f s).

(** Calling an external collaborator. *)
Definition call {S A} (r : pyresult A) : M S A :=
  match r with
  | Ok a => ret a
  | Exc msg => raise msg
  end.

(** [try: body / except Exception as e: handler e].  State changes made by
    [body] before it raised are kept. *)
Definition try_except {S A} (body : M S A) (handler : string -> M S A) : M S A :=
  fun s =>
    match body s with
    | (Raise msg, s') => handler msg s'
    | r => r
    end.

(** [try: body / finally: cleanup]; [cleanup] runs when [body] returns and
    when it raises. *)
Definition try_finally {S A} (body : M S A) (cleanup : S -> S) : M S A :=
  fun s =>
    match body s with
    | (Return a, s') => (Return a, cleanup s')
    | (Raise msg, s') => (Raise msg, cleanup s')
    | (Waiting, s') => (Waiting, s')
    end.

End Py.
Export Py.

Declare Scope py_scope.
Delimit Scope py_scope with py.
Notation "'let!' x ':=' m 'in' k" := (bind m (fun x => k))
  (at level 10, x name, m at level 100, k at level 200) : py_scope.
Open Scope py_scope.


(* ===================================================================== *)
(** ** Data model *)
(* ===================================================================== *)

(** The dictionary a resolved decision carries:
    [{"decision": ..., "data": {...}}]. *)
Record DecisionRecord := {
  decision : string;
  data : pydict;
}.

(** [agent.TriageState] *)
Record TriageState := {
  issue_id : Z;
  issue_title : string;
  issue_body : string;
  issue_url : string;
  repository : string;
  severity : option string;
  ai_summary : option string;
  is_duplicate : bool;
  similarity_score : option Q;
  duplicate_issue_id : option Z;
  proposed_comment : option string;
  human_decision : option DecisionRecord;
  actions_executed : pydict;
  completion_message_sent : bool;
}.

(** The part of the webhook's issue dictionary that [TriageState.__init__]
    reads; an absent key is [None]. *)
Record IssueData := {
  number : option Z;
  title : option string;
  body : option string;
  html_url : option string;
  repository_full_name : option string;
}.

(** [TriageState.__init__], with the defaults of its [.get] calls. *)
Definition new_TriageState (issue_data : IssueData) : TriageState := {|
  issue_id := default 0%Z (number issue_data);
  issue_title := default "Unknown" (title issue_data);
  issue_body := default "" (body issue_data);
  issue_url := default "" (html_url issue_data);
  repository := default "unknown/repo" (repository_full_name issue_data);
  severity := None;
  ai_summary := None;
  is_duplicate := false;
  similarity_score := None;
  duplicate_issue_id := None;
  proposed_comment := None;
  human_decision := None;
  actions_executed := [];
  completion_message_sent := false;
|}.

Definition set_severity (v : option string) (s : TriageState) : TriageState := {|
  issue_id := issue_id s; issue_title := issue_title s; issue_body := issue_body s;
  issue_url := issue_url s; repository := repository s;
  severity := v;
  ai_summary := ai_summary s; is_duplicate := is_duplicate s;
  similarity_score := similarity_score s; duplicate_issue_id := duplicate_issue_id s;
  proposed_comment := proposed_comment s; human_decision := human_decision s;
  actions_executed := actions_executed s;
  completion_message_sent := completion_message_sent s |}.

Definition set_ai_summary (v : option string) (s : TriageState) : TriageState := {|
  issue_id := issue_id s; issue_title := issue_title s; issue_body := issue_body s;
  issue_url := issue_url s; repository := repository s;
  severity := severity s;
  ai_summary := v;
  is_duplicate := is_duplicate s;
  similarity_score := similarity_score s; duplicate_issue_id := duplicate_issue_id s;
  proposed_comment := proposed_comment s; human_decision := human_decision s;
  actions_executed := actions_executed s;
  completion_message_sent := completion_message_sent s |}.

Definition set_is_duplicate (v : bool) (s : TriageState) : TriageState := {|
  issue_id := issue_id s; issue_title := issue_title s; issue_body := issue_body s;
  issue_url := issue_url s; repository := repository s;
  severity := severity s; ai_summary := ai_summary s;
  is_duplicate := v;
  similarity_score := similarity_score s; duplicate_issue_id := duplicate_issue_id s;
  proposed_comment := proposed_comment s; human_decision := human_decision s;
  actions_executed := actions_executed s;
  completion_message_sent := completion_message_sent s |}.

Definition set_similarity_score (v : option Q) (s : TriageState) : TriageState := {|
  issue_id := issue_id s; issue_title := issue_title s; issue_body := issue_body s;
  issue_url := issue_url s; repository := repository s;
  severity := severity s; ai_summary := ai_summary s; is_duplicate := is_duplicate s;
  similarity_score := v;
  duplicate_issue_id := duplicate_issue_id s;
  proposed_comment := proposed_comment s; human_decision := human_decision s;
  actions_executed := actions_executed s;
  completion_message_sent := completion_message_sent s |}.

Definition set_duplicate_issue_id (v : option Z) (s : TriageState) : TriageState := {|
  issue_id := issue_id s; issue_title := issue_title s; issue_body := issue_body s;
  issue_url := issue_url s; repository := repository s;
  severity := severity s; ai_summary := ai_summary s; is_duplicate := is_duplicate s;
  similarity_score := similarity_score s;
  duplicate_issue_id := v;
  proposed_comment := proposed_comment s; human_decision := human_decision s;
  actions_executed := actions_executed s;
  completion_message_sent := completion_message_sent s |}.

Definition set_proposed_comment (v : option string) (s : TriageState) : TriageState := {|
  issue_id := issue_id s; issue_title := issue_title s; issue_body := issue_body s;
  issue_url := issue_url s; repository := repository s;
  severity := severity s; ai_summary := ai_summary s; is_duplicate := is_duplicate s;
  similarity_score := similarity_score s; duplicate_issue_id := duplicate_issue_id s;
  proposed_comment := v;
  human_decision := human_decision s;
  actions_executed := actions_executed s;
  completion_message_sent := completion_message_sent s |}.

Definition set_human_decision (v : option DecisionRecord) (s : TriageState) : TriageState := {|
  issue_id := issue_id s; issue_title := issue_title s; issue_body := issue_body s;
  issue_url := issue_url s; repository := repository s;
  severity := severity s; ai_summary := ai_summary s; is_duplicate := is_duplicate s;
  similarity_score := similarity_score s; duplicate_issue_id := duplicate_issue_id s;
  proposed_comment := proposed_comment s;
  human_decision := v;
  actions_executed := actions_executed s;
  completion_message_sent := completion_message_sent s |}.

Definition set_actions_executed (v : pydict) (s : TriageState) : TriageState := {|
  issue_id := issue_id s; issue_title := issue_title s; issue_body := issue_body s;
  issue_url := issue_url s; repository := repository s;
  severity := severity s; ai_summary := ai_summary s; is_duplicate := is_duplicate s;
  similarity_score := similarity_score s; duplicate_issue_id := duplicate_issue_id s;
  proposed_comment := proposed_comment s; human_decision := human_decision s;
  actions_executed := v;
  completion_message_sent := completion_message_sent s |}.

Definition set_completion_message_sent (v : bool) (s : TriageState) : TriageState := {|
  issue_id := issue_id s; issue_title := issue_title s; issue_body := issue_body s;
  issue_url := issue_url s; repository := repository s;
  severity := severity s; ai_summary := ai_summary s; is_duplicate := is_duplicate s;
  similarity_score := similarity_score s; duplicate_issue_id := duplicate_issue_id s;
  proposed_comment := proposed_comment s; human_decision := human_decision s;
  actions_executed := actions_executed s;
  completion_message_sent := v |}.

(** [state.actions_executed[k] = v] *)
Definition record_action (k : string) (v : pyval) (s : TriageState) : TriageState :=
  set_actions_executed (dict_set k v (actions_executed s)) s.

(** What [triage_new_issue] returns: the dictionary with ['success': True]
    and the echoed state fields, or the one with ['success': False] and
    ['error': str(e)]. *)
Inductive TriageResult :=
| TriageSuccess (issue_number : Z) (severity : option string)
    (ai_summary : option string) (is_duplicate : bool)
    (similarity_score : option Q) (human_decision : option DecisionRecord)
    (actions_executed : pydict) (completion_notification_sent : bool)
| TriageFailure (issue_number : Z) (error : string).

Definition success (r : TriageResult) : bool :=
  match r with
  | TriageSuccess _ _ _ _ _ _ _ _ => true
  | TriageFailure _ _ => false
  end.

Definition result_actions (r : TriageResult) : option pydict :=
  match r with
  | TriageSuccess _ _ _ _ _ _ a _ => Some a
  | TriageFailure _ _ => None
  end.

(** *** What other execution contexts do while a coroutine is suspended *)

(** The callbacks of [discord_bot.py] that touch [pending_decisions], and
    the two registry statements of a concurrently running
    [discord_bot.send_triage_request]. *)
Inductive event :=
| approve_click (issue_number : Z)
| reject_click (issue_number : Z)
| modal_submit (issue_number : Z) (severity_value text_value : string)
    (is_duplicate : bool)
| view_timeout (issue_number : Z)
| concurrent_register (issue_number : Z)
| concurrent_cleanup (issue_number : Z).

(** One suspension of the running coroutine: the callbacks that ran
    meanwhile and the time (in seconds) that passed. *)
Record tick := {
  tick_events : list event;
  tick_dt : Q;
}.

(** *** The record store's log *)

(** Invocations of the [GitHubManager] methods the pipeline uses. *)
Inductive gh_op :=
| OpAddLabel (issue_number : Z) (label : pyval)
| OpPostComment (issue_number : Z) (comment : pyval)
| OpCloseIssue (issue_number : Z) (reason : string).

(** Requests to the GitHub API made inside those methods. *)
Inductive gh_request :=
| GetRepo (repo_name : string)
| GetIssue (issue_number : Z)
| GetLabel (label : pyval)
| CreateLabel (label : pyval) (color : string)
| AddToLabels (issue_number : Z) (label : pyval)
| CreateComment (issue_number : Z) (comment : pyval)
| EditIssue (issue_number : Z) (state state_reason : string).

(** An entry of the duplicate index: the dictionaries appended to
    [_mock_issues] and the objects inserted into the [GitHubIssue]
    collection carry the same three fields. *)
Record stored_issue := {
  stored_id : Z;
  stored_title : string;
  stored_body : string;
}.

(** A JSON body posted to the Discord webhook. *)
Inductive webhook_post :=
| TriageRequestPost (issue_number : Z)
| CompletionPost (original_message_id approver_name action_summary : string).

(** *** The process-wide mutable state *)

Record World := {
  (** [discord_bot.pending_decisions]: decision key to [asyncio.Future]
      object, the objects being numbered in order of creation *)
  pending_decisions : gmap string nat;
  (** the [asyncio.Future] objects: [None] while not done, [Some r] once
      [set_result(r)] has run *)
  futures : list (option DecisionRecord);
  (** [asyncio.get_event_loop().time()] *)
  clock : Q;
  (** what the environment will do at the coming suspensions *)
  schedule : list tick;
  github_calls : list gh_op;
  github_requests : list gh_request;
  (** [weaviate_manager._mock_issues]; [None] while the attribute does not
      exist *)
  _mock_issues : option (list stored_issue);
  (** objects in the Weaviate collection [GitHubIssue] *)
  collection : list stored_issue;
  webhook_posts : list webhook_post;
}.

Definition set_pending_decisions (v : gmap string nat) (w : World) : World := {|
  pending_decisions := v;
  futures := futures w; clock := clock w; schedule := schedule w;
  github_calls := github_calls w; github_requests := github_requests w;
  _mock_issues := _mock_issues w; collection := collection w;
  webhook_posts := webhook_posts w |}.

Definition set_futures (v : list (option DecisionRecord)) (w : World) : World := {|
  pending_decisions := pending_decisions w;
  futures := v;
  clock := clock w; schedule := schedule w;
  github_calls := github_calls w; github_requests := github_requests w;
  _mock_issues := _mock_issues w; collection := collection w;
  webhook_posts := webhook_posts w |}.

Definition set_time (c : Q) (sched : list tick) (w : World) : World := {|
  pending_decisions := pending_decisions w; futures := futures w;
  clock := c; schedule := sched;
  github_calls := github_calls w; github_requests := github_requests w;
  _mock_issues := _mock_issues w; collection := collection w;
  webhook_posts := webhook_posts w |}.

Definition set_github (calls : list gh_op) (reqs : list gh_request) (w : World) : World := {|
  pending_decisions := pending_decisions w; futures := futures w;
  clock := clock w; schedule := schedule w;
  github_calls := calls; github_requests := reqs;
  _mock_issues := _mock_issues w; collection := collection w;
  webhook_posts := webhook_posts w |}.

Definition set_mock_issues (v : option (list stored_issue)) (w : World) : World := {|
  pending_decisions := pending_decisions w; futures := futures w;
  clock := clock w; schedule := schedule w;
  github_calls := github_calls w; github_requests := github_requests w;
  _mock_issues := v;
  collection := collection w;
  webhook_posts := webhook_posts w |}.

Definition set_collection (v : list stored_issue) (w : World) : World := {|
  pending_decisions := pending_decisions w; futures := futures w;
  clock := clock w; schedule := schedule w;
  github_calls := github_calls w; github_requests := github_requests w;
  _mock_issues := _mock_issues w;
  collection := v;
  webhook_posts := webhook_posts w |}.

Definition set_webhook_posts (v : list webhook_post) (w : World) : World := {|
  pending_decisions := pending_decisions w; futures := futures w;
  clock := clock w; schedule := schedule w;
  github_calls := github_calls w; github_requests := github_requests w;
  _mock_issues := _mock_issues w; collection := collection w;
  webhook_posts := v |}.

(** *** The environment *)

(** How [DiscordManager.send_triage_request] reaches the bot's event loop. *)
Inductive loop_mode :=
| SameLoop              (** [bot.loop] is unset or is the current loop *)
| OtherLoop             (** [bot.loop] is another loop *)
| NoRunningLoop (bot_has_loop : bool)
                        (** [get_event_loop] raised "no running event loop" *)
| LoopError (msg : string).  (** it raised another [RuntimeError] *)

(** Configuration values and the answers of the external services.  A
    request to a service answers [true] when it succeeds and [false] when it
    raises; where a service is asked repeatedly the answer may depend on the
    requests made before. *)
Record Env := {
  (** [config.DISCORD_WEBHOOK_URL], copied into [discord_manager.webhook_url] *)
  DISCORD_WEBHOOK_URL : string;
  (** [config.GITHUB_REPO] *)
  GITHUB_REPO : string;
  (** [int(config.DISCORD_CHANNEL_ID)], or the message of its [ValueError] *)
  channel_id : pyresult Z;
  (** [from discord_bot import send_triage_request, bot] succeeds *)
  bot_importable : bool;
  bot_loop : loop_mode;
  (** [bot.is_ready()] *)
  bot_ready : bool;
  (** [bot.get_channel(channel_id)] is not [None] *)
  channel_found : bool;
  (** [channel.send(embed=embed, view=view)] *)
  channel_send : pyresult unit;
  (** [requests.post(...)] followed by [raise_for_status()] *)
  requests_post : list webhook_post -> webhook_post -> pyresult unit;
  (** [github_manager.github_client] is set *)
  github_client : bool;
  github_api : list gh_request -> gh_request -> bool;
  (** [weaviate_manager.client] is set *)
  weaviate_client : bool;
  (** [genai.embed_content] on the given text *)
  embed_content : string -> bool;
  (** [collection.data.insert] *)
  collection_insert : list stored_issue -> stored_issue -> bool;
  (** [weaviate_manager.find_duplicate(title, body, threshold)]: the
      duplicate index's answer for the current stores *)
  find_duplicate :
    option (list stored_issue) -> list stored_issue ->
    string -> string -> Q -> pyresult (option Z * option Q);
  (** [ai_manager.classify_severity(title, body)] *)
  classify_severity : string -> string -> pyresult string;
  (** [ai_manager.summarize_issue(title, body)] *)
  summarize_issue : string -> string -> pyresult string;
}.

(* ===================================================================== *)
(** ** [tools/github_tools_portia.py]: the record store *)
(* ===================================================================== *)

Module github_tools.
Section WithEnv.
Variable E : Env.

(** One request to the GitHub API: logged, then answered by the
    environment. *)
Definition request (r : gh_request) : M World unit :=
  fun w =>
    let w' := set_github (github_calls w) (github_requests w ++ [r]) w in
    if github_api E (github_requests w) r
    then (Return tt, w')
    else (Raise "GithubException", w').

Definition invoked (op : gh_op) : M World unit :=
  modify (fun w => set_github (github_calls w ++ [op]) (github_requests w) w).

(** [GitHubManager._get_repo], called with [repo_name=None]. *)
Definition _get_repo : M World unit :=
  if github_client E
  then try_except (request (GetRepo (GITHUB_REPO E))) (fun e => raise e)
  else raise "GitHub client not initialized".

Definition colors : list (string * string) :=
  [("Critical", "d73a4a"); ("High", "ff6600"); ("Medium", "ffcc00");
   ("Low", "00cc66"); ("Info", "0099cc"); ("duplicate", "cccccc")].

Fixpoint assoc (k : string) (l : list (string * string)) : option string :=
  match l with
  | [] => None
  | (k', v) :: l' => if String.eqb k k' then Some v else assoc k l'
  end.

(** [colors.get(label, "ffffff")] *)
Definition label_color (label : pyval) : string :=
  match label with
  | PStr s => default "ffffff" (assoc s colors)
  | _ => "ffffff"
  end.

(** [GitHubManager.add_label] *)
Definition add_label (issue_number : Z) (label : pyval) : M World bool :=
  let! _ := invoked (OpAddLabel issue_number label) in
  try_except
    (let! _ := _get_repo in
     let! _ := request (GetIssue issue_number) in
     let! _ :=
       try_except (request (GetLabel label))
         (fun _ =>
            try_except (request (CreateLabel label (label_color label)))
              (fun _ => ret tt)) in
     let! _ := request (AddToLabels issue_number label) in
     ret true)
    (fun _ => ret false).

(** [GitHubManager.post_comment] *)
Definition post_comment (issue_number : Z) (comment : pyval) : M World bool :=
  let! _ := invoked (OpPostComment issue_number comment) in
  try_except
    (let! _ := _get_repo in
     let! _ := request (GetIssue issue_number) in
     let! _ := request (CreateComment issue_number comment) in
     ret true)
    (fun _ => ret false).

(** [GitHubManager.close_issue] *)
Definition close_issue (issue_number : Z) (reason : string) : M World bool :=
  let! _ := invoked (OpCloseIssue issue_number reason) in
  try_except
    (let! _ := _get_repo in
     let! _ := request (GetIssue issue_number) in
     let reason' := if String.eqb reason "duplicate" then "not_planned" else reason in
     let! _ := request (EditIssue issue_number "closed" reason') in
     ret true)
    (fun _ => ret false).

End WithEnv.
End github_tools.

(* ===================================================================== *)
(** ** [tools/weaviate_tools_portia.py]: registering a confirmed report *)
(* ===================================================================== *)

Module weaviate_tools.
Section WithEnv.
Variable E : Env.

(** [if not hasattr(self, '_mock_issues'): self._mock_issues = []] followed
    by [self._mock_issues.append({...})] *)
Definition mock_append (i : stored_issue) : M World unit :=
  modify (fun w => set_mock_issues (Some (default [] (_mock_issues w) ++ [i])) w).

(** [self.client.collections.get("GitHubIssue")] and
    [collection.data.insert(...)] *)
Definition insert (i : stored_issue) : M World unit :=
  fun w =>
    if collection_insert E (collection w) i
    then (Return tt, set_collection (collection w ++ [i]) w)
    else (Raise "insert failed", w).

(** [WeaviateManager.add_issue] *)
Definition add_issue (issue_id : Z) (title body : string) : M World unit :=
  let i := {| stored_id := issue_id; stored_title := title; stored_body := body |} in
  try_except
    (if negb (weaviate_client E) then mock_append i
     else
       let embedding_text := title +:+ "

" +:+ body in
       let! embedded :=
         try_except
           (if embed_content E embedding_text then ret true
            else raise "embedding failed")
           (fun _ => let! _ := mock_append i in ret false) in
       if (embedded : bool)
       then try_except (insert i) (fun _ => mock_append i)
       else ret tt)
    (fun _ => mock_append i).

(** The report is in one of the two stores the duplicate search reads. *)
Definition registered (i : stored_issue) (w : World) : Prop :=
  In i (default [] (_mock_issues w)) ∨ In i (collection w).

End WithEnv.

Section Search.
Variable E : Env.

(** [str.lower], [str.strip] and [str.split] without argument. *)
Variables (lower strip : string -> string) (split : string -> list string).

(** What [collection.query.near_vector(..., limit=5)] answers for the text
    that was embedded: the objects, each with its [issue_number] and its
    [certainty] ([None] when the server sends none), or the exception of the
    query.  The [except ImportError] branch is not taken: the module it
    guards is the one [_setup_weaviate] imported to create the client. *)
Variable near_vector : list stored_issue -> string -> pyresult (list (Z * option Q)).

(** [set(f"{title.lower()} {body.lower()}".split())] *)
Definition words (title body : string) : gset string :=
  list_to_set (split (lower title +:+ " " +:+ lower body)).

(** [len(a & b) / len(a | b)], scores being rationals here. *)
Definition overlap (a b : gset string) : Q :=
  (Z.of_nat (size (a ∩ b)) # Pos.of_nat (size (a ∪ b)))%Q.

(** The loop over [_mock_issues] that compares word sets: the first stored
    report whose overlap with the search text reaches the threshold. *)
Fixpoint first_overlap (search_words : gset string) (threshold : Q)
    (issues : list stored_issue) : option (Z * Q) :=
  match issues with
  | [] => None
  | stored :: rest =>
      let stored_words := words (stored_title stored) (stored_body stored) in
      if Nat.ltb 0 (size search_words) && Nat.ltb 0 (size stored_words) then
        let similarity := overlap search_words stored_words in
        if Qle_bool threshold similarity
        then Some (stored_id stored, similarity)
        else first_overlap search_words threshold rest
      else first_overlap search_words threshold rest
  end.

(** [title.strip().lower() == stored_issue['title'].strip().lower()] *)
Definition same_title (title : string) (stored : stored_issue) : bool :=
  String.eqb (lower (strip title)) (lower (strip (stored_title stored))).

(** [WeaviateManager._fallback_text_similarity] *)
Definition _fallback_text_similarity (title body : string) (threshold : Q) :
    M World (option Z * option Q) :=
  let! found :=
    try_except
      (let! w := get in
       match _mock_issues w with
       | Some issues => ret (first_overlap (words title body) threshold issues)
       | None => ret None
       end)
      (fun _ => ret None) in
  match found with
  | Some (issue_id, similarity) => ret (Some issue_id, Some similarity)
  | None => ret (None, None)
  end.

(** The loop over [response.objects]: the first object whose certainty
    reaches the threshold; comparing a missing certainty raises. *)
Fixpoint first_certain (threshold : Q) (objects : list (Z * option Q)) :
    M World (option Z * option Q) :=
  match objects with
  | [] => ret (None, None)
  | (issue_number, Some certainty) :: rest =>
      if Qle_bool threshold certainty
      then ret (Some issue_number, Some certainty)
      else first_certain threshold rest
  | (_, None) :: _ =>
      raise "'>=' not supported between instances of 'NoneType' and 'float'"
  end.

(** [WeaviateManager.find_duplicate] *)
Definition find_duplicate (title body : string) (threshold : Q) :
    M World (option Z * option Q) :=
  try_except
    (if negb (weaviate_client E) then
       let! _ := modify (fun w => set_mock_issues (Some (default [] (_mock_issues w))) w) in
       let! w := get in
       let issues := default [] (_mock_issues w) in
       match first_overlap (words title body) threshold issues with
       | Some (issue_id, similarity) => ret (Some issue_id, Some similarity)
       | None =>
           match List.find (same_title title) issues with
           | Some stored => ret (Some (stored_id stored), Some (95 # 100)%Q)
           | None => ret (None, None)
           end
       end
     else
       let embedding_text := title +:+ "

" +:+ body in
       if embed_content E embedding_text then
         let! w := get in
         let! objects := call (near_vector (collection w) embedding_text) in
         first_certain threshold objects
       else _fallback_text_similarity title body threshold)
    (fun _ => _fallback_text_similarity title body threshold).

End Search.
End weaviate_tools.

(* ===================================================================== *)
(** ** [tools/ai_tools_portia.py]: the duplicate notice *)
(* ===================================================================== *)

Module ai_tools.

(** Rounding to the nearest integer, ties to even. *)
Definition round_half_even (q : Q) : Z :=
  let n := Qnum q in
  let d := Z.pos (Qden q) in
  let fl := (n / d)%Z in
  match (2 * (n mod d) ?= d)%Z with
  | Lt => fl
  | Gt => (fl + 1)%Z
  | Eq => if Z.even fl then fl else (fl + 1)%Z
  end.

(** The format specification [.1%] applied to a score, scores being
    rationals here. *)
Definition format_percent (q : Q) : string :=
  let t := round_half_even (q * 1000)%Q in
  (if (t <? 0)%Z then "-" else "")
  +:+ pretty (Z.abs t / 10)%Z +:+ "." +:+ pretty (Z.abs t mod 10)%Z +:+ "%".

(** [AIManager.draft_duplicate_comment] *)
Definition draft_duplicate_comment (original_issue_id : Z) (similarity_score : Q) : string :=
  "
This issue appears to be a duplicate of #" +:+ pretty original_issue_id
  +:+ " (Similarity: " +:+ format_percent similarity_score +:+ ").

Please review the original issue and add any additional information there if needed. This issue will be closed to avoid fragmentation.
".

(** The double quote the prompts put around title and body. *)
Definition dq : string := String (Ascii.ascii_of_nat 34) EmptyString.

(** What [generate_content] is asked: the prompt and the two entries of
    [generation_config]. *)
Record generation := {
  prompt : string;
  max_output_tokens : nat;
  temperature : Q;
}.

Section Gemini.
Context {S : Type}.

(** [self.model]: [None] when [_setup_gemini] failed, otherwise what
    [generate_content(...).text] gives for a request, a text or the
    exception of the call or of the [.text] accessor. *)
Variable model : option (generation -> pyresult string).

(** [str.strip] *)
Variable strip : string -> string.

Definition severity_levels : list string :=
  ["Critical"; "High"; "Medium"; "Low"; "Info"].

(** The f-string prompt of [classify_severity]. *)
Definition classify_prompt (title body : string) : string :=
  "
Analyze the following GitHub issue and classify its severity.
The severity levels are:
- Critical: System down, data loss, security vulnerability.
- High: Major functionality broken, significant performance degradation.
- Medium: Minor bugs with workarounds, important feature requests.
- Low: Cosmetic issues, typos, documentation updates.
- Info: Questions, discussions, feedback.

Example 1:
Title: " +:+ dq +:+ "Server is down, 500 errors everywhere" +:+ dq +:+ "
Body: " +:+ dq +:+ "Our main production server is not responding, and all API calls are failing." +:+ dq +:+ "
Severity: Critical

Example 2:
Title: " +:+ dq +:+ "User profile picture upload is failing" +:+ dq +:+ "
Body: " +:+ dq +:+ "When a user tries to upload a new avatar, they get an error. The old avatar still works." +:+ dq +:+ "
Severity: High

Example 3:
Title: " +:+ dq +:+ "Typo in the main page footer" +:+ dq +:+ "
Body: " +:+ dq +:+ "The copyright year is wrong in the footer text." +:+ dq +:+ "
Severity: Low

Example 4:
Title: " +:+ dq +:+ "How to configure SSL certificates?" +:+ dq +:+ "
Body: " +:+ dq +:+ "I'm trying to set up SSL for our domain. Can someone provide guidance on the best practices?" +:+ dq +:+ "
Severity: Info

Issue to classify:
Title: " +:+ dq +:+ title +:+ dq +:+ "
Body: " +:+ dq +:+ body +:+ dq +:+ "
Severity:
".

(** [AIManager.classify_severity] *)
Definition classify_severity (title body : string) : M S string :=
  try_except
    (match model with
     | None => ret "Medium"
     | Some generate_content =>
         let! text :=
           call (generate_content
                   {| prompt := classify_prompt title body;
                      max_output_tokens := 20;
                      temperature := (1 # 10)%Q |}) in
         let severity := strip text in
         if existsb (String.eqb severity) severity_levels
         then ret severity
         else ret "Medium"
     end)
    (fun _ => ret "Medium").

(** The f-string prompt of [summarize_issue]. *)
Definition summarize_prompt (title body : string) : string :=
  "
Summarize the following GitHub issue into a single, concise sentence for a technical audience.

Title: " +:+ dq +:+ title +:+ dq +:+ "
Body: " +:+ dq +:+ body +:+ dq +:+ "

Provide only the summary sentence, no additional text.
".

(** [AIManager.summarize_issue] *)
Definition summarize_issue (title body : string) : M S string :=
  try_except
    (match model with
     | None => ret ("Issue: " +:+ title)
     | Some generate_content =>
         let! text :=
           call (generate_content
                   {| prompt := summarize_prompt title body;
                      max_output_tokens := 100;
                      temperature := (3 # 10)%Q |}) in
         ret (strip text)
     end)
    (fun _ => ret ("Issue: " +:+ title)).

End Gemini.

End ai_tools.

(* ===================================================================== *)
(** ** [discord_bot.py]: the pending-decision registry and the wait *)
(* ===================================================================== *)

Module discord_bot.
Section WithEnv.
Variable E : Env.

(** [f"issue_{issue_number}"] *)
Definition decision_key (issue_number : Z) : string :=
  "issue_" +:+ pretty issue_number.

(** The guarded write every callback ends with:
    [if decision_key in pending_decisions:]
    [    if not pending_decisions[decision_key].done():]
    [        pending_decisions[decision_key].set_result(r)] *)
Definition set_result_if_pending (issue_number : Z) (r : DecisionRecord) (w : World) : World :=
  match pending_decisions w !! decision_key issue_number with
  | Some f =>
      match futures w !! f with
      | Some None => set_futures (<[f := Some r]> (futures w)) w
      | _ => w
      end
  | None => w
  end.

Definition approve_record : DecisionRecord := {| decision := "approve"; data := [] |}.
Definition reject_record : DecisionRecord := {| decision := "reject"; data := [] |}.
Definition timeout_record : DecisionRecord := {| decision := "timeout"; data := [] |}.

(** The dictionary [ModifyModal.on_submit] builds. *)
Definition modified_data (severity_value text_value : string) (is_duplicate : bool) : DecisionRecord := {|
  decision := "approve";
  data := [("severity", PStr severity_value);
           ("summary", if is_duplicate then PNone else PStr text_value);
           ("comment", if is_duplicate then PStr text_value else PNone);
           ("modified", PBool true)]
|}.

(** [TriageView.approve_button] *)
Definition approve_button (issue_number : Z) : World -> World :=
  set_result_if_pending issue_number approve_record.

(** [TriageView.reject_button] *)
Definition reject_button (issue_number : Z) : World -> World :=
  set_result_if_pending issue_number reject_record.

(** [ModifyModal.on_submit] *)
Definition on_submit (issue_number : Z) (severity_value text_value : string)
    (is_duplicate : bool) : World -> World :=
  set_result_if_pending issue_number (modified_data severity_value text_value is_duplicate).

(** [TriageView.on_timeout] *)
Definition on_timeout (issue_number : Z) : World -> World :=
  set_result_if_pending issue_number timeout_record.

(** [pending_decisions[decision_key] = asyncio.Future()] *)
Definition register (key : string) (w : World) : World :=
  set_pending_decisions (<[key := length (futures w)]> (pending_decisions w))
    (set_futures (futures w ++ [None]) w).

(** [if decision_key in pending_decisions: del pending_decisions[decision_key]] *)
Definition cleanup (key : string) (w : World) : World :=
  set_pending_decisions (delete key (pending_decisions w)) w.

Definition handle (w : World) (e : event) : World :=
  match e with
  | approve_click n => approve_button n w
  | reject_click n => reject_button n w
  | modal_submit n sev text dup => on_submit n sev text dup w
  | view_timeout n => on_timeout n w
  | concurrent_register n => register (decision_key n) w
  | concurrent_cleanup n => cleanup (decision_key n) w
  end.

Definition run_events (evs : list event) (w : World) : World :=
  fold_left handle evs w.

(** An [await] that really suspends: the next tick of the schedule passes.
    With no tick left the coroutine stays suspended. *)
Definition suspend : M World unit :=
  fun w =>
    match schedule w with
    | [] => (Waiting, w)
    | t :: rest =>
        (Return tt,
         run_events (tick_events t) (set_time (clock w + tick_dt t)%Q rest w))
    end.

(** [timeout_duration = 3700] *)
Definition timeout_duration : Q := 3700.

(** How an iteration of the [while True] loop leaves it. *)
Inductive loop_exit :=
| Break (response : DecisionRecord)
| ReturnNow (r : DecisionRecord).

(** The body of the loop, [None] standing for the next iteration. *)
Definition loop_body (key : string) (start_time : Q) : M World (option loop_exit) :=
  try_except
    (let! w := get in
     match pending_decisions w !! key with
     | None => raise ("'" +:+ key +:+ "'")
     | Some f =>
         match futures w !! f with
         | Some (Some r) => ret (Some (Break r))
         | _ =>
             if negb (Qle_bool (clock w - start_time)%Q timeout_duration)
             then ret (Some (ReturnNow timeout_record))
             else let! _ := suspend in ret None
         end
     end)
    (fun _ => ret (Some (ReturnNow timeout_record))).

Fixpoint wait_loop (fuel : nat) (key : string) (start_time : Q) : M World loop_exit :=
  match fuel with
  | O => fun w => (Waiting, w)
  | S fuel' =>
      let! step := loop_body key start_time in
      match step with
      | Some x => ret x
      | None => wait_loop fuel' key start_time
      end
  end.

(** The [while True] loop.  Every iteration that goes round again consumes
    a tick, so one more iteration than there are ticks is enough. *)
Definition wait_for_decision (key : string) (start_time : Q) : M World loop_exit :=
  fun w => wait_loop (S (length (schedule w))) key start_time w.

(** [discord_bot.send_completion_message], as [send_triage_request] calls
    it: it is handed [message.id], an integer, as [original_message]; every
    statement is inside its [try], the final [original_message.reply] raises
    [AttributeError] before anything is sent, and the handler only logs. *)
Definition send_completion_message (issue_number : Z) (response : DecisionRecord) : M World unit :=
  ret tt.

(** [discord_bot.send_triage_request].  The embed and the view are built
    from the remaining entries of [issue_data]; they decide what the human
    sees, not what happens to the registry, and are left out. *)
Definition send_triage_request (issue_number : Z) : M World DecisionRecord :=
  let decision_key := decision_key issue_number in
  try_finally
    (try_except
       (let! channel_id := call (channel_id E) in
        let! _ := if bot_ready E then ret tt else suspend in
        let! _ :=
          if channel_found E then ret tt
          else raise ("Discord channel " +:+ pretty channel_id
                      +:+ " not accessible - HUMAN INPUT REQUIRED") in
        let! _ := suspend in
        let! _ := call (channel_send E) in
        let! _ := modify (register decision_key) in
        let! w := get in
        let start_time := clock w in
        let! exit := wait_for_decision decision_key start_time in
        match exit with
        | ReturnNow r => ret r
        | Break response =>
            let! _ := send_completion_message issue_number response in
            ret response
        end)
       (fun e => raise ("Discord integration failed: " +:+ e
                        +:+ " - HUMAN INPUT REQUIRED")))
    (cleanup decision_key).

End WithEnv.
End discord_bot.

(* ===================================================================== *)
(** ** [tools/discord_tools_portia.py]: the channel as the pipeline sees it *)
(* ===================================================================== *)

Module discord_tools.

(** [TriageClarification]; [response_future] is the id of a future when one
    has been attached. *)
Record TriageClarification := {
  issue_title : string;
  issue_number : Z;
  severity : option string;
  ai_summary : option string;
  issue_body : string;
  is_duplicate : bool;
  similarity_score : option Q;
  duplicate_issue_id : option Z;
  response_future : option nat;
}.

(** The dictionary [ModifyModal.on_submit] of this module builds. *)
Definition modified_data (clarification : TriageClarification)
    (severity_input comment_input : string) : DecisionRecord := {|
  decision := "modify";
  data := [("severity", PStr severity_input);
           ("summary", if is_duplicate clarification then PNone else PStr comment_input);
           ("comment", if is_duplicate clarification then PStr comment_input else PNone)]
|}.

(** [ModifyModal.on_submit]: the result is written only when a future is
    attached to the clarification and is not done. *)
Definition on_submit (clarification : TriageClarification)
    (severity_input comment_input : string) (w : World) : World :=
  match response_future clarification with
  | Some f =>
      match futures w !! f with
      | Some None =>
          set_futures
            (<[f := Some (modified_data clarification severity_input comment_input)]>
               (futures w)) w
      | _ => w
      end
  | None => w
  end.

(** The [duplicate_info] dictionary of [post_for_approval], an absent key
    being [None]. *)
Record DuplicateInfo := {
  info_is_duplicate : option bool;
  info_similarity_score : option Q;
  info_duplicate_issue_number : option Z;
}.

(** The dictionary [post_for_approval] returns; the failure dictionary has
    no [modified_data]. *)
Record Approval := {
  approved : bool;
  user : string;
  reason : string;
  modified_data_of : option pydict;
}.

Section WithEnv.
Variable E : Env.

(** [requests.post(self.webhook_url, json=...)] and [raise_for_status()] *)
Definition post (p : webhook_post) : M World unit :=
  fun w =>
    let w' := set_webhook_posts (webhook_posts w ++ [p]) w in
    match requests_post E (webhook_posts w) p with
    | Ok _ => (Return tt, w')
    | Exc msg => (Raise msg, w')
    end.

(** [asyncio.run_coroutine_threadsafe(coro, bot_loop)] followed by
    [future.result(timeout=3700)]: the coroutine's own outcome when it
    finishes within 3700 seconds, [concurrent.futures.TimeoutError] (whose
    message is empty) otherwise.  The world is the one the coroutine leaves
    behind. *)
Definition run_coroutine_threadsafe {A} (coro : M World A) : M World A :=
  fun w =>
    match coro w with
    | (o, w') =>
        if Qle_bool (clock w' - clock w)%Q 3700 then (o, w') else (Raise "", w')
    end.

(** [DiscordManager.send_triage_request] *)
Definition send_triage_request (clarification : TriageClarification) : M World DecisionRecord :=
  try_except
    (if String.eqb (DISCORD_WEBHOOK_URL E) "" then
       ret {| decision := "approve"; data := [] |}
     else if bot_importable E then
       let coro := discord_bot.send_triage_request E (issue_number clarification) in
       match bot_loop E with
       | SameLoop => coro
       | OtherLoop => run_coroutine_threadsafe coro
       | NoRunningLoop true => run_coroutine_threadsafe coro
       | NoRunningLoop false =>
           raise "No event loop available for Discord bot communication"
       | LoopError msg => raise msg
       end
     else
       let! _ := post (TriageRequestPost (issue_number clarification)) in
       raise "Discord bot integration failed - Cannot proceed without human interaction")
    (fun e => raise ("Discord triage request failed: " +:+ e
                     +:+ " - HUMAN INPUT REQUIRED")).

(** [DiscordManager.send_completion_message] *)
Definition send_completion_message
    (channel_id original_message_id approver_name action_summary : string) : M World bool :=
  try_except
    (if String.eqb (DISCORD_WEBHOOK_URL E) "" then ret false
     else
       let! _ := post (CompletionPost original_message_id approver_name action_summary) in
       ret true)
    (fun _ => ret false).

(** [TriageRequestTool.run]: the manager's coroutine runs to its end in a
    thread with an event loop of its own while the caller waits for the
    thread with [future.result(timeout=3700)].  The JSON text that is
    returned is identified with the record it encodes. *)
Definition TriageRequestTool_run (clarification : TriageClarification) :
    M World DecisionRecord :=
  try_except
    (fun w =>
       match send_triage_request clarification w with
       | (o, w') =>
           if Qle_bool (clock w' - clock w)%Q 3700 then (o, w')
           else (Raise "Discord triage request timed out - HUMAN INPUT REQUIRED", w')
       end)
    (fun e => raise ("Discord triage request failed: " +:+ e
                     +:+ " - HUMAN INPUT REQUIRED")).

(** [post_for_approval], the legacy entry point.  [duplicate_info] is
    [None] or a dictionary; [issue_data] is the dictionary of the issue. *)
Definition post_for_approval (issue_data : IssueData) (severity : string)
    (duplicate_info : option DuplicateInfo) (ai_summary : string) : M World Approval :=
  try_except
    (let is_duplicate :=
       match duplicate_info with
       | Some d => default false (info_is_duplicate d)
       | None => false
       end in
     let similarity_score := duplicate_info ≫= info_similarity_score in
     let duplicate_issue_id := duplicate_info ≫= info_duplicate_issue_number in
     let! result :=
       TriageRequestTool_run
         {| issue_title := default "Unknown" (title issue_data);
            issue_number := default 0%Z (number issue_data);
            severity := Some severity;
            ai_summary := Some ai_summary;
            issue_body := "";
            is_duplicate := is_duplicate;
            similarity_score := similarity_score;
            duplicate_issue_id := duplicate_issue_id;
            response_future := None |} in
     ret {| approved := String.eqb (decision result) "approve";
            user := "discord-user";
            reason := "Human decision: " +:+ decision result;
            modified_data_of := Some (data result) |})
    (fun e =>
       ret {| approved := false; user := "system"; reason := "Error: " +:+ e;
              modified_data_of := None |}).

End WithEnv.
End discord_tools.

(* ===================================================================== *)
(** ** [agent.py]: the triage pipeline *)
(* ===================================================================== *)

Module agent.
Section WithEnv.
Variable E : Env.

(** A phase works on the [TriageState] it is handed and on the world. *)
Definition Sys : Type := TriageState * World.

Definition state : M Sys TriageState := fun s => (Return s.1, s).

Definition update (f : TriageState -> TriageState) : M Sys unit :=
  fun s => (Return tt, (f s.1, s.2)).

Definition world {A} (m : M World A) : M Sys A :=
  fun s => match m s.2 with (o, w') => (o, (s.1, w')) end.

(** [SophisticatedTriageAgent._perform_ai_analysis] *)
Definition _perform_ai_analysis : M Sys unit :=
  try_except
    (let! st := state in
     let! sev := call (classify_severity E (issue_title st) (issue_body st)) in
     let! _ := update (set_severity (Some sev)) in
     let! summ := call (summarize_issue E (issue_title st) (issue_body st)) in
     update (set_ai_summary (Some summ)))
    (fun _ =>
       let! _ := update (set_severity (Some "Medium")) in
       update (fun st => set_ai_summary (Some ("Issue: " +:+ issue_title st)) st)).

(** The truth value of [duplicate_id and similarity_score]. *)
Definition match_found (duplicate_id : option Z) (similarity_score : option Q) : bool :=
  match duplicate_id, similarity_score with
  | Some d, Some s => negb (d =? 0)%Z && negb (Qeq_bool s 0)
  | _, _ => false
  end.

(** [SophisticatedTriageAgent._perform_duplicate_detection].  The index is
    asked through the environment and the world is left as it is: the empty
    [_mock_issues] list a search in mock mode creates when there is none is
    not recorded, every reader of the list taking a missing one for an empty
    one. *)
Definition _perform_duplicate_detection : M Sys unit :=
  try_except
    (let! st := state in
     let! found :=
       world (fun w =>
                call (find_duplicate E (_mock_issues w) (collection w)
                        (issue_title st) (issue_body st) (85 # 100)) w) in
     match found with
     | (Some duplicate_id, Some similarity_score) =>
         if match_found (Some duplicate_id) (Some similarity_score) then
           let! _ := update (set_is_duplicate true) in
           let! _ := update (set_similarity_score (Some similarity_score)) in
           let! _ := update (set_duplicate_issue_id (Some duplicate_id)) in
           update (set_proposed_comment
                     (Some (ai_tools.draft_duplicate_comment duplicate_id similarity_score)))
         else ret tt
     | _ => ret tt
     end)
    (fun _ => update (set_is_duplicate false)).

(** The [TriageClarification] built from the state. *)
Definition clarification_of (st : TriageState) : discord_tools.TriageClarification := {|
  discord_tools.issue_title := issue_title st;
  discord_tools.issue_number := issue_id st;
  discord_tools.severity := severity st;
  discord_tools.ai_summary := ai_summary st;
  discord_tools.issue_body := issue_body st;
  discord_tools.is_duplicate := is_duplicate st;
  discord_tools.similarity_score := similarity_score st;
  discord_tools.duplicate_issue_id := duplicate_issue_id st;
  discord_tools.response_future := None;
|}.

(** [SophisticatedTriageAgent._request_human_clarification] *)
Definition _request_human_clarification : M Sys unit :=
  try_except
    (let! st := state in
     let! r := world (discord_tools.send_triage_request E (clarification_of st)) in
     update (set_human_decision (Some r)))
    (fun e => raise ("Human clarification required but failed: " +:+ e)).

Definition severity_emojis : list (string * string) :=
  [("Critical", "🔴"); ("High", "🟠"); ("Medium", "🟡"); ("Low", "🟢"); ("Info", "🔵")].

(** [{...}.get(severity_label, "📋")] *)
Definition severity_emoji (severity_label : pyval) : string :=
  match severity_label with
  | PStr s => default "📋" (github_tools.assoc s severity_emojis)
  | _ => "📋"
  end.

(** The f-string [summary_comment]. *)
Definition summary_comment (severity_label summary : pyval) : string :=
  "## " +:+ severity_emoji severity_label +:+ " AI Triage Analysis

**Severity Classification:** " +:+ py_str severity_label +:+ "

**Analysis Summary:**
" +:+ py_str summary +:+ "

**Recommended Actions:**
- Issue has been classified as **" +:+ py_str severity_label +:+ "** priority
- Appropriate severity label has been applied
- Issue details have been recorded in the knowledge base

*This analysis was generated by AI and approved by a human triager.*".

(** [SophisticatedTriageAgent._execute_decision] *)
Definition _execute_decision : M Sys unit :=
  let! st := state in
  match human_decision st with
  | None => raise "'NoneType' object has no attribute 'get'"
  | Some hd =>
      let decision := decision hd in
      let modified_data := data hd in
      if String.eqb decision "approve" then
        let comment :=
          dict_get_default "comment" (of_opt (proposed_comment st)) modified_data in
        if is_duplicate st then
          try_except
            (let! success := world (github_tools.post_comment E (issue_id st) comment) in
             let! _ := update (record_action "comment_posted" (PBool success)) in
             let! success :=
               world (github_tools.add_label E (issue_id st) (PStr "duplicate")) in
             let! _ := update (record_action "duplicate_label_added" (PBool success)) in
             let! success :=
               world (github_tools.close_issue E (issue_id st) "duplicate") in
             update (record_action "issue_closed" (PBool success)))
            (fun e => update (record_action "error" (PStr e)))
        else
          let severity_label :=
            dict_get_default "severity" (of_opt (severity st)) modified_data in
          let summary :=
            dict_get_default "summary" (of_opt (ai_summary st)) modified_data in
          try_except
            (let! success :=
               world (github_tools.add_label E (issue_id st) severity_label) in
             let! _ := update (record_action "severity_label_added" (PBool success)) in
             let! success :=
               world (github_tools.post_comment E (issue_id st)
                        (PStr (summary_comment severity_label summary))) in
             let! _ := update (record_action "summary_posted" (PBool success)) in
             let! _ :=
               world (weaviate_tools.add_issue E (issue_id st) (issue_title st)
                        (issue_body st)) in
             update (record_action "added_to_knowledge_base" (PBool true)))
            (fun e => update (record_action "error" (PStr e)))
      else if String.eqb decision "reject" then
        update (record_action "rejected" (PBool true))
      else if String.eqb decision "timeout" then
        update (record_action "timed_out" (PBool true))
      else ret tt
  end.

(** [[k for k, v in state.actions_executed.items() if v]] *)
Definition executed_actions (actions : pydict) : list string :=
  (List.filter (fun kv => truthy kv.2) actions).*1.

(** [SophisticatedTriageAgent._send_completion_notification] *)
Definition _send_completion_notification : M Sys unit :=
  try_except
    (let! st := state in
     let action_summary :=
       "Issue #" +:+ pretty (issue_id st) +:+ " processed: "
       +:+ join ", " (executed_actions (actions_executed st)) in
     let! success :=
       world (discord_tools.send_completion_message E "general"
                ("triage-" +:+ pretty (issue_id st)) "Discord User" action_summary) in
     update (set_completion_message_sent success))
    (fun _ => ret tt).

(** The dictionary returned at the end of the [try] block. *)
Definition success_result (st : TriageState) : TriageResult :=
  TriageSuccess (issue_id st) (severity st) (ai_summary st) (is_duplicate st)
    (similarity_score st) (human_decision st) (actions_executed st)
    (completion_message_sent st).

(** The five phases in the order of the [try] block. *)
Definition phases : M Sys unit :=
  let! _ := _perform_ai_analysis in
  let! _ := _perform_duplicate_detection in
  let! _ := _request_human_clarification in
  let! _ := _execute_decision in
  _send_completion_notification.

(** The two [return] statements of [triage_new_issue]: the success
    dictionary after the [try] block, the failure dictionary in its
    [except] clause. *)
Definition finish (r : outcome unit * Sys) : outcome TriageResult * World :=
  match r with
  | (Return _, (st, w')) => (Return (success_result st), w')
  | (Raise e, (st, w')) => (Return (TriageFailure (issue_id st) e), w')
  | (Waiting, (_, w')) => (Waiting, w')
  end.

(** [SophisticatedTriageAgent.triage_new_issue] *)
Definition triage_new_issue (issue_data : IssueData) : M World TriageResult :=
  fun w => finish (phases (new_TriageState issue_data, w)).

End WithEnv.

(** The parsed body of a webhook request, as far as the handlers read it: a
    JSON object with its [action] (a string, a boolean or null), [issue] and
    [repository] entries, each absent or present, or a JSON value of another
    type, named as Python names it. *)
Inductive json_issue :=
| issue_object (issue_data : IssueData)
| issue_other (type_name : string).

Inductive json_repository :=
| repository_object (full_name : option string)
| repository_other (type_name : string).

Inductive json_payload :=
| payload_object (action : option pyval) (issue : option json_issue)
    (repository : option json_repository)
| payload_other (type_name : string).

(** The empty dictionary that stands in for a missing [issue]. *)
Definition empty_issue : IssueData := {|
  number := None; title := None; body := None; html_url := None;
  repository_full_name := None;
|}.

(** The message of the [AttributeError] of [x.get] on a value that is not a
    dictionary. *)
Definition no_get (type_name : string) : string :=
  "'" +:+ type_name +:+ "' object has no attribute 'get'".

(** [action != 'opened'], negated. *)
Definition is_opened (action : pyval) : bool :=
  match action with
  | PStr s => String.eqb s "opened"
  | _ => false
  end.

(** The three dictionaries [process_webhook] returns: the skip notice, the
    result of the pipeline with [webhook_action] added, and the failure
    notice of its [except] clause. *)
Inductive WebhookResult :=
| WebhookSkipped (reason : string)
| WebhookTriaged (result : TriageResult) (webhook_action : pyval)
| WebhookFailed (error : string).

(** [result.get('success')] *)
Definition webhook_success (r : WebhookResult) : bool :=
  match r with
  | WebhookSkipped _ => true
  | WebhookTriaged result _ => success result
  | WebhookFailed _ => false
  end.

Section Webhook.
Variable E : Env.

(** [process_webhook] *)
Definition process_webhook (webhook_data : json_payload) : M World WebhookResult :=
  try_except
    (match webhook_data with
     | payload_other type_name => raise (no_get type_name)
     | payload_object action issue _ =>
         let action := default (PStr "") action in
         if negb (is_opened action) then
           ret (WebhookSkipped
                  ("Only processing " +:+ ai_tools.dq +:+ "opened" +:+ ai_tools.dq
                   +:+ " issues, got: " +:+ py_str action))
         else
           match default (issue_object empty_issue) issue with
           | issue_other type_name => raise (no_get type_name)
           | issue_object issue_data =>
               let! result := triage_new_issue E issue_data in
               ret (WebhookTriaged result action)
           end
     end)
    (fun e => ret (WebhookFailed e)).

(** [triage_issue] *)
Definition triage_issue (issue_data : IssueData) : M World TriageResult :=
  triage_new_issue E issue_data.

End Webhook.
End agent.

(* ===================================================================== *)
(** ** [webhook_server.py]: the HTTP endpoint *)
(* ===================================================================== *)

Module webhook_server.

(** [webhook_stats]; the time of the last request is kept as the clock
    value, not as its ISO text. *)
Record Stats := {
  total_received : nat;
  issues_triaged : nat;
  last_webhook : option Q;
  errors : nat;
}.

(** What [handle_webhook] reads of the request: the body and the two
    headers, [None] for a header that is absent. *)
Record Request := {
  get_data : string;
  X_Hub_Signature_256 : option string;
  X_GitHub_Event : option string;
}.

(** What [json.loads] does with the body. *)
Inductive json_result :=
| Parsed (payload : agent.json_payload)
| JSONDecodeError (msg : string)
| OtherError (msg : string).

(** What [run_async_processing] returns: the dictionary of
    [process_webhook] or the one of its own [except] clause. *)
Inductive Processing :=
| Processed (result : agent.WebhookResult)
| ProcessingError (error : string).

Definition processing_success (r : Processing) : bool :=
  match r with
  | Processed result => agent.webhook_success result
  | ProcessingError _ => false
  end.

(** [result.get('error', 'Unknown error')] *)
Definition processing_error (r : Processing) : string :=
  match r with
  | Processed (agent.WebhookTriaged (TriageFailure _ e) _) => e
  | Processed (agent.WebhookFailed e) => e
  | Processed _ => "Unknown error"
  | ProcessingError e => e
  end.

(** The JSON bodies of the responses. *)
Inductive Body :=
| BodyError (error : string)
| BodyMessage (message : string)
| BodyTriaged (issue_number : option Z) (repository : option string)
    (result : Processing)
| BodyFailed (issue_number : option Z) (repository : option string) (error : string).

(** The server's state: its counters and the world of the pipeline. *)
Definition Server : Type := Stats * World.

(** The first two statements of [handle_webhook]. *)
Definition received (s : Server) : Server :=
  ({| total_received := S (total_received s.1);
      issues_triaged := issues_triaged s.1;
      last_webhook := Some (clock s.2);
      errors := errors s.1 |}, s.2).

(** [webhook_stats['errors'] += 1] *)
Definition count_error (s : Server) : Server :=
  ({| total_received := total_received s.1;
      issues_triaged := issues_triaged s.1;
      last_webhook := last_webhook s.1;
      errors := S (errors s.1) |}, s.2).

(** [webhook_stats['issues_triaged'] += 1] *)
Definition count_triaged (s : Server) : Server :=
  ({| total_received := total_received s.1;
      issues_triaged := S (issues_triaged s.1);
      last_webhook := last_webhook s.1;
      errors := errors s.1 |}, s.2).

Definition in_world {A} (m : M World A) : M Server A :=
  fun s => match m s.2 with (o, w') => (o, (s.1, w')) end.

(** Every character of the text is an ASCII character. *)
Fixpoint is_ascii (s : string) : bool :=
  match s with
  | EmptyString => true
  | String c s' => Nat.ltb (Ascii.nat_of_ascii c) 128 && is_ascii s'
  end.

(** [hmac.compare_digest] on two [str]: it refuses text that is not
    ASCII. *)
Definition compare_digest (a b : string) : pyresult bool :=
  if is_ascii a && is_ascii b then Ok (String.eqb a b)
  else Exc "comparing strings with non-ASCII characters is not supported".

Section WithEnv.
Variable E : Env.

(** [config.GITHUB_WEBHOOK_SECRET] *)
Variable GITHUB_WEBHOOK_SECRET : string.

(** [hmac.new(key, body, hashlib.sha256).hexdigest()] *)
Variable hexdigest : string -> string -> string.

(** [json.loads] *)
Variable json_loads : string -> json_result.

(** [verify_webhook_signature] *)
Definition verify_webhook_signature (payload_body signature_header : string) :
    pyresult bool :=
  if String.eqb GITHUB_WEBHOOK_SECRET "" then Ok true
  else if String.eqb signature_header "" then Ok false
  else
    let expected_signature :=
      "sha256=" +:+ hexdigest GITHUB_WEBHOOK_SECRET payload_body in
    compare_digest expected_signature signature_header.

(** [run_async_processing], the closure of [handle_webhook] *)
Definition run_async_processing (payload : agent.json_payload) : M Server Processing :=
  try_except
    (let! result := in_world (agent.process_webhook E payload) in
     let! _ :=
       if agent.webhook_success result then modify count_triaged
       else modify count_error in
     ret (Processed result))
    (fun e =>
       let! _ := modify count_error in
       ret (ProcessingError e)).

(** [handle_webhook]: the response body and the status code. *)
Definition handle_webhook (request : Request) : M Server (Body * Z) :=
  let! _ := modify received in
  try_except
    (let payload_body := get_data request in
     let signature_header := default "" (X_Hub_Signature_256 request) in
     let event_type := default "" (X_GitHub_Event request) in
     let! valid := call (verify_webhook_signature payload_body signature_header) in
     if negb valid then
       let! _ := modify count_error in
       ret (BodyError "Invalid signature", 401%Z)
     else
       match json_loads payload_body with
       | JSONDecodeError _ =>
           let! _ := modify count_error in
           ret (BodyError "Invalid JSON payload", 400%Z)
       | OtherError e => raise e
       | Parsed payload =>
           if negb (String.eqb event_type "issues") then
             ret (BodyMessage ("Ignored event type: " +:+ event_type), 200%Z)
           else
             match payload with
             | agent.payload_other type_name => raise (agent.no_get type_name)
             | agent.payload_object action issue repo =>
                 let action := default (PStr "unknown") action in
                 match default (agent.issue_object agent.empty_issue) issue with
                 | agent.issue_other type_name => raise (agent.no_get type_name)
                 | agent.issue_object issue =>
                     match default (agent.repository_object None) repo with
                     | agent.repository_other type_name =>
                         raise (agent.no_get type_name)
                     | agent.repository_object full_name =>
                         if negb (agent.is_opened action) then
                           ret (BodyMessage ("Ignored action: " +:+ py_str action),
                                200%Z)
                         else
                           let! result := run_async_processing payload in
                           if processing_success result then
                             ret (BodyTriaged (number issue) full_name result, 200%Z)
                           else
                             ret (BodyFailed (number issue) full_name
                                    (processing_error result), 500%Z)
                     end
                 end
             end
       end)
    (fun _ =>
       let! _ := modify count_error in
       ret (BodyError "Internal server error", 500%Z)).

End WithEnv.
End webhook_server.

(* ===================================================================== *)
(** ** Notions used in the statements *)
(* ===================================================================== *)

(** A computation that never stays suspended, one that always returns, and
    one that leaves an observation of the state unchanged. *)
Definition total {S A} (m : M S A) : Prop := ∀ s, (m s).1 ≠ Waiting.

Definition returns {S A} (m : M S A) : Prop := ∀ s, ∃ a s', m s = (Return a, s').

Definition keeps {S A X} (f : S → X) (m : M S A) : Prop := ∀ s, f (m s).2 = f s.

(** A computation that maintains a property of the state. *)
Definition preserves {S A} (P : S → Prop) (m : M S A) : Prop :=
  ∀ s, P s → P (m s).2.

(** The issue a callback writes for and the record it tries to write; the
    registry statements of a concurrent pipeline write no record. *)
Definition written_record (e : event) : option (Z * DecisionRecord) :=
  match e with
  | approve_click n => Some (n, discord_bot.approve_record)
  | reject_click n => Some (n, discord_bot.reject_record)
  | modal_submit n sev text dup => Some (n, discord_bot.modified_data sev text dup)
  | view_timeout n => Some (n, discord_bot.timeout_record)
  | concurrent_register _ => None
  | concurrent_cleanup _ => None
  end.

Definition is_writer (e : event) : bool :=
  match written_record e with
  | Some _ => true
  | None => false
  end.

(** No callback for issue [n] runs during the tick. *)
Definition quiet_for (n : Z) (t : tick) : bool :=
  forallb
    (fun e => match written_record e with
              | Some (m, _) => negb (m =? n)%Z
              | None => true
              end)
    (tick_events t).

(** The event concerns another issue than [n]. *)
Definition unrelated_to (n : Z) (e : event) : bool :=
  match e with
  | approve_click m | reject_click m | modal_submit m _ _ _ | view_timeout m
  | concurrent_register m | concurrent_cleanup m => negb (m =? n)%Z
  end.

(** Nothing that happens during the tick concerns issue [n]. *)
Definition calm_for (n : Z) (t : tick) : bool :=
  forallb (unrelated_to n) (tick_events t).

(** The clock does not run backwards. *)
Definition forward (sched : list tick) : bool :=
  forallb (fun t => Qle_bool 0 (tick_dt t)) sched.

(** The time the ticks of a schedule span. *)
Fixpoint duration (sched : list tick) : Q :=
  match sched with
  | [] => 0
  | t :: rest => tick_dt t + duration rest
  end.

(** The suspensions of [discord_bot.send_triage_request] before it
    registers its future: one for [channel.send], and one before it when the
    bot is not ready yet. *)
Definition publish_ticks (E : Env) : nat := if bot_ready E then 1 else 2.

(** Every registered key refers to an existing future object. *)
Definition no_dangling (w : World) : Prop :=
  map_Forall (fun _ f => f < length (futures w)) (pending_decisions w).

(** The part of [discord_bot.send_triage_request] that runs before the
    registration when the channel accepts the request: its suspensions. *)
Definition prelude (E : Env) : M World unit :=
  let! _ := (if bot_ready E then ret tt else discord_bot.suspend) in
  discord_bot.suspend.

(** The future registered under [key], if there is one, is not done and is
    registered under no other key. *)
Definition waiting_on (key : string) (w : World) : Prop :=
  ∀ f, pending_decisions w !! key = Some f →
       futures w !! f = Some None ∧
       ∀ k', pending_decisions w !! k' = Some f → k' = key.

(** [key] is registered to future [f], which is not done and is registered
    under no other key. *)
Definition registered_pending (key : string) (f : nat) (w : World) : Prop :=
  pending_decisions w !! key = Some f ∧
  futures w !! f = Some None ∧
  ∀ k', pending_decisions w !! k' = Some f → k' = key.

(** Every event of the schedule is one of the four callbacks. *)
Definition callbacks_only (sched : list tick) : bool :=
  forallb (fun t => forallb is_writer (tick_events t)) sched.

(** The event is not a concurrent registration for issue [n]. *)
Definition not_register (n : Z) (e : event) : bool :=
  match e with
  | concurrent_register m => negb (m =? n)%Z
  | _ => true
  end.

(** The three kinds of decision the pipeline acts on. *)
Definition known_kind (r : DecisionRecord) : Prop :=
  decision r = "approve" ∨ decision r = "reject" ∨ decision r = "timeout".

(** What the record store has been asked and what the two stores of the
    duplicate index hold.  The reports of [_mock_issues] are what counts: a
    list that does not exist yet and an empty one hold the same reports, and
    a search of the index may create the empty list. *)
Definition store (w : World) :
    list gh_op * list gh_request * list stored_issue * list stored_issue :=
  (github_calls w, github_requests w, default [] (_mock_issues w), collection w).

(** The clarification [post_for_approval] hands to
    [TriageRequestTool.run]. *)
Definition legacy_clarification (issue_data : IssueData) (severity : string)
    (duplicate_info : option discord_tools.DuplicateInfo) (ai_summary : string) :
    discord_tools.TriageClarification := {|
  discord_tools.issue_title := default "Unknown" (title issue_data);
  discord_tools.issue_number := default 0%Z (number issue_data);
  discord_tools.severity := Some severity;
  discord_tools.ai_summary := Some ai_summary;
  discord_tools.issue_body := "";
  discord_tools.is_duplicate :=
    match duplicate_info with
    | Some d => default false (discord_tools.info_is_duplicate d)
    | None => false
    end;
  discord_tools.similarity_score :=
    duplicate_info ≫= discord_tools.info_similarity_score;
  discord_tools.duplicate_issue_id :=
    duplicate_info ≫= discord_tools.info_duplicate_issue_number;
  discord_tools.response_future := None;
|}.

(** The channel accepts the decision request. *)
Definition published (E : Env) : Prop :=
  (∃ c, channel_id E = Ok c) ∧ channel_found E = true ∧ channel_send E = Ok tt.

(* ===================================================================== *)
(** ** Sample environments and states *)
(* ===================================================================== *)

Module Sample.

(** Every service answers; the analysis says High, the index finds nothing. *)
Definition env : Env := {|
  DISCORD_WEBHOOK_URL := "https://discord.example/api/webhooks/1";
  GITHUB_REPO := "kunal-004/triage-ninja";
  channel_id := Ok 1234%Z;
  bot_importable := true;
  bot_loop := SameLoop;
  bot_ready := true;
  channel_found := true;
  channel_send := Ok tt;
  requests_post := fun _ _ => Ok tt;
  github_client := true;
  github_api := fun _ _ => true;
  weaviate_client := false;
  embed_content := fun _ => true;
  collection_insert := fun _ _ => true;
  find_duplicate := fun _ _ _ _ _ => Ok (None, None);
  classify_severity := fun _ _ => Ok "High";
  summarize_issue := fun _ _ => Ok "Login fails for every user";
|}.

Definition with_webhook_url (url : string) (E : Env) : Env := {|
  DISCORD_WEBHOOK_URL := url;
  GITHUB_REPO := GITHUB_REPO E; channel_id := channel_id E;
  bot_importable := bot_importable E; bot_loop := bot_loop E;
  bot_ready := bot_ready E; channel_found := channel_found E;
  channel_send := channel_send E; requests_post := requests_post E;
  github_client := github_client E; github_api := github_api E;
  weaviate_client := weaviate_client E; embed_content := embed_content E;
  collection_insert := collection_insert E; find_duplicate := find_duplicate E;
  classify_severity := classify_severity E; summarize_issue := summarize_issue E |}.

Definition with_github_api (api : list gh_request → gh_request → bool) (E : Env) : Env := {|
  DISCORD_WEBHOOK_URL := DISCORD_WEBHOOK_URL E;
  GITHUB_REPO := GITHUB_REPO E; channel_id := channel_id E;
  bot_importable := bot_importable E; bot_loop := bot_loop E;
  bot_ready := bot_ready E; channel_found := channel_found E;
  channel_send := channel_send E; requests_post := requests_post E;
  github_client := github_client E; github_api := api;
  weaviate_client := weaviate_client E; embed_content := embed_content E;
  collection_insert := collection_insert E; find_duplicate := find_duplicate E;
  classify_severity := classify_severity E; summarize_issue := summarize_issue E |}.

Definition with_find_duplicate (r : pyresult (option Z * option Q)) (E : Env) : Env := {|
  DISCORD_WEBHOOK_URL := DISCORD_WEBHOOK_URL E;
  GITHUB_REPO := GITHUB_REPO E; channel_id := channel_id E;
  bot_importable := bot_importable E; bot_loop := bot_loop E;
  bot_ready := bot_ready E; channel_found := channel_found E;
  channel_send := channel_send E; requests_post := requests_post E;
  github_client := github_client E; github_api := github_api E;
  weaviate_client := weaviate_client E; embed_content := embed_content E;
  collection_insert := collection_insert E; find_duplicate := fun _ _ _ _ _ => r;
  classify_severity := classify_severity E; summarize_issue := summarize_issue E |}.

Definition with_analysis (sev summ : pyresult string) (E : Env) : Env := {|
  DISCORD_WEBHOOK_URL := DISCORD_WEBHOOK_URL E;
  GITHUB_REPO := GITHUB_REPO E; channel_id := channel_id E;
  bot_importable := bot_importable E; bot_loop := bot_loop E;
  bot_ready := bot_ready E; channel_found := channel_found E;
  channel_send := channel_send E; requests_post := requests_post E;
  github_client := github_client E; github_api := github_api E;
  weaviate_client := weaviate_client E; embed_content := embed_content E;
  collection_insert := collection_insert E; find_duplicate := find_duplicate E;
  classify_severity := fun _ _ => sev; summarize_issue := fun _ _ => summ |}.

Definition with_channel_send (r : pyresult unit) (E : Env) : Env := {|
  DISCORD_WEBHOOK_URL := DISCORD_WEBHOOK_URL E;
  GITHUB_REPO := GITHUB_REPO E; channel_id := channel_id E;
  bot_importable := bot_importable E; bot_loop := bot_loop E;
  bot_ready := bot_ready E; channel_found := channel_found E;
  channel_send := r; requests_post := requests_post E;
  github_client := github_client E; github_api := github_api E;
  weaviate_client := weaviate_client E; embed_content := embed_content E;
  collection_insert := collection_insert E; find_duplicate := find_duplicate E;
  classify_severity := classify_severity E; summarize_issue := summarize_issue E |}.

Definition with_github_client (b : bool) (E : Env) : Env := {|
  DISCORD_WEBHOOK_URL := DISCORD_WEBHOOK_URL E;
  GITHUB_REPO := GITHUB_REPO E; channel_id := channel_id E;
  bot_importable := bot_importable E; bot_loop := bot_loop E;
  bot_ready := bot_ready E; channel_found := channel_found E;
  channel_send := channel_send E; requests_post := requests_post E;
  github_client := b; github_api := github_api E;
  weaviate_client := weaviate_client E; embed_content := embed_content E;
  collection_insert := collection_insert E; find_duplicate := find_duplicate E;
  classify_severity := classify_severity E; summarize_issue := summarize_issue E |}.

Definition with_bot_loop (m : loop_mode) (E : Env) : Env := {|
  DISCORD_WEBHOOK_URL := DISCORD_WEBHOOK_URL E;
  GITHUB_REPO := GITHUB_REPO E; channel_id := channel_id E;
  bot_importable := bot_importable E; bot_loop := m;
  bot_ready := bot_ready E; channel_found := channel_found E;
  channel_send := channel_send E; requests_post := requests_post E;
  github_client := github_client E; github_api := github_api E;
  weaviate_client := weaviate_client E; embed_content := embed_content E;
  collection_insert := collection_insert E; find_duplicate := find_duplicate E;
  classify_severity := classify_severity E; summarize_issue := summarize_issue E |}.

(** The comment endpoint is down, everything else works. *)
Definition comments_down (hist : list gh_request) (r : gh_request) : bool :=
  match r with
  | CreateComment _ _ => false
  | _ => true
  end.

(** Stand-ins for [str.lower], [str.strip] and [str.split], exact on
    texts made of ASCII letters, digits and single spaces. *)
Definition lower_char (c : Ascii.ascii) : Ascii.ascii :=
  let n := Ascii.nat_of_ascii c in
  if Nat.leb 65 n && Nat.leb n 90 then Ascii.ascii_of_nat (n + 32) else c.

Fixpoint lower (s : string) : string :=
  match s with
  | EmptyString => EmptyString
  | String c s' => String (lower_char c) (lower s')
  end.

Definition is_space (c : Ascii.ascii) : bool := Nat.eqb (Ascii.nat_of_ascii c) 32.

Fixpoint split_from (current : string) (s : string) : list string :=
  match s with
  | EmptyString => if String.eqb current EmptyString then [] else [current]
  | String c s' =>
      if is_space c then
        if String.eqb current EmptyString then split_from EmptyString s'
        else current :: split_from EmptyString s'
      else split_from (current +:+ String c EmptyString) s'
  end.

Definition split (s : string) : list string := split_from EmptyString s.

Fixpoint lstrip (s : string) : string :=
  match s with
  | String c s' => if is_space c then lstrip s' else s
  | EmptyString => EmptyString
  end.

Definition strip (s : string) : string :=
  String.rev (lstrip (String.rev (lstrip s))).

(** A vector index that holds nothing. *)
Definition no_objects (stored : list stored_issue) (text : string) :
    pyresult (list (Z * option Q)) := Ok [].

(** The duplicate index of the pipeline is the modelled implementation of
    [find_duplicate], run on the two stores it is handed. *)
Definition with_index (E : Env) : Env := {|
  DISCORD_WEBHOOK_URL := DISCORD_WEBHOOK_URL E;
  GITHUB_REPO := GITHUB_REPO E; channel_id := channel_id E;
  bot_importable := bot_importable E; bot_loop := bot_loop E;
  bot_ready := bot_ready E; channel_found := channel_found E;
  channel_send := channel_send E; requests_post := requests_post E;
  github_client := github_client E; github_api := github_api E;
  weaviate_client := weaviate_client E; embed_content := embed_content E;
  collection_insert := collection_insert E;
  find_duplicate := fun mock stored title body threshold =>
    match (weaviate_tools.find_duplicate E lower strip split no_objects
             title body threshold
             {| pending_decisions := ∅; futures := []; clock := 0; schedule := [];
                github_calls := []; github_requests := [];
                _mock_issues := mock; collection := stored;
                webhook_posts := [] |}).1 with
    | Return r => Ok r
    | Raise e => Exc e
    | Waiting => Exc "suspended"
    end;
  classify_severity := classify_severity E; summarize_issue := summarize_issue E |}.

(** The label lookup fails and so does the creation; everything else
    works. *)
Definition labels_unknown (hist : list gh_request) (r : gh_request) : bool :=
  match r with
  | GetLabel _ | CreateLabel _ _ => false
  | _ => true
  end.

(** A fresh process: nothing registered, nothing logged. *)
Definition world (sched : list tick) : World := {|
  pending_decisions := ∅;
  futures := [];
  clock := 0;
  schedule := sched;
  github_calls := [];
  github_requests := [];
  _mock_issues := None;
  collection := [];
  webhook_posts := [];
|}.

Definition idle (dt : Q) : tick := {| tick_events := []; tick_dt := dt |}.

Definition during (evs : list event) : tick := {| tick_events := evs; tick_dt := 1 |}.

Definition issue101 : IssueData := {|
  number := Some 101%Z;
  title := Some "Login broken";
  body := Some "Nobody can log in since this morning.";
  html_url := None;
  repository_full_name := None;
|}.

(** The state of issue 101 after the first two phases of a run that found
    no duplicate, and of a run that found issue 42 at 91 percent. *)
Definition unique101 : TriageState :=
  set_ai_summary (Some "Login fails for every user")
    (set_severity (Some "High") (new_TriageState issue101)).

Definition duplicate101 : TriageState :=
  set_proposed_comment (Some (ai_tools.draft_duplicate_comment 42 (91 # 100)%Q))
    (set_duplicate_issue_id (Some 42%Z)
       (set_similarity_score (Some (91 # 100)%Q)
          (set_is_duplicate true unique101))).

Definition decided (r : DecisionRecord) (st : TriageState) : TriageState :=
  set_human_decision (Some r) st.

(** The clarification [_request_human_clarification] builds for
    [unique101]. *)
Definition clarification101 : discord_tools.TriageClarification := {|
  discord_tools.issue_title := "Login broken";
  discord_tools.issue_number := 101;
  discord_tools.severity := Some "High";
  discord_tools.ai_summary := Some "Login fails for every user";
  discord_tools.issue_body := "Nobody can log in since this morning.";
  discord_tools.is_duplicate := false;
  discord_tools.similarity_score := None;
  discord_tools.duplicate_issue_id := None;
  discord_tools.response_future := None;
|}.

(** Stand-ins for the HMAC and for the JSON parser: one digest for every
    body, and one body that parses, the event of issue 101 being opened. *)
Definition hexdigest (key body : string) : string :=
  "5d5b09f6dcb2d53a5fffc60c4ac0d55fabdf556069d6631545f42aa6e3500f2e".

Definition opened101 : agent.json_payload :=
  agent.payload_object (Some (PStr "opened")) (Some (agent.issue_object issue101))
    (Some (agent.repository_object (Some "kunal-004/triage-ninja"))).

Definition json_loads (body : string) : webhook_server.json_result :=
  if String.eqb body "issue 101 opened" then webhook_server.Parsed opened101
  else webhook_server.JSONDecodeError "Expecting value".

Definition request (signature : option string) : webhook_server.Request := {|
  webhook_server.get_data := "issue 101 opened";
  webhook_server.X_Hub_Signature_256 := signature;
  webhook_server.X_GitHub_Event := Some "issues";
|}.

(** A server that has answered nothing yet. *)
Definition server (sched : list tick) : webhook_server.Server :=
  ({| webhook_server.total_received := 0; webhook_server.issues_triaged := 0;
      webhook_server.last_webhook := None; webhook_server.errors := 0 |},
   world sched).

(** Issue 7 is already waiting for its decision on future 0. *)
Definition world_pending7 (sched : list tick) : World :=
  discord_bot.register (discord_bot.decision_key 7) (world sched).

(** Then the human approves: future 0 is done. *)
Definition world_approved7 : World :=
  discord_bot.approve_button 7 (world_pending7 []).

End Sample.

(* ===================================================================== *)
(** ** Properties of the combinators *)
(* ===================================================================== *)

Section Combinators.
Context {S A B : Type}.

Lemma returns_total (m : M S A) : returns m → total m.
Proof. intros H s. destruct (H s) as (a & s' & ->). done. Qed.

Lemma total_ret (a : A) : total (ret (S := S) a).
Proof. intros s. done. Qed.

Lemma total_raise msg : total (raise (S := S) (A := A) msg).
Proof. intros s. done. Qed.

Lemma total_call (r : pyresult A) : total (call (S := S) r).
Proof. intros s. destruct r; done. Qed.

Lemma total_bind (m : M S A) (k : A → M S B) :
  total m → (∀ a, total (k a)) → total (bind m k).
Proof.
  intros Hm Hk s. unfold bind. specialize (Hm s).
  destruct (m s) as [[a|msg|] s']; cbn in *; [apply Hk|done|done].
Qed.

Lemma total_try_except (m : M S A) (h : string → M S A) :
  total m → (∀ e, total (h e)) → total (try_except m h).
Proof.
  intros Hm Hh s. unfold try_except. specialize (Hm s).
  destruct (m s) as [[a|msg|] s']; cbn in *; [done|apply Hh|done].
Qed.

Lemma returns_ret (a : A) : returns (ret (S := S) a).
Proof. intros s. by exists a, s. Qed.

Lemma returns_bind (m : M S A) (k : A → M S B) :
  returns m → (∀ a, returns (k a)) → returns (bind m k).
Proof.
  intros Hm Hk s. unfold bind. destruct (Hm s) as (a & s' & ->). apply Hk.
Qed.

Lemma returns_try_except (m : M S A) (h : string → M S A) :
  total m → (∀ e, returns (h e)) → returns (try_except m h).
Proof.
  intros Hm Hh s. unfold try_except. specialize (Hm s).
  destruct (m s) as [[a|msg|] s']; cbn in *; [by eauto|apply Hh|done].
Qed.

Context {X : Type} (f : S → X).

Lemma keeps_ret (a : A) : keeps f (ret a).
Proof. intros s. done. Qed.

Lemma keeps_raise msg : keeps f (raise (A := A) msg).
Proof. intros s. done. Qed.

Lemma keeps_call (r : pyresult A) : keeps f (call r).
Proof. intros s. destruct r; done. Qed.

Lemma keeps_bind (m : M S A) (k : A → M S B) :
  keeps f m → (∀ a, keeps f (k a)) → keeps f (bind m k).
Proof.
  intros Hm Hk s. unfold bind. specialize (Hm s).
  destruct (m s) as [[a|msg|] s']; cbn in *; [by rewrite Hk|done|done].
Qed.

Lemma keeps_try_except (m : M S A) (h : string → M S A) :
  keeps f m → (∀ e, keeps f (h e)) → keeps f (try_except m h).
Proof.
  intros Hm Hh s. unfold try_except. specialize (Hm s).
  destruct (m s) as [[a|msg|] s']; cbn in *; [done|by rewrite Hh|done].
Qed.

End Combinators.

Ltac py_total :=
  repeat first
    [ apply total_ret | apply total_raise | apply total_call
    | apply total_bind | apply total_try_except
    | match goal with |- ∀ _, total _ => intro end ].

Ltac py_keeps :=
  repeat first
    [ apply keeps_ret | apply keeps_raise | apply keeps_call
    | apply keeps_bind | apply keeps_try_except
    | match goal with |- ∀ _, keeps _ _ => intro end ].

(* ===================================================================== *)
(** ** The record store never raises *)
(* ===================================================================== *)

Section RecordStore.
Variable E : Env.

Lemma total_request r : total (github_tools.request E r).
Proof. intros w. unfold github_tools.request. by case_match. Qed.

Lemma keeps_calls_request r : keeps github_calls (github_tools.request E r).
Proof. intros w. unfold github_tools.request. by case_match. Qed.

Lemma total__get_repo : total (github_tools._get_repo E).
Proof.
  unfold github_tools._get_repo. case_match; py_total. apply total_request.
Qed.

Lemma keeps_calls__get_repo : keeps github_calls (github_tools._get_repo E).
Proof.
  unfold github_tools._get_repo. case_match; py_keeps. apply keeps_calls_request.
Qed.

Lemma returns_invoked op : returns (github_tools.invoked op).
Proof. intros w. by eexists _, _. Qed.

Lemma add_label_returns n l : returns (github_tools.add_label E n l).
Proof.
  apply returns_bind; [apply returns_invoked|intros _].
  apply returns_try_except; [|intros; apply returns_ret].
  py_total; first [apply total__get_repo | apply total_request].
Qed.

Lemma post_comment_returns n c : returns (github_tools.post_comment E n c).
Proof.
  apply returns_bind; [apply returns_invoked|intros _].
  apply returns_try_except; [|intros; apply returns_ret].
  py_total; first [apply total__get_repo | apply total_request].
Qed.

Lemma close_issue_returns n r : returns (github_tools.close_issue E n r).
Proof.
  apply returns_bind; [apply returns_invoked|intros _].
  apply returns_try_except; [|intros; apply returns_ret].
  py_total; first [apply total__get_repo | apply total_request].
Qed.

Lemma calls_after {A} op (m : M World A) w :
  keeps github_calls m →
  github_calls (bind (github_tools.invoked op) (λ _, m) w).2 = github_calls w ++ [op].
Proof. intros H. unfold bind, github_tools.invoked, modify. cbn. by rewrite H. Qed.

Lemma add_label_calls n l w :
  github_calls (github_tools.add_label E n l w).2 = github_calls w ++ [OpAddLabel n l].
Proof.
  apply calls_after.
  py_keeps; first [apply keeps_calls__get_repo | apply keeps_calls_request].
Qed.

Lemma post_comment_calls n c w :
  github_calls (github_tools.post_comment E n c w).2
  = github_calls w ++ [OpPostComment n c].
Proof.
  apply calls_after.
  py_keeps; first [apply keeps_calls__get_repo | apply keeps_calls_request].
Qed.

Lemma close_issue_calls n r w :
  github_calls (github_tools.close_issue E n r w).2
  = github_calls w ++ [OpCloseIssue n r].
Proof.
  apply calls_after.
  py_keeps; first [apply keeps_calls__get_repo | apply keeps_calls_request].
Qed.

(** Whatever Weaviate and the embedding service do, [add_issue] returns and
    the report ends up in one of the two stores. *)
Lemma add_issue_registers n t b w :
  ∃ w', weaviate_tools.add_issue E n t b w = (Return tt, w') ∧
        weaviate_tools.registered
          {| stored_id := n; stored_title := t; stored_body := b |} w' ∧
        github_calls w' = github_calls w.
Proof.
  unfold weaviate_tools.add_issue, weaviate_tools.mock_append, weaviate_tools.insert,
    weaviate_tools.registered, try_except, bind, modify, ret, raise.
  cbn. repeat case_match; simplify_eq; eexists; (split; [reflexivity|]); cbn;
    rewrite ?in_app_iff; cbn; auto.
Qed.

End RecordStore.

Arguments github_tools.add_label : simpl never.
Arguments github_tools.post_comment : simpl never.
Arguments github_tools.close_issue : simpl never.
Arguments weaviate_tools.add_issue : simpl never.
Arguments discord_tools.send_completion_message : simpl never.
Arguments discord_tools.send_triage_request : simpl never.

(* ===================================================================== *)
(** ** Decision execution *)
(* ===================================================================== *)

(** C5. When the state is a duplicate and the decision is [approve], the
    three record-store calls are made one after the other, each on the world
    the previous one left, whatever the previous one answered; the action
    map ends up with exactly the keys [comment_posted],
    [duplicate_label_added] and [issue_closed], each holding the boolean its
    own call returned. *)
Theorem approved_duplicate_actions E st w hd :
  human_decision st = Some hd →
  decision hd = "approve" →
  is_duplicate st = true →
  actions_executed st = [] →
  ∃ b1 b2 b3 w1 w2 w3,
    github_tools.post_comment E (issue_id st)
      (dict_get_default "comment" (of_opt (proposed_comment st)) (data hd)) w
      = (Return b1, w1) ∧
    github_tools.add_label E (issue_id st) (PStr "duplicate") w1 = (Return b2, w2) ∧
    github_tools.close_issue E (issue_id st) "duplicate" w2 = (Return b3, w3) ∧
    agent._execute_decision E (st, w) =
      (Return tt,
       (set_actions_executed
          [("comment_posted", PBool b1); ("duplicate_label_added", PBool b2);
           ("issue_closed", PBool b3)] st, w3)) ∧
    github_calls w3 =
      github_calls w ++
        [OpPostComment (issue_id st)
           (dict_get_default "comment" (of_opt (proposed_comment st)) (data hd));
         OpAddLabel (issue_id st) (PStr "duplicate");
         OpCloseIssue (issue_id st) "duplicate"].
Proof.
  intros Hhd Hdec Hdup Hact.
  set (comment := dict_get_default _ _ _).
  destruct (post_comment_returns E (issue_id st) comment w) as (b1 & w1 & H1).
  destruct (add_label_returns E (issue_id st) (PStr "duplicate") w1) as (b2 & w2 & H2).
  destruct (close_issue_returns E (issue_id st) "duplicate" w2) as (b3 & w3 & H3).
  exists b1, b2, b3, w1, w2, w3. repeat split; try done.
  - unfold agent._execute_decision, bind, agent.state, agent.world, agent.update,
      try_except.
    cbn. rewrite Hhd, Hdec, Hdup. cbn. fold comment. rewrite H1. cbn. rewrite H2. cbn.
    rewrite H3. cbn. unfold record_action. cbn. rewrite Hact. reflexivity.
  - pose proof (post_comment_calls E (issue_id st) comment w) as C1.
    pose proof (add_label_calls E (issue_id st) (PStr "duplicate") w1) as C2.
    pose proof (close_issue_calls E (issue_id st) "duplicate" w2) as C3.
    rewrite H1 in C1. rewrite H2 in C2. rewrite H3 in C3. cbn in *.
    rewrite C3, C2, C1. by rewrite <- !app_assoc.
Qed.

Lemma approved_duplicate_actions_witness :
  let E := Sample.with_github_api Sample.comments_down Sample.env in
  let st := Sample.decided discord_bot.approve_record Sample.duplicate101 in
  let w := Sample.world [] in
  human_decision st = Some discord_bot.approve_record ∧
  decision discord_bot.approve_record = "approve" ∧
  is_duplicate st = true ∧
  actions_executed st = [] ∧
  ∃ b1 b2 b3 w1 w2 w3,
    github_tools.post_comment E (issue_id st)
      (dict_get_default "comment" (of_opt (proposed_comment st))
         (data discord_bot.approve_record)) w
      = (Return b1, w1) ∧
    github_tools.add_label E (issue_id st) (PStr "duplicate") w1 = (Return b2, w2) ∧
    github_tools.close_issue E (issue_id st) "duplicate" w2 = (Return b3, w3) ∧
    agent._execute_decision E (st, w) =
      (Return tt,
       (set_actions_executed
          [("comment_posted", PBool b1); ("duplicate_label_added", PBool b2);
           ("issue_closed", PBool b3)] st, w3)) ∧
    github_calls w3 =
      github_calls w ++
        [OpPostComment (issue_id st)
           (dict_get_default "comment" (of_opt (proposed_comment st))
              (data discord_bot.approve_record));
         OpAddLabel (issue_id st) (PStr "duplicate");
         OpCloseIssue (issue_id st) "duplicate"].
Proof.
  intros E st w.
  split; [reflexivity|]. split; [reflexivity|]. split; [reflexivity|].
  split; [reflexivity|].
  apply (approved_duplicate_actions E st w discord_bot.approve_record); reflexivity.
Defined.

(** With the comment endpoint down the comment is recorded as failed, and
    the label and the closing are attempted and recorded all the same. *)
Example comment_failure_does_not_block :
  actions_executed
    (agent._execute_decision (Sample.with_github_api Sample.comments_down Sample.env)
       (Sample.decided discord_bot.approve_record Sample.duplicate101,
        Sample.world [])).2.1
  = [("comment_posted", PBool false); ("duplicate_label_added", PBool true);
     ("issue_closed", PBool true)].
Proof. vm_compute. reflexivity. Qed.

(** C6. When the state is not a duplicate and the decision is [approve],
    the severity label is added, the analysis comment is posted and the
    report is handed to the duplicate index, in this order and whatever the
    earlier calls answered; the action map ends up with exactly the keys
    [severity_label_added], [summary_posted] and [added_to_knowledge_base],
    the first two holding what their calls returned, and the report is in
    the index afterwards. *)
Theorem approved_unique_actions E st w hd :
  human_decision st = Some hd →
  decision hd = "approve" →
  is_duplicate st = false →
  actions_executed st = [] →
  ∃ b1 b2 w1 w2 w3,
    github_tools.add_label E (issue_id st)
      (dict_get_default "severity" (of_opt (severity st)) (data hd)) w
      = (Return b1, w1) ∧
    github_tools.post_comment E (issue_id st)
      (PStr (agent.summary_comment
               (dict_get_default "severity" (of_opt (severity st)) (data hd))
               (dict_get_default "summary" (of_opt (ai_summary st)) (data hd)))) w1
      = (Return b2, w2) ∧
    weaviate_tools.add_issue E (issue_id st) (issue_title st) (issue_body st) w2
      = (Return tt, w3) ∧
    weaviate_tools.registered
      {| stored_id := issue_id st; stored_title := issue_title st;
         stored_body := issue_body st |} w3 ∧
    agent._execute_decision E (st, w) =
      (Return tt,
       (set_actions_executed
          [("severity_label_added", PBool b1); ("summary_posted", PBool b2);
           ("added_to_knowledge_base", PBool true)] st, w3)).
Proof.
  intros Hhd Hdec Hdup Hact.
  set (severity_label := dict_get_default "severity" _ _).
  set (summary := dict_get_default "summary" _ _).
  destruct (add_label_returns E (issue_id st) severity_label w) as (b1 & w1 & H1).
  destruct (post_comment_returns E (issue_id st)
              (PStr (agent.summary_comment severity_label summary)) w1)
    as (b2 & w2 & H2).
  destruct (add_issue_registers E (issue_id st) (issue_title st) (issue_body st) w2)
    as (w3 & H3 & Hreg & _).
  exists b1, b2, w1, w2, w3. repeat split; try done.
  unfold agent._execute_decision, bind, agent.state, agent.world, agent.update,
    try_except.
  cbn. rewrite Hhd, Hdec, Hdup. cbn. fold severity_label summary.
  rewrite H1. cbn. rewrite H2. cbn. rewrite H3. cbn.
  unfold record_action. cbn. rewrite Hact. reflexivity.
Qed.

Lemma approved_unique_actions_witness :
  let E := Sample.with_github_api Sample.comments_down Sample.env in
  let st := Sample.decided (discord_bot.modified_data "Critical" "Login is down" false)
              Sample.unique101 in
  let hd := discord_bot.modified_data "Critical" "Login is down" false in
  let w := Sample.world [] in
  human_decision st = Some hd ∧
  decision hd = "approve" ∧
  is_duplicate st = false ∧
  actions_executed st = [] ∧
  ∃ b1 b2 w1 w2 w3,
    github_tools.add_label E (issue_id st)
      (dict_get_default "severity" (of_opt (severity st)) (data hd)) w
      = (Return b1, w1) ∧
    github_tools.post_comment E (issue_id st)
      (PStr (agent.summary_comment
               (dict_get_default "severity" (of_opt (severity st)) (data hd))
               (dict_get_default "summary" (of_opt (ai_summary st)) (data hd)))) w1
      = (Return b2, w2) ∧
    weaviate_tools.add_issue E (issue_id st) (issue_title st) (issue_body st) w2
      = (Return tt, w3) ∧
    weaviate_tools.registered
      {| stored_id := issue_id st; stored_title := issue_title st;
         stored_body := issue_body st |} w3 ∧
    agent._execute_decision E (st, w) =
      (Return tt,
       (set_actions_executed
          [("severity_label_added", PBool b1); ("summary_posted", PBool b2);
           ("added_to_knowledge_base", PBool true)] st, w3)).
Proof.
  intros E st hd w.
  split; [reflexivity|]. split; [reflexivity|]. split; [reflexivity|].
  split; [reflexivity|].
  apply (approved_unique_actions E st w hd); reflexivity.
Defined.

(** The human's severity is the label that is added, and a failed comment
    does not keep the report out of the index. *)
Example edited_severity_is_applied :
  let r := agent._execute_decision
             (Sample.with_github_api Sample.comments_down Sample.env)
             (Sample.decided (discord_bot.modified_data "Critical" "Login is down" false)
                Sample.unique101,
              Sample.world []) in
  actions_executed r.2.1
  = [("severity_label_added", PBool true); ("summary_posted", PBool false);
     ("added_to_knowledge_base", PBool true)] ∧
  head (github_calls r.2.2) = Some (OpAddLabel 101 (PStr "Critical")) ∧
  _mock_issues r.2.2
  = Some [{| stored_id := 101; stored_title := "Login broken";
             stored_body := "Nobody can log in since this morning." |}].
Proof. vm_compute. repeat split; reflexivity. Qed.

(** C7. A [reject] decision records [rejected: True] and a [timeout]
    decision records [timed_out: True]; nothing else enters the action map
    and the world is the same afterwards, so no label, comment or close was
    asked of the record store. *)
Theorem no_action_on_reject_or_timeout E st w payload :
  actions_executed st = [] →
  agent._execute_decision E
    (set_human_decision (Some {| decision := "reject"; data := payload |}) st, w)
  = (Return tt,
     (set_actions_executed [("rejected", PBool true)]
        (set_human_decision (Some {| decision := "reject"; data := payload |}) st),
      w))
  ∧
  agent._execute_decision E
    (set_human_decision (Some {| decision := "timeout"; data := payload |}) st, w)
  = (Return tt,
     (set_actions_executed [("timed_out", PBool true)]
        (set_human_decision (Some {| decision := "timeout"; data := payload |}) st),
      w)).
Proof.
  intros Hact.
  unfold agent._execute_decision, bind, agent.state, agent.update, record_action.
  cbn. rewrite Hact. split; reflexivity.
Qed.

Lemma no_action_on_reject_or_timeout_witness :
  let E := Sample.env in
  let st := Sample.duplicate101 in
  let w := Sample.world [] in
  actions_executed st = [] ∧
  agent._execute_decision E
    (set_human_decision (Some {| decision := "reject"; data := [] |}) st, w)
  = (Return tt,
     (set_actions_executed [("rejected", PBool true)]
        (set_human_decision (Some {| decision := "reject"; data := [] |}) st),
      w))
  ∧
  agent._execute_decision E
    (set_human_decision (Some {| decision := "timeout"; data := [] |}) st, w)
  = (Return tt,
     (set_actions_executed [("timed_out", PBool true)]
        (set_human_decision (Some {| decision := "timeout"; data := [] |}) st),
      w)).
Proof.
  intros E st w. split; [reflexivity|].
  apply (no_action_on_reject_or_timeout E st w []). reflexivity.
Defined.

Section Notification.
Variable E : Env.

(** The completion message is sent through the webhook alone: it returns a
    boolean whatever happens and leaves the record store untouched. *)
Lemma send_completion_message_returns c o a s w :
  ∃ b w', discord_tools.send_completion_message E c o a s w = (Return b, w') ∧
          github_calls w' = github_calls w ∧
          github_requests w' = github_requests w ∧
          pending_decisions w' = pending_decisions w.
Proof.
  unfold discord_tools.send_completion_message, discord_tools.post, try_except, bind,
    ret.
  repeat case_match; simplify_eq; eauto 10.
Qed.

Lemma _send_completion_notification_returns st w :
  ∃ sent w',
    agent._send_completion_notification E (st, w)
    = (Return tt, (set_completion_message_sent sent st, w')) ∧
    github_calls w' = github_calls w ∧
    github_requests w' = github_requests w ∧
    pending_decisions w' = pending_decisions w.
Proof.
  unfold agent._send_completion_notification, try_except, bind, agent.state,
    agent.world, agent.update.
  cbn.
  destruct (send_completion_message_returns "general"
              ("triage-" +:+ pretty (issue_id st)) "Discord User"
              ("Issue #" +:+ pretty (issue_id st) +:+ " processed: "
               +:+ join ", " (agent.executed_actions (actions_executed st))) w)
    as (b & w' & -> & ?). cbn. eauto.
Qed.

End Notification.

(** C10. A decision whose kind is none of [approve], [reject] and [timeout]
    falls through every branch of the decision execution: state and world
    come out as they went in, so the action map stays empty and the record
    store is not called.  The completion notification that follows does not
    touch the record store either, and the run ends with the success
    dictionary, whose action map is empty. *)
Theorem unknown_decision_kind_records_nothing E st w hd :
  human_decision st = Some hd →
  decision hd ≠ "approve" →
  decision hd ≠ "reject" →
  decision hd ≠ "timeout" →
  actions_executed st = [] →
  agent._execute_decision E (st, w) = (Return tt, (st, w)) ∧
  ∃ sent w',
    agent.finish
      ((let! _ := agent._execute_decision E in agent._send_completion_notification E)
         (st, w))
    = (Return (agent.success_result (set_completion_message_sent sent st)), w') ∧
    success (agent.success_result (set_completion_message_sent sent st)) = true ∧
    result_actions (agent.success_result (set_completion_message_sent sent st))
    = Some [] ∧
    github_calls w' = github_calls w ∧
    github_requests w' = github_requests w.
Proof.
  intros Hhd Ha Hr Ht Hact.
  apply String.eqb_neq in Ha, Hr, Ht.
  assert (agent._execute_decision E (st, w) = (Return tt, (st, w))) as Hexec.
  { unfold agent._execute_decision, bind, agent.state. cbn.
    rewrite Hhd, Ha, Hr, Ht. reflexivity. }
  split; [exact Hexec|].
  destruct (_send_completion_notification_returns E st w)
    as (sent & w' & Hn & Hc & Hq & _).
  exists sent, w'. unfold bind at 1. rewrite Hexec, Hn. cbn.
  rewrite Hact. repeat split; done.
Qed.

Lemma unknown_decision_kind_records_nothing_witness :
  let E := Sample.env in
  let hd := discord_tools.modified_data Sample.clarification101 "Low" "Cosmetic only" in
  let st := Sample.decided hd Sample.unique101 in
  let w := Sample.world [] in
  human_decision st = Some hd ∧
  decision hd ≠ "approve" ∧
  decision hd ≠ "reject" ∧
  decision hd ≠ "timeout" ∧
  actions_executed st = [] ∧
  agent._execute_decision E (st, w) = (Return tt, (st, w)) ∧
  ∃ sent w',
    agent.finish
      ((let! _ := agent._execute_decision E in agent._send_completion_notification E)
         (st, w))
    = (Return (agent.success_result (set_completion_message_sent sent st)), w') ∧
    success (agent.success_result (set_completion_message_sent sent st)) = true ∧
    result_actions (agent.success_result (set_completion_message_sent sent st))
    = Some [] ∧
    github_calls w' = github_calls w ∧
    github_requests w' = github_requests w.
Proof.
  intros E hd st w.
  split; [reflexivity|]. split; [discriminate|]. split; [discriminate|].
  split; [discriminate|]. split; [reflexivity|].
  apply (unknown_decision_kind_records_nothing E st w hd);
    first [reflexivity | discriminate].
Defined.

(** The notification sent for such a decision names no action. *)
Example modify_kind_notification :
  webhook_posts
    ((let! _ := agent._execute_decision Sample.env in
      agent._send_completion_notification Sample.env)
       (Sample.decided
          (discord_tools.modified_data Sample.clarification101 "Low" "Cosmetic only")
          Sample.unique101,
        Sample.world [])).2.2
  = [CompletionPost "triage-101" "Discord User" "Issue #101 processed: "].
Proof. vm_compute. reflexivity. Qed.

(* ===================================================================== *)
(** ** Analysis *)
(* ===================================================================== *)

(** C9. The analysis phase always returns, leaves the world alone and
    leaves both severity and summary set; when the provider raises in the
    classification or in the summary, the severity is [Medium] and the
    summary is ["Issue: "] followed by the title. *)
Theorem analysis_falls_back E st w :
  ∃ st',
    agent._perform_ai_analysis E (st, w) = (Return tt, (st', w)) ∧
    is_Some (severity st') ∧
    is_Some (ai_summary st') ∧
    ((∃ msg, classify_severity E (issue_title st) (issue_body st) = Exc msg) ∨
     (∃ msg, summarize_issue E (issue_title st) (issue_body st) = Exc msg) →
     st' = set_ai_summary (Some ("Issue: " +:+ issue_title st))
             (set_severity (Some "Medium") st)).
Proof.
  unfold agent._perform_ai_analysis, try_except, bind, agent.state, agent.update, call.
  cbn.
  destruct (classify_severity E (issue_title st) (issue_body st)) as [sev|m1] eqn:Hc;
    cbn.
  - destruct (summarize_issue E (issue_title st) (issue_body st)) as [summ|m2] eqn:Hs;
      cbn.
    + eexists. split; [reflexivity|]. cbn. repeat split; eauto.
      intros [[? ?]|[? ?]]; discriminate.
    + eexists. split; [reflexivity|]. cbn. repeat split; eauto.
  - eexists. split; [reflexivity|]. cbn. repeat split; eauto.
Qed.

Lemma analysis_falls_back_witness :
  let E := Sample.with_analysis (Ok "High") (Exc "429 quota exceeded") Sample.env in
  let st := new_TriageState Sample.issue101 in
  let w := Sample.world [] in
  (∃ msg, summarize_issue E (issue_title st) (issue_body st) = Exc msg) ∧
  agent._perform_ai_analysis E (st, w)
  = (Return tt,
     (set_ai_summary (Some "Issue: Login broken") (set_severity (Some "Medium") st), w)).
Proof.
  intros E st w.
  assert (∃ msg, summarize_issue E (issue_title st) (issue_body st) = Exc msg) as Hraise
    by (eexists; reflexivity).
  split; [exact Hraise|].
  destruct (analysis_falls_back E st w) as (st' & Hrun & _ & _ & Hfall).
  rewrite Hrun, (Hfall (or_intror Hraise)). reflexivity.
Defined.

(* ===================================================================== *)
(** ** Duplicate detection *)
(* ===================================================================== *)

(** A match whose identifier and score are both non-zero is taken over in
    full. *)
Lemma duplicate_flagged E st w d s :
  find_duplicate E (_mock_issues w) (collection w) (issue_title st) (issue_body st)
    (85 # 100)%Q = Ok (Some d, Some s) →
  d ≠ 0%Z →
  Qeq_bool s 0 = false →
  agent._perform_duplicate_detection E (st, w)
  = (Return tt,
     (set_proposed_comment (Some (ai_tools.draft_duplicate_comment d s))
        (set_duplicate_issue_id (Some d)
           (set_similarity_score (Some s) (set_is_duplicate true st))), w)).
Proof.
  intros Hfind Hd Hs.
  unfold agent._perform_duplicate_detection, try_except, bind, agent.state,
    agent.world, agent.update, call.
  cbn. rewrite Hfind. cbn. rewrite Hs.
  apply Z.eqb_neq in Hd. rewrite Hd. reflexivity.
Qed.

(** After the phase, on a fresh state, the score is set exactly when the
    duplicate flag is. *)
Lemma score_iff_duplicate E issue_data w :
  let st' := (agent._perform_duplicate_detection E (new_TriageState issue_data, w)).2.1 in
  is_Some (similarity_score st') ↔ is_duplicate st' = true.
Proof.
  unfold agent._perform_duplicate_detection, try_except, bind, agent.state,
    agent.world, agent.update, call, ret, raise, agent.match_found.
  cbn.
  destruct (find_duplicate E _ _ _ _ _) as [[[d|] [s|]]|m]; cbn;
    try destruct (negb (d =? 0)%Z && negb (Qeq_bool s 0)); cbn;
    split; try done; by inversion 1.
Qed.

(** C8, at the input where the code departs from it: the index answers
    with report 0 at 95 percent, and the phase leaves the state as it was,
    with no duplicate flag, no score, no target and no comment. *)
Theorem match_zero_not_flagged :
  agent._perform_duplicate_detection
    (Sample.with_find_duplicate (Ok (Some 0%Z, Some (95 # 100)%Q)) Sample.env)
    (Sample.unique101, Sample.world [])
  = (Return tt, (Sample.unique101, Sample.world []))
  ∧ is_duplicate Sample.unique101 = false
  ∧ similarity_score Sample.unique101 = None.
Proof. repeat split; reflexivity. Qed.

(** Report 0 is a report the index can hold: a webhook issue without a
    [number] is triaged as issue 0 and, once approved, registered as such. *)
Example issue_without_number_is_registered_as_0 :
  let no_number := {| number := None; title := None; body := None;
                      html_url := None; repository_full_name := None |} in
  _mock_issues
    (agent.triage_new_issue Sample.env no_number
       (Sample.world [Sample.idle 1; Sample.during [approve_click 0]])).2
  = Some [{| stored_id := 0; stored_title := "Unknown"; stored_body := "" |}].
Proof. vm_compute. reflexivity. Qed.

(* ===================================================================== *)
(** ** Human clarification *)
(* ===================================================================== *)

(** With no webhook URL configured [DiscordManager.send_triage_request]
    answers [approve] on the spot, without touching the world. *)
Lemma unconfigured_webhook_approves E c w :
  DISCORD_WEBHOOK_URL E = "" →
  discord_tools.send_triage_request E c w
  = (Return {| decision := "approve"; data := [] |}, w).
Proof.
  intros H. unfold discord_tools.send_triage_request, try_except, ret.
  by rewrite H.
Qed.

(** C1, at the input where the code departs from it: the webhook URL is
    not configured, nobody is asked and no tick passes, yet the run
    succeeds with an [approve] decision and the approved plan is carried out
    on the record store. *)
Theorem unconfigured_channel_is_auto_approved :
  let r := agent.triage_new_issue (Sample.with_webhook_url "" Sample.env)
             Sample.issue101 (Sample.world []) in
  r.1 = Return
          (TriageSuccess 101 (Some "High") (Some "Login fails for every user") false
             None (Some {| decision := "approve"; data := [] |})
             [("severity_label_added", PBool true); ("summary_posted", PBool true);
              ("added_to_knowledge_base", PBool true)]
             false)
  ∧ head (github_calls r.2) = Some (OpAddLabel 101 (PStr "High"))
  ∧ length (github_calls r.2) = 2
  ∧ futures r.2 = [].
Proof. vm_compute. repeat split; reflexivity. Qed.

(* ===================================================================== *)
(** ** The pending-decision registry *)
(* ===================================================================== *)

Import discord_bot.

Lemma decision_key_inj n m : decision_key n = decision_key m → n = m.
Proof.
  unfold decision_key. intros H. apply (inj pretty).
  generalize dependent (pretty n). generalize dependent (pretty m).
  intros a b H. unfold String.app in H. cbn in H. congruence.
Qed.

Lemma handle_writer w e n r :
  written_record e = Some (n, r) → handle w e = set_result_if_pending n r w.
Proof. destruct e; cbn; intros; by simplify_eq. Qed.

Lemma set_result_registry n r w :
  pending_decisions (set_result_if_pending n r w) = pending_decisions w.
Proof. unfold set_result_if_pending. by repeat case_match. Qed.

Lemma set_result_length n r w :
  length (futures (set_result_if_pending n r w)) = length (futures w).
Proof.
  unfold set_result_if_pending. repeat case_match; cbn; by rewrite ?length_insert.
Qed.

Lemma handle_time w e :
  clock (handle w e) = clock w ∧ schedule (handle w e) = schedule w.
Proof.
  destruct e; cbn;
    unfold approve_button, reject_button, on_submit, on_timeout,
      set_result_if_pending, register, cleanup;
    by repeat case_match.
Qed.

Lemma run_events_cons e evs w :
  run_events (e :: evs) w = run_events evs (handle w e).
Proof. reflexivity. Qed.

Lemma run_events_time evs w :
  clock (run_events evs w) = clock w ∧ schedule (run_events evs w) = schedule w.
Proof.
  revert w. induction evs as [|e evs IH]; intros w; [done|].
  rewrite run_events_cons. destruct (IH (handle w e)) as [-> ->]. apply handle_time.
Qed.

(** A future that is done keeps its result under every guarded write. *)
Lemma set_result_resolved_stable n r' w f r :
  futures w !! f = Some (Some r) →
  futures (set_result_if_pending n r' w) !! f = Some (Some r).
Proof.
  intros Hf. unfold set_result_if_pending.
  destruct (pending_decisions w !! decision_key n) as [g|]; [|done].
  destruct (futures w !! g) as [[r0|]|] eqn:Hg; try done.
  cbn. rewrite list_lookup_insert_ne; [done|]. intros ->. congruence.
Qed.

Lemma handle_resolved_stable w e f r :
  futures w !! f = Some (Some r) → futures (handle w e) !! f = Some (Some r).
Proof.
  intros Hf. destruct (written_record e) as [[n r0]|] eqn:Hrec.
  - rewrite (handle_writer _ _ _ _ Hrec).
    exact (set_result_resolved_stable n r0 w f r Hf).
  - destruct e; try discriminate.
    + unfold handle, register. cbn. apply lookup_app_l_Some, Hf.
    + exact Hf.
Qed.

Lemma run_events_resolved_stable evs w f r :
  futures w !! f = Some (Some r) → futures (run_events evs w) !! f = Some (Some r).
Proof.
  revert w. induction evs as [|e evs IH]; intros w Hf; [done|].
  rewrite run_events_cons. apply IH. exact (handle_resolved_stable w e f r Hf).
Qed.

(** On a slot that is done the guarded write changes nothing at all. *)
Lemma set_result_noop n r' w f r :
  pending_decisions w !! decision_key n = Some f →
  futures w !! f = Some (Some r) →
  set_result_if_pending n r' w = w.
Proof. intros Hk Hf. unfold set_result_if_pending. by rewrite Hk, Hf. Qed.

(** On a slot that is not done it stores the record. *)
Lemma set_result_writes n r w f :
  pending_decisions w !! decision_key n = Some f →
  futures w !! f = Some None →
  futures (set_result_if_pending n r w) !! f = Some (Some r).
Proof.
  intros Hk Hf. unfold set_result_if_pending. rewrite Hk, Hf. cbn.
  apply list_lookup_insert_eq. by eapply lookup_lt_Some.
Qed.

(** Callbacks never add or remove a registry entry. *)
Lemma writers_keep_registry evs w :
  forallb is_writer evs = true →
  pending_decisions (run_events evs w) = pending_decisions w.
Proof.
  revert w. induction evs as [|e evs IH]; intros w Hw; [done|].
  cbn in Hw. apply andb_prop in Hw as [He Hw]. rewrite run_events_cons, (IH _ Hw).
  unfold is_writer in He. destruct (written_record e) as [[n r]|] eqn:Hrec; [|done].
  rewrite (handle_writer _ _ _ _ Hrec). apply set_result_registry.
Qed.


Lemma suspend_cons w t rest :
  schedule w = t :: rest →
  suspend w
  = (Return tt, run_events (tick_events t) (set_time (clock w + tick_dt t)%Q rest w)).
Proof. intros H. unfold suspend. by rewrite H. Qed.

Lemma suspend_nil w : schedule w = [] → suspend w = (Waiting, w).
Proof. intros H. unfold suspend. by rewrite H. Qed.

(** One iteration of the wait, spelled out. *)
Lemma loop_body_cases key start w :
  loop_body key start w =
    match pending_decisions w !! key with
    | None => (Return (Some (ReturnNow timeout_record)), w)
    | Some f =>
        match futures w !! f with
        | Some (Some r) => (Return (Some (Break r)), w)
        | _ =>
            if Qle_bool (clock w - start)%Q timeout_duration then
              match schedule w with
              | [] => (Waiting, w)
              | t :: rest =>
                  (Return None,
                   run_events (tick_events t)
                     (set_time (clock w + tick_dt t)%Q rest w))
              end
            else (Return (Some (ReturnNow timeout_record)), w)
        end
    end.
Proof.
  unfold loop_body, try_except, bind, get, suspend, ret, raise.
  destruct (pending_decisions w !! key) as [f|]; [|done].
  destruct (futures w !! f) as [[r|]|]; [done| |];
    (destruct (Qle_bool _ _); cbn; [|done]; by destruct (schedule w)).
Qed.

Lemma wait_loop_S fuel key start w :
  wait_loop (S fuel) key start w =
    match loop_body key start w with
    | (Return (Some x), w') => (Return x, w')
    | (Return None, w') => wait_loop fuel key start w'
    | (Raise e, w') => (Raise e, w')
    | (Waiting, w') => (Waiting, w')
    end.
Proof.
  cbn [wait_loop]. unfold bind.
  destruct (loop_body key start w) as [[[x|]|e|] w']; reflexivity.
Qed.

(** The wait ends once the schedule spans more than the timeout. *)
Lemma wait_loop_returns fuel key start w :
  length (schedule w) < fuel →
  (3700 < clock w - start + duration (schedule w))%Q →
  ∃ x w', wait_loop fuel key start w = (Return x, w').
Proof.
  revert w. induction fuel as [|fuel IH]; intros w Hlen Hdur; [lia|].
  rewrite wait_loop_S, loop_body_cases.
  destruct (pending_decisions w !! key) as [f|]; [|by eauto].
  assert (∃ x w',
    (if Qle_bool (clock w - start)%Q timeout_duration then
       match schedule w with
       | [] => (Waiting, w)
       | t :: rest =>
           (Return None,
            run_events (tick_events t) (set_time (clock w + tick_dt t)%Q rest w))
       end
     else (Return (Some (ReturnNow timeout_record)), w))
    = (Return x, w') ∧
    (x = None →
     length (schedule w') < fuel ∧
     (3700 < clock w' - start + duration (schedule w'))%Q)) as Hstep.
  { destruct (Qle_bool _ _) eqn:Hq; [|eexists _, _; split; [reflexivity|done]].
    apply Qle_bool_iff in Hq. unfold timeout_duration in Hq.
    destruct (schedule w) as [|t rest] eqn:Hs.
    - cbn in Hdur. lra.
    - eexists _, _. split; [reflexivity|]. intros _.
      destruct (run_events_time (tick_events t)
                  (set_time (clock w + tick_dt t)%Q rest w)) as [-> ->].
      cbn in *. split; [lia|lra]. }
  destruct Hstep as (x & w' & Hstep & Hnext).
  destruct (futures w !! f) as [[r|]|]; [by eauto| |];
    rewrite Hstep; (destruct x as [x|]; [by eauto|]);
    destruct (Hnext eq_refl) as [? ?]; by apply IH.
Qed.

(** *** Registry invariants *)

Lemma set_result_no_dangling n r w :
  no_dangling w → no_dangling (set_result_if_pending n r w).
Proof.
  unfold no_dangling. rewrite set_result_registry, set_result_length. done.
Qed.

Lemma handle_no_dangling w e : no_dangling w → no_dangling (handle w e).
Proof.
  intros Hw. destruct (written_record e) as [[n r0]|] eqn:Hrec.
  - rewrite (handle_writer _ _ _ _ Hrec). exact (set_result_no_dangling n r0 w Hw).
  - destruct e; try discriminate.
    + unfold handle, register, no_dangling in *. cbn. rewrite length_app. cbn.
      apply map_Forall_insert_2; [lia|].
      eapply map_Forall_impl; [exact Hw|]. cbn. intros. lia.
    + unfold handle, cleanup, no_dangling in *. cbn.
      by apply map_Forall_delete.
Qed.

Lemma run_events_no_dangling evs w : no_dangling w → no_dangling (run_events evs w).
Proof.
  revert w. induction evs as [|e evs IH]; intros w Hw; [done|].
  rewrite run_events_cons. apply IH. exact (handle_no_dangling w e Hw).
Qed.

Lemma set_time_no_dangling c s w : no_dangling w → no_dangling (set_time c s w).
Proof. done. Qed.


Arguments discord_bot.wait_for_decision : simpl never.

Lemma waiting_on_set_time key c s w : waiting_on key w → waiting_on key (set_time c s w).
Proof. done. Qed.

(** An event that is not a callback for issue [n] leaves the future
    registered for [n] not done and unshared. *)
Lemma handle_waiting_on n w e :
  no_dangling w →
  waiting_on (decision_key n) w →
  match written_record e with
  | Some (m, _) => negb (m =? n)%Z
  | None => true
  end = true →
  waiting_on (decision_key n) (handle w e).
Proof.
  intros Hnd Hw Hq. destruct (written_record e) as [[m r0]|] eqn:Hrec.
  - rewrite (handle_writer _ _ _ _ Hrec).
    apply negb_true_iff, Z.eqb_neq in Hq.
    unfold set_result_if_pending.
    destruct (pending_decisions w !! decision_key m) as [g|] eqn:Hg; [|done].
    destruct (futures w !! g) as [[r|]|] eqn:Hfg; try done.
    intros f Hf. cbn in Hf. destruct (Hw f Hf) as [Hnone Halias].
    split; [|exact Halias]. cbn.
    rewrite list_lookup_insert_ne; [done|]. intros ->.
    apply Hq, decision_key_inj, Halias, Hg.
  - destruct e; try discriminate.
    + unfold handle, register. intros f Hf. cbn in Hf |- *.
      destruct (decide (decision_key issue_number = decision_key n)) as [Heq|Hne].
      * rewrite Heq, lookup_insert_eq in Hf. injection Hf as <-. split.
        -- by rewrite lookup_app_r, Nat.sub_diag.
        -- intros k' Hk'. destruct (decide (decision_key n = k')) as [|Hne']; [done|].
           rewrite Heq, lookup_insert_ne in Hk' by done.
           apply Hnd in Hk'. cbn in Hk'. lia.
      * rewrite lookup_insert_ne in Hf by done. destruct (Hw f Hf) as [Hnone Halias].
        split; [by apply lookup_app_l_Some|].
        intros k' Hk'.
        destruct (decide (decision_key issue_number = k')) as [<-|Hne'].
        -- rewrite lookup_insert_eq in Hk'. injection Hk' as <-.
           apply lookup_lt_Some in Hnone. lia.
        -- rewrite lookup_insert_ne in Hk' by done. by apply Halias.
    + unfold handle, cleanup. intros f Hf. cbn in Hf |- *.
      apply lookup_delete_Some in Hf as [Hne Hf]. destruct (Hw f Hf) as [Hnone Halias].
      split; [done|]. intros k' Hk'. apply lookup_delete_Some in Hk' as [_ Hk'].
      by apply Halias.
Qed.

Lemma run_events_waiting_on n evs w :
  no_dangling w →
  waiting_on (decision_key n) w →
  forallb
    (fun e => match written_record e with
              | Some (m, _) => negb (m =? n)%Z
              | None => true
              end) evs = true →
  no_dangling (run_events evs w) ∧ waiting_on (decision_key n) (run_events evs w).
Proof.
  revert w. induction evs as [|e evs IH]; intros w Hnd Hw Hq; [done|].
  cbn in Hq. apply andb_prop in Hq as [He Hq]. rewrite run_events_cons.
  apply IH; [exact (handle_no_dangling w e Hnd)| |exact Hq].
  exact (handle_waiting_on n w e Hnd Hw He).
Qed.

(** With no callback for the issue the wait ends with the synthesized
    timeout record. *)
Lemma wait_loop_times_out fuel n start w :
  no_dangling w →
  waiting_on (decision_key n) w →
  forallb (quiet_for n) (schedule w) = true →
  length (schedule w) < fuel →
  (3700 < clock w - start + duration (schedule w))%Q →
  ∃ w', wait_loop fuel (decision_key n) start w
        = (Return (ReturnNow timeout_record), w').
Proof.
  revert w. induction fuel as [|fuel IH]; intros w Hnd Hw Hq Hlen Hdur; [lia|].
  rewrite wait_loop_S, loop_body_cases.
  destruct (pending_decisions w !! decision_key n) as [f|] eqn:Hk; [|by eauto].
  destruct (Hw f Hk) as [-> _].
  destruct (Qle_bool _ _) eqn:Hle; [|by eauto].
  apply Qle_bool_iff in Hle. unfold timeout_duration in Hle.
  destruct (schedule w) as [|t rest] eqn:Hs.
  { cbn in Hdur. lra. }
  cbn in Hq. apply andb_prop in Hq as [Ht Hq].
  destruct (run_events_waiting_on n (tick_events t)
              (set_time (clock w + tick_dt t)%Q rest w)) as [Hnd' Hw']; try done.
  destruct (run_events_time (tick_events t)
              (set_time (clock w + tick_dt t)%Q rest w)) as [Hc' Hs'].
  apply IH; try done.
  - rewrite Hs'. cbn. done.
  - rewrite Hs'. cbn in *. lia.
  - rewrite Hc', Hs'. cbn in *. lra.
Qed.

(** *** The call as a whole *)

Lemma prelude_returns E w :
  publish_ticks E < S (length (schedule w)) →
  ∃ w1, prelude E w = (Return tt, w1) ∧
        schedule w1 = drop (publish_ticks E) (schedule w) ∧
        (no_dangling w → no_dangling w1).
Proof.
  unfold prelude, publish_ticks, bind, ret. intros Hlen.
  destruct (bot_ready E).
  - destruct (schedule w) as [|t rest] eqn:Hs; [cbn in Hlen; lia|].
    rewrite (suspend_cons _ _ _ Hs). eexists. split; [reflexivity|].
    split; [apply run_events_time|]. intros. by apply run_events_no_dangling.
  - destruct (schedule w) as [|t [|t' rest]] eqn:Hs; [cbn in Hlen; lia..|].
    rewrite (suspend_cons _ _ _ Hs).
    set (w0 := run_events _ _).
    assert (schedule w0 = t' :: rest) as Hs0 by apply run_events_time.
    rewrite (suspend_cons _ _ _ Hs0). eexists. split; [reflexivity|].
    split; [apply run_events_time|]. intros.
    apply run_events_no_dangling. apply set_time_no_dangling.
    by apply run_events_no_dangling.
Qed.

(** Once the request is out the call is the wait on a fresh future,
    followed by the removal of the registry entry. *)
Lemma send_triage_request_after_publish E n w w1 :
  published E →
  prelude E w = (Return tt, w1) →
  discord_bot.send_triage_request E n w =
    match wait_for_decision (decision_key n) (clock w1) (register (decision_key n) w1) with
    | (Return (Break r), w3) => (Return r, cleanup (decision_key n) w3)
    | (Return (ReturnNow r), w3) => (Return r, cleanup (decision_key n) w3)
    | (Raise e, w3) =>
        (Raise ("Discord integration failed: " +:+ e +:+ " - HUMAN INPUT REQUIRED"),
         cleanup (decision_key n) w3)
    | (Waiting, w3) => (Waiting, w3)
    end.
Proof.
  intros ((c & Hc) & Hfound & Hsend) Hpre.
  unfold discord_bot.send_triage_request, try_finally, try_except.
  unfold prelude in Hpre. unfold bind in *.
  rewrite Hc, Hfound, Hsend. cbn.
  destruct ((if bot_ready E then ret () else suspend) w) as [[[]|e|] w0]; try discriminate.
  cbn. destruct (suspend w0) as [[[]|e|] w0']; try discriminate.
  simplify_eq. cbn.
  destruct (wait_for_decision _ _ _) as [[[r|r]|e|] w3]; reflexivity.
Qed.

Arguments discord_bot.decision_key : simpl never.

Lemma register_fresh key w :
  pending_decisions (register key w) !! key = Some (length (futures w)) ∧
  futures (register key w) !! length (futures w) = Some None ∧
  schedule (register key w) = schedule w ∧
  clock (register key w) = clock w.
Proof.
  unfold register. cbn. split; [apply lookup_insert_eq|].
  split; [by rewrite lookup_app_r, Nat.sub_diag|done].
Qed.

Lemma register_waiting_on n w :
  no_dangling w →
  no_dangling (register (decision_key n) w) ∧
  waiting_on (decision_key n) (register (decision_key n) w).
Proof.
  intros Hnd. split; [exact (handle_no_dangling w (concurrent_register n) Hnd)|].
  intros f Hf. destruct (register_fresh (decision_key n) w) as (Hk & Hfut & _).
  rewrite Hk in Hf. injection Hf as <-. split; [exact Hfut|].
  intros k' Hk'. destruct (decide (decision_key n = k')) as [|Hne]; [done|].
  unfold register in Hk'. cbn in Hk'. rewrite lookup_insert_ne in Hk' by done.
  apply Hnd in Hk'. cbn in Hk'. lia.
Qed.

Lemma run_events_app evs1 evs2 w :
  run_events (evs1 ++ evs2) w = run_events evs2 (run_events evs1 w).
Proof. apply fold_left_app. Qed.

Lemma unrelated_quiet n e :
  unrelated_to n e = true →
  match written_record e with
  | Some (m, _) => negb (m =? n)%Z
  | None => true
  end = true.
Proof. by destruct e. Qed.

Lemma unrelated_keeps_entry n e w :
  unrelated_to n e = true →
  pending_decisions (handle w e) !! decision_key n
  = pending_decisions w !! decision_key n.
Proof.
  intros Hu. destruct (written_record e) as [[m r0]|] eqn:Hrec.
  - by rewrite (handle_writer _ _ _ _ Hrec), set_result_registry.
  - destruct e; try discriminate; cbn in Hu;
      apply negb_true_iff, Z.eqb_neq in Hu;
      assert (decision_key issue_number ≠ decision_key n) as Hne
        by (intros Heq; by apply Hu, decision_key_inj).
    + unfold handle, register. cbn. by rewrite lookup_insert_ne.
    + unfold handle, cleanup. cbn. by rewrite lookup_delete_ne.
Qed.

Lemma registered_pending_waiting_on key f w :
  registered_pending key f w → waiting_on key w.
Proof. intros (Hk & Hf & Ha) f' Hf'. rewrite Hk in Hf'. by injection Hf' as <-. Qed.

(** Events about other issues leave the entry of issue [n] as it is. *)
Lemma run_events_unrelated n f evs w :
  no_dangling w →
  registered_pending (decision_key n) f w →
  forallb (unrelated_to n) evs = true →
  no_dangling (run_events evs w) ∧
  registered_pending (decision_key n) f (run_events evs w).
Proof.
  revert w. induction evs as [|e evs IH]; intros w Hnd Hrp Hu; [done|].
  cbn in Hu. apply andb_prop in Hu as [He Hu]. rewrite run_events_cons.
  apply IH; [exact (handle_no_dangling w e Hnd)| |exact Hu].
  pose proof (handle_waiting_on n w e Hnd
                (registered_pending_waiting_on _ _ _ Hrp) (unrelated_quiet n e He)) as Hw.
  pose proof (unrelated_keeps_entry n e w He) as Hk.
  destruct Hrp as (Hk0 & _). rewrite Hk0 in Hk.
  destruct (Hw f Hk) as [Hf Ha]. by repeat split.
Qed.

Lemma duration_nonneg sched : forward sched = true → (0 <= duration sched)%Q.
Proof.
  induction sched as [|t sched IH]; intros H; cbn; [lra|].
  cbn in H. apply andb_prop in H as [Ht H]. apply Qle_bool_iff in Ht.
  specialize (IH H). lra.
Qed.

(** The wait returns the record of the first callback for the issue,
    whenever that callback arrives before the timeout. *)
Lemma wait_loop_first_writer n f start before e1 later dt rest r1 calm fuel w :
  no_dangling w →
  registered_pending (decision_key n) f w →
  schedule w
  = calm ++ {| tick_events := before ++ e1 :: later; tick_dt := dt |} :: rest →
  forallb (calm_for n) calm = true →
  forward calm = true →
  (clock w - start + duration calm <= 3700)%Q →
  forallb (unrelated_to n) before = true →
  written_record e1 = Some (n, r1) →
  forallb is_writer later = true →
  length (schedule w) < fuel →
  ∃ w', wait_loop fuel (decision_key n) start w = (Return (Break r1), w').
Proof.
  intros Hnd Hrp Hs Hcalm Hfw Hdur Hbefore He1 Hlater Hfuel.
  revert fuel w Hnd Hrp Hs Hdur Hfuel.
  induction calm as [|t calm IH]; intros fuel w Hnd Hrp Hs Hdur Hfuel.
  - cbn in Hs, Hdur. rewrite Hs in Hfuel. cbn in Hfuel.
    destruct fuel as [|[|fuel]]; [lia..|].
    destruct Hrp as (Hk & Hf & Ha).
    rewrite wait_loop_S, loop_body_cases, Hk, Hf.
    assert (Qle_bool (clock w - start)%Q timeout_duration = true) as ->.
    { apply Qle_bool_iff. unfold timeout_duration. lra. }
    rewrite Hs. cbn [tick_events tick_dt].
    set (w0 := set_time _ _ _).
    destruct (run_events_unrelated n f before w0) as [Hnd1 (Hk1 & Hf1 & _)];
      [done|done|done|].
    set (w3 := run_events (before ++ e1 :: later) w0).
    assert (pending_decisions w3 !! decision_key n = Some f) as Hk3.
    { unfold w3. rewrite run_events_app, writers_keep_registry; [exact Hk1|].
      cbn. unfold is_writer at 1. by rewrite He1. }
    assert (futures w3 !! f = Some (Some r1)) as Hf3.
    { unfold w3. rewrite run_events_app, run_events_cons.
      apply run_events_resolved_stable.
      rewrite (handle_writer _ _ _ _ He1). by apply set_result_writes. }
    rewrite wait_loop_S, loop_body_cases, Hk3, Hf3. eauto.
  - cbn in Hcalm, Hfw, Hdur, Hs.
    apply andb_prop in Hcalm as [Ht Hcalm]. apply andb_prop in Hfw as [Hdt Hfw].
    apply Qle_bool_iff in Hdt. pose proof (duration_nonneg calm Hfw) as Hpos.
    destruct fuel as [|fuel]; [lia|].
    pose proof Hrp as (Hk & Hf & Ha).
    rewrite wait_loop_S, loop_body_cases, Hk, Hf.
    assert (Qle_bool (clock w - start)%Q timeout_duration = true) as ->.
    { apply Qle_bool_iff. unfold timeout_duration. lra. }
    rewrite Hs. set (w0 := set_time _ _ _).
    destruct (run_events_unrelated n f (tick_events t) w0) as [Hnd1 Hrp1];
      [done|done|done|].
    destruct (run_events_time (tick_events t) w0) as [Hc1 Hs1].
    apply (IH Hcalm Hfw); try done.
    + rewrite Hc1. cbn. lra.
    + rewrite Hs1. cbn. rewrite Hs in Hfuel. cbn in Hfuel. lia.
Qed.

Lemma register_registered_pending n w :
  no_dangling w →
  no_dangling (register (decision_key n) w) ∧
  registered_pending (decision_key n) (length (futures w))
    (register (decision_key n) w).
Proof.
  intros Hnd. destruct (register_waiting_on n w Hnd) as [Hnd' Hw].
  destruct (register_fresh (decision_key n) w) as (Hk & _).
  split; [exact Hnd'|]. destruct (Hw _ Hk) as [Hf Ha]. by repeat split.
Qed.

(** The call returns the record of the first callback for the issue: the
    request is published, ticks that do not concern the issue pass, none of
    them after the timeout, and then comes a tick in which, after events
    about other issues, a callback for the issue runs, followed by any
    number of further callbacks. *)
Lemma first_writer_wins E n w pre calm dt before e1 later rest r1 :
  published E →
  no_dangling w →
  length pre = publish_ticks E →
  schedule w
  = pre ++ calm ++ {| tick_events := before ++ e1 :: later; tick_dt := dt |} :: rest →
  forallb (calm_for n) calm = true →
  forward calm = true →
  (duration calm <= 3700)%Q →
  forallb (unrelated_to n) before = true →
  written_record e1 = Some (n, r1) →
  forallb is_writer later = true →
  ∃ w', discord_bot.send_triage_request E n w = (Return r1, w') ∧
        pending_decisions w' !! decision_key n = None.
Proof.
  intros Hpub Hnd Hpre Hs Hcalm Hfw Hdur Hbefore He1 Hlater.
  destruct (prelude_returns E w) as (w1 & Hrun & Hs1 & Hnd1).
  { rewrite Hs, length_app, Hpre. rewrite length_app. cbn. lia. }
  rewrite Hs, <- Hpre, drop_app_length in Hs1.
  rewrite (send_triage_request_after_publish E n w w1 Hpub Hrun).
  destruct (register_fresh (decision_key n) w1) as (_ & _ & Hs2 & Hc2).
  destruct (register_registered_pending n w1 (Hnd1 Hnd)) as [Hnd2 Hrp2].
  rewrite Hs1 in Hs2.
  destruct (wait_loop_first_writer n (length (futures w1)) (clock w1) before e1 later
              dt rest r1 calm
              (S (length (schedule (register (decision_key n) w1))))
              (register (decision_key n) w1))
    as (w3 & Hwait); try done.
  - rewrite Hc2. lra.
  - lia.
  - unfold wait_for_decision. rewrite Hwait.
    eexists. split; [reflexivity|]. cbn. apply lookup_delete_eq.
Qed.

(** Whenever the call returns or raises, its registry entry is gone. *)
Lemma registry_entry_removed E n w :
  (discord_bot.send_triage_request E n w).1 ≠ Waiting →
  pending_decisions (discord_bot.send_triage_request E n w).2 !! decision_key n = None.
Proof.
  unfold discord_bot.send_triage_request, try_finally.
  destruct (try_except _ _ w) as [[r|e|] w']; cbn; intros H; try done;
    apply lookup_delete_eq.
Qed.

Lemma duration_drop_length k sched :
  (0 < duration (drop k sched))%Q → k < length sched.
Proof.
  intros H. destruct (decide (k < length sched)) as [|Hge]; [done|].
  rewrite drop_ge in H by lia. cbn in H. lra.
Qed.

(** The call does not stay suspended when the ticks after the publication
    span more than the timeout. *)
Lemma send_triage_request_returns E n w :
  (3700 < duration (drop (publish_ticks E) (schedule w)))%Q →
  (discord_bot.send_triage_request E n w).1 ≠ Waiting.
Proof.
  intros Hdur.
  assert (publish_ticks E < length (schedule w)) as Hlen
    by (apply duration_drop_length; lra).
  destruct (prelude_returns E w) as (w1 & Hrun & Hs1 & _); [lia|].
  destruct (channel_id E) as [c|m] eqn:Hc.
  2:{ unfold discord_bot.send_triage_request, try_finally, try_except, bind.
      rewrite Hc. done. }
  destruct (channel_found E) eqn:Hfound.
  2:{ unfold discord_bot.send_triage_request, try_finally, try_except, bind.
      rewrite Hc, Hfound. cbn.
      unfold prelude, publish_ticks, bind in *.
      destruct (bot_ready E); [done|].
      destruct (schedule w) as [|t rest] eqn:Hs; [cbn in Hlen; lia|].
      by rewrite (suspend_cons _ _ _ Hs). }
  destruct (channel_send E) as [[]|m] eqn:Hsend.
  2:{ unfold discord_bot.send_triage_request, try_finally, try_except.
      unfold prelude in Hrun. unfold bind in *.
      rewrite Hc, Hfound, Hsend. cbn.
      destruct ((if bot_ready E then ret () else suspend) w) as [[[]|e|] w0];
        try discriminate.
      cbn. destruct (suspend w0) as [[[]|e|] w0']; try discriminate; done. }
  assert (published E) as Hpub by (split; [by exists c|by split]).
  rewrite (send_triage_request_after_publish E n w w1 Hpub Hrun).
  destruct (register_fresh (decision_key n) w1) as (_ & _ & Hs2 & Hc2).
  destruct (wait_loop_returns (S (length (schedule (register (decision_key n) w1))))
              (decision_key n) (clock w1) (register (decision_key n) w1))
    as (x & w3 & Hwait); [lia| |].
  { rewrite Hc2, Hs2, Hs1. lra. }
  unfold wait_for_decision. rewrite Hwait. by destruct x.
Qed.

Lemma forallb_drop {A} (p : A → bool) k (l : list A) :
  forallb p l = true → forallb p (drop k l) = true.
Proof.
  revert k. induction l as [|x l IH]; intros [|k] H; try done.
  cbn in H. apply andb_prop in H as [_ H]. by apply IH.
Qed.

(** With the request out and no callback for the issue, the call returns
    the timeout record. *)
Lemma send_triage_request_times_out E n w :
  no_dangling w →
  published E →
  forallb (quiet_for n) (schedule w) = true →
  (3700 < duration (drop (publish_ticks E) (schedule w)))%Q →
  ∃ w', discord_bot.send_triage_request E n w = (Return timeout_record, w').
Proof.
  intros Hnd Hpub Hq Hdur.
  assert (publish_ticks E < length (schedule w)) as Hlen
    by (apply duration_drop_length; lra).
  destruct (prelude_returns E w) as (w1 & Hrun & Hs1 & Hnd1); [lia|].
  rewrite (send_triage_request_after_publish E n w w1 Hpub Hrun).
  destruct (register_fresh (decision_key n) w1) as (_ & _ & Hs2 & Hc2).
  destruct (register_waiting_on n w1 (Hnd1 Hnd)) as [Hnd2 Hw2].
  destruct (wait_loop_times_out (S (length (schedule (register (decision_key n) w1))))
              n (clock w1) (register (decision_key n) w1))
    as (w3 & Hwait); try done.
  - rewrite Hs2, Hs1. by apply forallb_drop.
  - lia.
  - rewrite Hc2, Hs2, Hs1. lra.
  - unfold wait_for_decision. rewrite Hwait. eauto.
Qed.

(** C2. A slot is resolved at most once.  On a slot whose future is done,
    each of the four callbacks leaves the world exactly as it is; a stored
    record survives any sequence of events, registrations and removals by
    concurrent pipelines included; and the call returns the record of the
    first callback for its issue, whatever callbacks follow it during the
    same suspension: the request is published, ticks that do not concern the
    issue pass within the timeout, then, after events about other issues,
    the first callback for the issue runs, followed by further callbacks. *)
Theorem slot_is_resolved_once :
  (∀ w m f r,
      pending_decisions w !! discord_bot.decision_key m = Some f →
      futures w !! f = Some (Some r) →
      discord_bot.approve_button m w = w ∧
      discord_bot.reject_button m w = w ∧
      (∀ sev text dup, discord_bot.on_submit m sev text dup w = w) ∧
      discord_bot.on_timeout m w = w) ∧
  (∀ w f r evs,
      futures w !! f = Some (Some r) →
      futures (discord_bot.run_events evs w) !! f = Some (Some r)) ∧
  (∀ E n w pre calm dt before e1 later rest r1,
      published E →
      no_dangling w →
      length pre = publish_ticks E →
      schedule w
      = pre ++ calm
        ++ {| tick_events := before ++ e1 :: later; tick_dt := dt |} :: rest →
      forallb (calm_for n) calm = true →
      forward calm = true →
      (duration calm <= 3700)%Q →
      forallb (unrelated_to n) before = true →
      written_record e1 = Some (n, r1) →
      forallb is_writer later = true →
      ∃ w', discord_bot.send_triage_request E n w = (Return r1, w')).
Proof.
  split; [|split].
  - intros w m f r Hk Hf.
    unfold approve_button, reject_button, on_submit, on_timeout.
    repeat split; intros; by eapply set_result_noop.
  - intros w f r evs Hf. by apply run_events_resolved_stable.
  - intros E n w pre calm dt before e1 later rest r1 Hpub Hnd Hpre Hs Hcalm Hfw
      Hdur Hbefore He1 Hlater.
    destruct (first_writer_wins E n w pre calm dt before e1 later rest r1)
      as (w' & H & _); eauto.
Qed.

Lemma slot_is_resolved_once_witness :
  let w := Sample.world
             [Sample.idle 1;
              Sample.during [approve_click 102];
              Sample.idle 3000;
              Sample.during [concurrent_register 103; approve_click 101;
                             view_timeout 101; reject_click 101]] in
  (pending_decisions Sample.world_approved7 !! discord_bot.decision_key 7 = Some 0 ∧
   futures Sample.world_approved7 !! 0 = Some (Some discord_bot.approve_record) ∧
   discord_bot.on_timeout 7 Sample.world_approved7 = Sample.world_approved7 ∧
   futures (discord_bot.run_events [reject_click 7; concurrent_register 7; view_timeout 7]
              Sample.world_approved7) !! 0
   = Some (Some discord_bot.approve_record)) ∧
  (published Sample.env ∧
   no_dangling w ∧
   length [Sample.idle 1] = publish_ticks Sample.env ∧
   forallb (calm_for 101) [Sample.during [approve_click 102]; Sample.idle 3000] = true ∧
   forward [Sample.during [approve_click 102]; Sample.idle 3000] = true ∧
   (duration [Sample.during [approve_click 102]; Sample.idle 3000] <= 3700)%Q ∧
   forallb (unrelated_to 101) [concurrent_register 103] = true ∧
   written_record (approve_click 101) = Some (101%Z, discord_bot.approve_record) ∧
   forallb is_writer [view_timeout 101; reject_click 101] = true ∧
   ∃ w', discord_bot.send_triage_request Sample.env 101 w
         = (Return discord_bot.approve_record, w')).
Proof.
  intros w.
  assert (pending_decisions Sample.world_approved7 !! discord_bot.decision_key 7 = Some 0)
    as Hk by (vm_compute; reflexivity).
  assert (futures Sample.world_approved7 !! 0 = Some (Some discord_bot.approve_record))
    as Hf by reflexivity.
  assert (published Sample.env) as Hpub
    by (split; [by exists 1234%Z|by split]).
  assert (no_dangling w) as Hnd by apply map_Forall_empty.
  assert (duration [Sample.during [approve_click 102]; Sample.idle 3000] <= 3700)%Q
    as Hdur by (vm_compute; discriminate).
  destruct slot_is_resolved_once as (Hnoop & Hstable & Hfirst).
  split.
  - split; [exact Hk|]. split; [exact Hf|]. split.
    + exact (proj2 (proj2 (proj2 (Hnoop _ _ _ _ Hk Hf)))).
    + exact (Hstable _ _ _ _ Hf).
  - split; [exact Hpub|]. split; [exact Hnd|]. split; [reflexivity|].
    split; [reflexivity|]. split; [reflexivity|]. split; [exact Hdur|].
    split; [reflexivity|]. split; [reflexivity|]. split; [reflexivity|].
    exact (Hfirst Sample.env 101%Z w [Sample.idle 1]
             [Sample.during [approve_click 102]; Sample.idle 3000] 1%Q
             [concurrent_register 103] (approve_click 101)
             [view_timeout 101; reject_click 101] [] discord_bot.approve_record
             Hpub Hnd eq_refl eq_refl eq_refl eq_refl Hdur eq_refl eq_refl eq_refl).
Defined.

(** C3 fails on the code: issue 7 already has a pending decision on future
    0 when a second request for it is made; the second call does not raise,
    and its registration statement points the key at a new future. *)
Lemma second_registration_is_not_rejected :
  let w := Sample.world_pending7 [Sample.idle 1; Sample.during [approve_click 7]] in
  pending_decisions w !! discord_bot.decision_key 7 = Some 0 ∧
  futures w !! 0 = Some None ∧
  ¬ (∃ msg w', discord_bot.send_triage_request Sample.env 7 w = (Raise msg, w')) ∧
  pending_decisions (discord_bot.register (discord_bot.decision_key 7) w)
    !! discord_bot.decision_key 7 = Some 1.
Proof.
  intros w. split; [vm_compute; reflexivity|]. split; [reflexivity|]. split.
  - intros (msg & w' & H).
    assert ((discord_bot.send_triage_request Sample.env 7 w).1
            = Return discord_bot.approve_record) as Hret by (vm_compute; reflexivity).
    rewrite H in Hret. discriminate.
  - vm_compute. reflexivity.
Qed.

(** The wait never raises: the handler inside the loop turns every
    exception into the timeout record. *)
Lemma wait_loop_never_raises fuel key start w e w' :
  wait_loop fuel key start w ≠ (Raise e, w').
Proof.
  revert w. induction fuel as [|fuel IH]; intros w; [done|].
  rewrite wait_loop_S, loop_body_cases.
  destruct (pending_decisions w !! key) as [f|]; [|done].
  destruct (futures w !! f) as [[r|]|]; [done| |];
    (destruct (Qle_bool _ _); [|done]; destruct (schedule w); [done|apply IH]).
Qed.

Lemma suspend_never_raises w e w' : suspend w ≠ (Raise e, w').
Proof. unfold suspend. by destruct (schedule w). Qed.

(** Once the channel accepts the request the call raises nothing. *)
Lemma published_call_never_raises E n w msg w' :
  published E →
  discord_bot.send_triage_request E n w ≠ (Raise msg, w').
Proof.
  intros ((c & Hc) & Hfound & Hsend).
  unfold discord_bot.send_triage_request, try_finally, try_except, bind.
  rewrite Hc, Hfound, Hsend. cbn.
  destruct ((if bot_ready E then ret () else suspend) w) as [[[]|e|] w0] eqn:H0; cbn.
  - destruct (suspend w0) as [[[]|e|] w1] eqn:H1; cbn.
    + destruct (wait_for_decision _ _ _) as [[[r|r]|e|] w3] eqn:Hwait; cbn;
        try discriminate.
      unfold wait_for_decision in Hwait. by apply wait_loop_never_raises in Hwait.
    + by apply suspend_never_raises in H1.
    + discriminate.
  - destruct (bot_ready E); [discriminate|]. by apply suspend_never_raises in H0.
  - discriminate.
Qed.

(** C3 as the code has it.  When the issue already has a registry entry,
    the registration statement does not fail: it points the key at a new
    future that is not done, and leaves the earlier future as it was, no
    longer reachable through the key.  Nor does the call that makes the
    registration fail: once the channel accepts its request it raises
    nothing, whatever runs meanwhile. *)
Theorem second_registration_replaces E n w f :
  no_dangling w →
  pending_decisions w !! discord_bot.decision_key n = Some f →
  published E →
  (pending_decisions (discord_bot.register (discord_bot.decision_key n) w)
     !! discord_bot.decision_key n = Some (length (futures w)) ∧
   length (futures w) ≠ f ∧
   futures (discord_bot.register (discord_bot.decision_key n) w) !! length (futures w)
   = Some None ∧
   futures (discord_bot.register (discord_bot.decision_key n) w) !! f
   = futures w !! f) ∧
  ∀ msg w', discord_bot.send_triage_request E n w ≠ (Raise msg, w').
Proof.
  intros Hnd Hk Hpub.
  pose proof (Hnd _ _ Hk) as Hlt. cbn in Hlt.
  destruct (register_fresh (decision_key n) w) as (Hk' & Hf' & _).
  split.
  - split; [exact Hk'|]. split; [lia|]. split; [exact Hf'|].
    unfold register. cbn. by rewrite lookup_app_l.
  - intros msg w'. by apply published_call_never_raises.
Qed.

Lemma second_registration_replaces_witness :
  let w := Sample.world_pending7
             [Sample.idle 1; Sample.during [approve_click 7; concurrent_cleanup 7]] in
  no_dangling w ∧
  pending_decisions w !! discord_bot.decision_key 7 = Some 0 ∧
  published Sample.env ∧
  (pending_decisions (discord_bot.register (discord_bot.decision_key 7) w)
     !! discord_bot.decision_key 7 = Some 1 ∧
   1 ≠ 0 ∧
   futures (discord_bot.register (discord_bot.decision_key 7) w) !! 1 = Some None ∧
   futures (discord_bot.register (discord_bot.decision_key 7) w) !! 0 = futures w !! 0) ∧
  ∀ msg w', discord_bot.send_triage_request Sample.env 7 w ≠ (Raise msg, w').
Proof.
  intros w.
  assert (no_dangling w) as Hnd.
  { apply (handle_no_dangling (Sample.world _) (concurrent_register 7)).
    apply map_Forall_empty. }
  assert (pending_decisions w !! discord_bot.decision_key 7 = Some 0) as Hk
    by (vm_compute; reflexivity).
  assert (published Sample.env) as Hpub
    by (split; [by exists 1234%Z|by split]).
  split; [exact Hnd|]. split; [exact Hk|]. split; [exact Hpub|].
  exact (second_registration_replaces Sample.env 7%Z w 0 Hnd Hk Hpub).
Defined.

(** C4. When the ticks that follow the publication span more than the
    3700 seconds of the timeout, the call does not stay suspended: it
    returns or raises, and either way its registry entry is gone.  When in
    addition the channel accepted the request and no callback for the issue
    ran, what it returns is the timeout record. *)
Theorem await_times_out_and_cleans_up E n w :
  no_dangling w →
  (3700 < duration (drop (publish_ticks E) (schedule w)))%Q →
  ∃ o w',
    discord_bot.send_triage_request E n w = (o, w') ∧
    o ≠ Waiting ∧
    pending_decisions w' !! discord_bot.decision_key n = None ∧
    (published E →
     forallb (quiet_for n) (schedule w) = true →
     o = Return discord_bot.timeout_record).
Proof.
  intros Hnd Hdur.
  pose proof (send_triage_request_returns E n w Hdur) as Hret.
  pose proof (registry_entry_removed E n w Hret) as Hgone.
  destruct (discord_bot.send_triage_request E n w) as [o w'] eqn:Hcall.
  exists o, w'. repeat split; try done.
  intros Hpub Hq.
  destruct (send_triage_request_times_out E n w Hnd Hpub Hq Hdur) as (w'' & H).
  congruence.
Qed.

Lemma await_times_out_and_cleans_up_witness :
  let w := Sample.world
             [Sample.during [approve_click 102; concurrent_register 101];
              Sample.idle 1800; Sample.during [concurrent_register 103];
              Sample.idle 1900] in
  no_dangling w ∧
  (3700 < duration (drop (publish_ticks Sample.env) (schedule w)))%Q ∧
  published Sample.env ∧
  forallb (quiet_for 101) (schedule w) = true ∧
  ∃ w', discord_bot.send_triage_request Sample.env 101 w
        = (Return discord_bot.timeout_record, w') ∧
        pending_decisions w' !! discord_bot.decision_key 101 = None.
Proof.
  intros w.
  assert (no_dangling w) as Hnd by apply map_Forall_empty.
  assert (3700 < duration (drop (publish_ticks Sample.env) (schedule w)))%Q as Hdur
    by (vm_compute; reflexivity).
  assert (published Sample.env) as Hpub
    by (split; [by exists 1234%Z|by split]).
  assert (forallb (quiet_for 101) (schedule w) = true) as Hq by reflexivity.
  split; [exact Hnd|]. split; [exact Hdur|]. split; [exact Hpub|].
  split; [exact Hq|].
  destruct (await_times_out_and_cleans_up Sample.env 101%Z w Hnd Hdur)
    as (o & w' & Hcall & _ & Hgone & Hto).
  exists w'. rewrite Hcall, (Hto Hpub Hq). split; [reflexivity|exact Hgone].
Defined.

(** The registry entry is removed on the other two ways out as well: when
    the human answers and when the channel rejects the request. *)
Example entry_removed_after_answer_and_after_error :
  let answered :=
    discord_bot.send_triage_request Sample.env 101
      (Sample.world [Sample.idle 1; Sample.during [reject_click 101]]) in
  let failed :=
    discord_bot.send_triage_request
      (Sample.with_channel_send (Exc "503 Service Unavailable") Sample.env) 101
      (Sample.world_pending7 [Sample.idle 1]) in
  answered.1 = Return discord_bot.reject_record ∧
  pending_decisions answered.2 !! discord_bot.decision_key 101 = None ∧
  failed.1 = Raise "Discord integration failed: 503 Service Unavailable - HUMAN INPUT REQUIRED" ∧
  pending_decisions failed.2 !! discord_bot.decision_key 101 = None.
Proof. vm_compute. repeat split; reflexivity. Qed.

(* ===================================================================== *)
(** ** A request that cannot be published is fatal *)
(* ===================================================================== *)

(** When the bot cannot publish the request, because the channel id does
    not parse, the channel is not found or [channel.send] raises, the bot's
    call raises. *)
Lemma bot_raises_when_unpublished E n w :
  ¬ published E →
  publish_ticks E < S (length (schedule w)) →
  ∃ msg w',
    discord_bot.send_triage_request E n w
    = (Raise ("Discord integration failed: " +:+ msg +:+ " - HUMAN INPUT REQUIRED"), w').
Proof.
  intros Hnot Hlen.
  destruct (prelude_returns E w Hlen) as (w1 & Hrun & _).
  destruct (channel_id E) as [c|m] eqn:Hc.
  2:{ unfold discord_bot.send_triage_request, try_finally, try_except, bind.
      rewrite Hc. cbn. eauto. }
  destruct (channel_found E) eqn:Hfound.
  2:{ unfold discord_bot.send_triage_request, try_finally, try_except, bind.
      rewrite Hc, Hfound. cbn.
      unfold prelude, publish_ticks, bind in *.
      destruct (bot_ready E); [cbn; by eauto|].
      destruct (schedule w) as [|t rest] eqn:Hs; [cbn in Hlen; lia|].
      rewrite (suspend_cons _ _ _ Hs). cbn. eauto. }
  destruct (channel_send E) as [[]|m] eqn:Hsend.
  { destruct Hnot. split; [by exists c|by split]. }
  unfold discord_bot.send_triage_request, try_finally, try_except.
  unfold prelude in Hrun. unfold bind in *.
  rewrite Hc, Hfound, Hsend. cbn.
  destruct ((if bot_ready E then ret () else suspend) w) as [[[]|e|] w0];
    try discriminate.
  cbn. destruct (suspend w0) as [[[]|e|] w0']; try discriminate. cbn. eauto.
Qed.

(** Then [DiscordManager.send_triage_request] raises as well, however it
    reaches the bot, provided the webhook URL is configured. *)
Lemma manager_raises_when_unpublished E c w :
  DISCORD_WEBHOOK_URL E ≠ EmptyString →
  ¬ published E →
  publish_ticks E < S (length (schedule w)) →
  ∃ msg w',
    discord_tools.send_triage_request E c w
    = (Raise ("Discord triage request failed: " +:+ msg +:+ " - HUMAN INPUT REQUIRED"), w').
Proof.
  intros Hurl Hnot Hlen. apply String.eqb_neq in Hurl.
  destruct (bot_raises_when_unpublished E (discord_tools.issue_number c) w Hnot Hlen)
    as (msg & w' & Hbot).
  unfold discord_tools.send_triage_request, try_except. rewrite Hurl.
  destruct (bot_importable E).
  - destruct (bot_loop E) as [| |[]|m].
    + rewrite Hbot. eauto.
    + unfold discord_tools.run_coroutine_threadsafe. rewrite Hbot.
      destruct (Qle_bool _ _); eauto.
    + unfold discord_tools.run_coroutine_threadsafe. rewrite Hbot.
      destruct (Qle_bool _ _); eauto.
    + cbn. eauto.
    + cbn. eauto.
  - unfold bind, discord_tools.post.
    destruct (requests_post E _ _); cbn; eauto.
Qed.

Lemma _perform_ai_analysis_returns E st w :
  ∃ st', agent._perform_ai_analysis E (st, w) = (Return tt, (st', w)) ∧
         issue_id st' = issue_id st ∧
         actions_executed st' = actions_executed st.
Proof.
  unfold agent._perform_ai_analysis, try_except, bind, agent.state, agent.update, call.
  cbn.
  destruct (classify_severity E _ _); cbn; [|by eauto].
  destruct (summarize_issue E _ _); cbn; by eauto.
Qed.

Lemma _perform_duplicate_detection_returns E st w :
  ∃ st', agent._perform_duplicate_detection E (st, w) = (Return tt, (st', w)) ∧
         issue_id st' = issue_id st ∧
         actions_executed st' = actions_executed st.
Proof.
  unfold agent._perform_duplicate_detection, try_except, bind, agent.state,
    agent.world, agent.update, call, ret, raise, agent.match_found.
  cbn.
  destruct (find_duplicate E _ _ _ _ _) as [[[d|] [s|]]|m]; cbn;
    try destruct (negb (d =? 0)%Z && negb (Qeq_bool s 0)); cbn; by eauto.
Qed.

(** With the webhook URL configured, a request that cannot be published
    makes the whole run fail: the result is the failure dictionary, its
    error says that human clarification failed, and neither the decision
    execution nor the notification has run. *)
Lemma publish_failure_is_fatal E issue_data w :
  DISCORD_WEBHOOK_URL E ≠ EmptyString →
  ¬ published E →
  publish_ticks E < S (length (schedule w)) →
  ∃ msg w',
    agent.triage_new_issue E issue_data w
    = (Return
         (TriageFailure (default 0%Z (number issue_data))
            ("Human clarification required but failed: "
             +:+ "Discord triage request failed: " +:+ msg
             +:+ " - HUMAN INPUT REQUIRED")), w').
Proof.
  intros Hurl Hnot Hlen.
  unfold agent.triage_new_issue, agent.phases.
  destruct (_perform_ai_analysis_returns E (new_TriageState issue_data) w)
    as (st1 & H1 & Hid1 & _).
  destruct (_perform_duplicate_detection_returns E st1 w) as (st2 & H2 & Hid2 & _).
  destruct (manager_raises_when_unpublished E (agent.clarification_of st2) w
              Hurl Hnot Hlen) as (msg & w' & H3).
  exists msg, w'.
  unfold bind at 1. rewrite H1. unfold bind at 1. rewrite H2.
  unfold bind at 1.
  unfold agent._request_human_clarification, try_except, bind, agent.state,
    agent.world.
  cbn. rewrite H3. cbn. by rewrite Hid2, Hid1.
Qed.

(** For instance when [channel.send] answers 503. *)
Example channel_down_fails_the_run :
  (agent.triage_new_issue
     (Sample.with_channel_send (Exc "503 Service Unavailable") Sample.env)
     Sample.issue101 (Sample.world [Sample.idle 1])).1
  = Return
      (TriageFailure 101
         "Human clarification required but failed: Discord triage request failed: Discord integration failed: 503 Service Unavailable - HUMAN INPUT REQUIRED - HUMAN INPUT REQUIRED").
Proof. vm_compute. reflexivity. Qed.

(** The action map is still empty when the decision execution starts: the
    first three phases do not write to it. *)
Lemma actions_empty_before_decision E issue_data w :
  actions_executed
    ((let! _ := agent._perform_ai_analysis E in
      let! _ := agent._perform_duplicate_detection E in
      agent._request_human_clarification E) (new_TriageState issue_data, w)).2.1
  = [].
Proof.
  destruct (_perform_ai_analysis_returns E (new_TriageState issue_data) w)
    as (st1 & H1 & _ & Ha1).
  destruct (_perform_duplicate_detection_returns E st1 w) as (st2 & H2 & _ & Ha2).
  unfold bind at 1. rewrite H1. unfold bind at 1. rewrite H2.
  unfold agent._request_human_clarification, try_except, bind, agent.state,
    agent.world, agent.update, raise.
  cbn.
  destruct (discord_tools.send_triage_request E (agent.clarification_of st2) w)
    as [[r|e|] w']; cbn; by rewrite Ha2, Ha1.
Qed.

(* ===================================================================== *)
(** ** Further properties of the wait *)
(* ===================================================================== *)

Section Preserves.
Context {S A B : Type} (P : S → Prop).

Lemma preserves_ret (a : A) : preserves P (ret a).
Proof. intros s. done. Qed.

Lemma preserves_raise msg : preserves P (raise (A := A) msg).
Proof. intros s. done. Qed.

Lemma preserves_call (r : pyresult A) : preserves P (call r).
Proof. intros s. by destruct r. Qed.

Lemma preserves_get : preserves P (get (S := S)).
Proof. intros s. done. Qed.

Lemma preserves_bind (m : M S A) (k : A → M S B) :
  preserves P m → (∀ a, preserves P (k a)) → preserves P (bind m k).
Proof.
  intros Hm Hk s Hs. unfold bind. specialize (Hm s Hs).
  destruct (m s) as [[a|msg|] s']; cbn in *; [by apply Hk|done|done].
Qed.

Lemma preserves_try_except (m : M S A) (h : string → M S A) :
  preserves P m → (∀ e, preserves P (h e)) → preserves P (try_except m h).
Proof.
  intros Hm Hh s Hs. unfold try_except. specialize (Hm s Hs).
  destruct (m s) as [[a|msg|] s']; cbn in *; [done|by apply Hh|done].
Qed.

End Preserves.

Ltac py_preserves :=
  repeat first
    [ apply preserves_ret | apply preserves_raise | apply preserves_call
    | apply preserves_get | apply preserves_bind | apply preserves_try_except
    | match goal with |- ∀ _, preserves _ _ => intro end ].

(** A call that returns a record got its request published and took the
    record from the wait on the future it registered. *)
Lemma send_triage_request_return_inv E n w r w' :
  discord_bot.send_triage_request E n w = (Return r, w') →
  published E ∧
  ∃ w1 x w3,
    prelude E w = (Return tt, w1) ∧
    wait_for_decision (decision_key n) (clock w1) (register (decision_key n) w1)
    = (Return x, w3) ∧
    r = match x with Break r | ReturnNow r => r end ∧
    w' = cleanup (decision_key n) w3.
Proof.
  intros Hcall.
  destruct (channel_id E) as [c|m] eqn:Hc.
  2:{ unfold discord_bot.send_triage_request, try_finally, try_except, bind in Hcall.
      rewrite Hc in Hcall. cbn in Hcall. discriminate. }
  destruct (channel_found E) eqn:Hfound.
  2:{ unfold discord_bot.send_triage_request, try_finally, try_except, bind in Hcall.
      rewrite Hc, Hfound in Hcall. cbn in Hcall.
      destruct ((if bot_ready E then ret () else suspend) w) as [[[]|e|] w0];
        cbn in Hcall; discriminate. }
  destruct (channel_send E) as [[]|m] eqn:Hsend.
  2:{ unfold discord_bot.send_triage_request, try_finally, try_except, bind in Hcall.
      rewrite Hc, Hfound, Hsend in Hcall. cbn in Hcall.
      destruct ((if bot_ready E then ret () else suspend) w) as [[[]|e|] w0];
        cbn in Hcall; try discriminate.
      destruct (suspend w0) as [[[]|e|] w0']; cbn in Hcall; discriminate. }
  assert (published E) as Hpub by (split; [by exists c|by split]).
  split; [exact Hpub|].
  destruct (prelude E w) as [[[]|e|] w1] eqn:Hpre.
  - rewrite (send_triage_request_after_publish E n w w1 Hpub Hpre) in Hcall.
    destruct (wait_for_decision _ _ _) as [[[x|x]|e|] w3] eqn:Hwait;
      try discriminate; injection Hcall as <- <-; by eexists _, _, _.
  - unfold prelude, bind, suspend in Hpre.
    destruct (bot_ready E); cbn in Hpre; repeat case_match; simplify_eq.
  - unfold discord_bot.send_triage_request, try_finally, try_except in Hcall.
    unfold prelude in Hpre. unfold bind in *.
    rewrite Hc, Hfound, Hsend in Hcall. cbn in Hcall.
    destruct ((if bot_ready E then ret () else suspend) w) as [[[]|e|] w0];
      cbn in Hcall, Hpre; try discriminate.
    destruct (suspend w0) as [[[]|e|] w0']; cbn in Hcall; discriminate.
Qed.

(** A callback for the issue that runs while the request is still being
    sent finds no registry entry and is dropped: the future is registered
    only after [channel.send] has returned.  When no callback follows, the
    call ends with the timeout record. *)
Theorem callbacks_during_publication_are_dropped E n w :
  no_dangling w →
  published E →
  forallb (quiet_for n) (drop (publish_ticks E) (schedule w)) = true →
  (3700 < duration (drop (publish_ticks E) (schedule w)))%Q →
  ∃ w', discord_bot.send_triage_request E n w
        = (Return discord_bot.timeout_record, w').
Proof.
  intros Hnd Hpub Hq Hdur.
  assert (publish_ticks E < length (schedule w)) as Hlen
    by (apply duration_drop_length; lra).
  destruct (prelude_returns E w) as (w1 & Hrun & Hs1 & Hnd1); [lia|].
  rewrite (send_triage_request_after_publish E n w w1 Hpub Hrun).
  destruct (register_fresh (decision_key n) w1) as (_ & _ & Hs2 & Hc2).
  destruct (register_waiting_on n w1 (Hnd1 Hnd)) as [Hnd2 Hw2].
  destruct (wait_loop_times_out (S (length (schedule (register (decision_key n) w1))))
              n (clock w1) (register (decision_key n) w1))
    as (w3 & Hwait); try done.
  - by rewrite Hs2, Hs1.
  - lia.
  - rewrite Hc2, Hs2, Hs1. lra.
  - unfold wait_for_decision. rewrite Hwait. eauto.
Qed.

Lemma callbacks_during_publication_are_dropped_witness :
  let w := Sample.world
             [Sample.during [approve_click 101; reject_click 101];
              Sample.idle 3701] in
  no_dangling w ∧
  published Sample.env ∧
  forallb (quiet_for 101) (drop (publish_ticks Sample.env) (schedule w)) = true ∧
  (3700 < duration (drop (publish_ticks Sample.env) (schedule w)))%Q ∧
  ∃ w', discord_bot.send_triage_request Sample.env 101 w
        = (Return discord_bot.timeout_record, w').
Proof.
  intros w.
  assert (no_dangling w) as Hnd by apply map_Forall_empty.
  assert (published Sample.env) as Hpub
    by (split; [by exists 1234%Z|by split]).
  assert (3700 < duration (drop (publish_ticks Sample.env) (schedule w)))%Q as Hdur
    by (vm_compute; reflexivity).
  split; [exact Hnd|]. split; [exact Hpub|]. split; [reflexivity|].
  split; [exact Hdur|].
  exact (callbacks_during_publication_are_dropped Sample.env 101%Z w Hnd Hpub
           eq_refl Hdur).
Defined.

(** Once the entry of the issue is gone, only a registration brings it
    back. *)
Lemma absent_stays_absent n evs w :
  forallb (not_register n) evs = true →
  pending_decisions w !! decision_key n = None →
  pending_decisions (run_events evs w) !! decision_key n = None.
Proof.
  revert w. induction evs as [|e evs IH]; intros w Hev Hk; [done|].
  cbn in Hev. apply andb_prop in Hev as [He Hev]. rewrite run_events_cons.
  apply IH; [exact Hev|].
  destruct (written_record e) as [[m r0]|] eqn:Hrec.
  - by rewrite (handle_writer _ _ _ _ Hrec), set_result_registry.
  - destruct e; try discriminate.
    + cbn in He. apply negb_true_iff, Z.eqb_neq in He.
      unfold handle, register. cbn. rewrite lookup_insert_ne; [done|].
      intros Heq. by apply He, decision_key_inj.
    + unfold handle, cleanup. cbn. apply lookup_delete_None. by right.
Qed.

(** While no callback for the issue runs, the wait can only end with the
    timeout record; and it does end with it in the tick in which the entry
    of the issue is removed and not put back. *)
Lemma wait_loop_ends_at_cleanup n start quiet before later dt rest fuel w :
  no_dangling w →
  waiting_on (decision_key n) w →
  schedule w
  = quiet ++ {| tick_events := before ++ concurrent_cleanup n :: later;
                tick_dt := dt |} :: rest →
  forallb (quiet_for n) quiet = true →
  forallb (not_register n) later = true →
  length (schedule w) < fuel →
  ∃ w', wait_loop fuel (decision_key n) start w
        = (Return (ReturnNow timeout_record), w').
Proof.
  intros Hnd Hw Hs Hquiet Hlater Hfuel.
  revert fuel w Hnd Hw Hs Hfuel.
  induction quiet as [|t quiet IH]; intros fuel w Hnd Hw Hs Hfuel.
  - cbn in Hs. rewrite Hs in Hfuel. cbn in Hfuel.
    destruct fuel as [|[|fuel]]; [lia..|].
    rewrite wait_loop_S, loop_body_cases.
    destruct (pending_decisions w !! decision_key n) as [f|] eqn:Hk; [|by eauto].
    destruct (Hw f Hk) as [-> _].
    destruct (Qle_bool _ _); [|by eauto].
    rewrite Hs. cbn [tick_events tick_dt].
    set (w0 := set_time _ _ _).
    assert (pending_decisions
              (run_events (before ++ concurrent_cleanup n :: later) w0)
              !! decision_key n = None) as Hgone.
    { rewrite run_events_app, run_events_cons. apply absent_stays_absent; [done|].
      unfold handle, cleanup. cbn. apply lookup_delete_eq. }
    rewrite wait_loop_S, loop_body_cases, Hgone. eauto.
  - cbn in Hs, Hquiet. apply andb_prop in Hquiet as [Ht Hquiet].
    destruct fuel as [|fuel]; [lia|].
    rewrite wait_loop_S, loop_body_cases.
    destruct (pending_decisions w !! decision_key n) as [f|] eqn:Hk; [|by eauto].
    destruct (Hw f Hk) as [-> _].
    destruct (Qle_bool _ _); [|by eauto].
    rewrite Hs.
    set (w0 := set_time (clock w + tick_dt t)%Q _ w).
    destruct (run_events_waiting_on n (tick_events t) w0) as [Hnd' Hw']; try done.
    destruct (run_events_time (tick_events t) w0) as [_ Hs'].
    apply (IH Hquiet); try done.
    rewrite Hs'. cbn. rewrite Hs in Hfuel. cbn in Hfuel. lia.
Qed.

(** When a concurrent pipeline for the same issue runs its cleanup during
    the wait, in whichever tick of it, the waiting call finds its entry gone
    and returns the timeout record, however little time has passed and
    whatever ran before the cleanup in that tick, a click of the human
    included; the [KeyError] of the lookup is swallowed by the loop's
    handler.  The ticks of the wait before that one are any ticks in which
    no callback for the issue runs. *)
Theorem concurrent_cleanup_ends_the_wait E n w pre quiet dt before later rest :
  published E →
  no_dangling w →
  length pre = publish_ticks E →
  schedule w
  = pre ++ quiet ++ {| tick_events := before ++ concurrent_cleanup n :: later;
                       tick_dt := dt |} :: rest →
  forallb (quiet_for n) quiet = true →
  forallb (not_register n) later = true →
  ∃ w', discord_bot.send_triage_request E n w
        = (Return discord_bot.timeout_record, w').
Proof.
  intros Hpub Hnd Hpre Hs Hquiet Hlater.
  destruct (prelude_returns E w) as (w1 & Hrun & Hs1 & Hnd1).
  { rewrite Hs, length_app, Hpre. rewrite length_app. cbn. lia. }
  rewrite Hs, <- Hpre, drop_app_length in Hs1.
  rewrite (send_triage_request_after_publish E n w w1 Hpub Hrun).
  destruct (register_fresh (decision_key n) w1) as (_ & _ & Hs2 & _).
  destruct (register_waiting_on n w1 (Hnd1 Hnd)) as [Hnd2 Hw2].
  rewrite Hs1 in Hs2.
  destruct (wait_loop_ends_at_cleanup n (clock w1) quiet before later dt rest
              (S (length (schedule (register (decision_key n) w1))))
              (register (decision_key n) w1))
    as (w3 & Hwait); try done; [lia|].
  unfold wait_for_decision. rewrite Hwait. eauto.
Qed.

Lemma concurrent_cleanup_ends_the_wait_witness :
  let w := Sample.world
             [Sample.idle 1; Sample.idle 10;
              Sample.during [approve_click 102; concurrent_register 101];
              Sample.during [concurrent_register 101; approve_click 101;
                             concurrent_cleanup 101; reject_click 101]] in
  published Sample.env ∧
  no_dangling w ∧
  length [Sample.idle 1] = publish_ticks Sample.env ∧
  forallb (quiet_for 101)
    [Sample.idle 10; Sample.during [approve_click 102; concurrent_register 101]]
  = true ∧
  forallb (not_register 101) [reject_click 101] = true ∧
  ∃ w', discord_bot.send_triage_request Sample.env 101 w
        = (Return discord_bot.timeout_record, w').
Proof.
  intros w.
  assert (published Sample.env) as Hpub
    by (split; [by exists 1234%Z|by split]).
  assert (no_dangling w) as Hnd by apply map_Forall_empty.
  split; [exact Hpub|]. split; [exact Hnd|]. split; [reflexivity|].
  split; [reflexivity|]. split; [reflexivity|].
  exact (concurrent_cleanup_ends_the_wait Sample.env 101%Z w [Sample.idle 1]
           [Sample.idle 10; Sample.during [approve_click 102; concurrent_register 101]]
           1%Q [concurrent_register 101; approve_click 101] [reject_click 101] []
           Hpub Hnd eq_refl eq_refl eq_refl eq_refl).
Defined.

(** *** What the call does to the registry *)

Lemma suspend_preserves_frame key D :
  preserves
    (fun w => delete key (pending_decisions w) = D ∧ callbacks_only (schedule w) = true)
    suspend.
Proof.
  intros w [Hd Hc]. unfold suspend.
  destruct (schedule w) as [|t rest] eqn:Hs; [cbn; by rewrite Hs|].
  cbn in Hc. apply andb_prop in Hc as [Ht Hc]. cbn.
  rewrite writers_keep_registry by done.
  split; [exact Hd|].
  destruct (run_events_time (tick_events t)
              (set_time (clock w + tick_dt t)%Q rest w)) as [_ ->]. exact Hc.
Qed.

Lemma loop_body_preserves_frame key start D :
  preserves
    (fun w => delete key (pending_decisions w) = D ∧ callbacks_only (schedule w) = true)
    (loop_body key start).
Proof.
  unfold loop_body. apply preserves_try_except; [|py_preserves].
  apply preserves_bind; [apply preserves_get|]. intros w0.
  repeat case_match; py_preserves; apply suspend_preserves_frame.
Qed.

Lemma wait_loop_preserves_frame fuel key start D :
  preserves
    (fun w => delete key (pending_decisions w) = D ∧ callbacks_only (schedule w) = true)
    (wait_loop fuel key start).
Proof.
  induction fuel as [|fuel IH]; [by intros w|].
  cbn [wait_loop]. apply preserves_bind; [apply loop_body_preserves_frame|].
  intros [x|]; [apply preserves_ret|exact IH].
Qed.

(** As long as only callbacks run meanwhile, all the call changes in the
    registry is the entry of its own issue, which it removes: whether it
    returns or raises, and whether the entry was its own or was there
    before, put by another pipeline. *)
Theorem call_removes_exactly_its_key E n w :
  callbacks_only (schedule w) = true →
  (discord_bot.send_triage_request E n w).1 ≠ Waiting →
  pending_decisions (discord_bot.send_triage_request E n w).2
  = delete (discord_bot.decision_key n) (pending_decisions w).
Proof.
  intros Hc.
  set (P := fun w' =>
              delete (decision_key n) (pending_decisions w')
              = delete (decision_key n) (pending_decisions w) ∧
              callbacks_only (schedule w') = true).
  unfold discord_bot.send_triage_request, try_finally.
  set (body := try_except _ _).
  assert (preserves P body) as Hbody.
  { unfold body. py_preserves.
    - destruct (bot_ready E); [apply preserves_ret|apply suspend_preserves_frame].
    - destruct (channel_found E); [apply preserves_ret|apply preserves_raise].
    - apply suspend_preserves_frame.
    - intros w0 [Hd Hs]. unfold P, modify, register. cbn.
      by rewrite delete_insert_eq.
    - intros w0 Hw0. unfold wait_for_decision.
      by apply wait_loop_preserves_frame.
    - case_match; py_preserves. }
  specialize (Hbody w (conj eq_refl Hc)).
  destruct (body w) as [[r|e|] w']; cbn in *; intros Hret; try done;
    destruct Hbody as [Hd _]; exact Hd.
Qed.

Lemma call_removes_exactly_its_key_witness :
  let E := Sample.with_channel_send (Exc "503 Service Unavailable") Sample.env in
  let w := Sample.world_pending7 [Sample.during [approve_click 7]] in
  callbacks_only (schedule w) = true ∧
  (discord_bot.send_triage_request E 7 w).1 ≠ Waiting ∧
  pending_decisions w !! discord_bot.decision_key 7 = Some 0 ∧
  pending_decisions (discord_bot.send_triage_request E 7 w).2
  = delete (discord_bot.decision_key 7) (pending_decisions w).
Proof.
  intros E w.
  assert ((discord_bot.send_triage_request E 7 w).1 ≠ Waiting) as Hret
    by (vm_compute; discriminate).
  split; [reflexivity|]. split; [exact Hret|].
  split; [vm_compute; reflexivity|].
  exact (call_removes_exactly_its_key E 7%Z w eq_refl Hret).
Defined.

(** *** The kinds of decision the wait can return *)

Lemma written_record_known_kind e n r : written_record e = Some (n, r) → known_kind r.
Proof.
  unfold known_kind.
  destruct e; cbn; intros H; simplify_eq; cbn; auto.
Qed.

(** From the future registered by the call onwards, every future holds a
    record written by one of the callbacks, and the key of the issue refers
    to one of these futures. *)
Lemma handle_keeps_kinds n b e w :
  (b ≤ length (futures w) ∧
   (∀ f r, b ≤ f → futures w !! f = Some (Some r) → known_kind r) ∧
   (∀ f, pending_decisions w !! decision_key n = Some f → b ≤ f)) →
  (b ≤ length (futures (handle w e)) ∧
   (∀ f r, b ≤ f → futures (handle w e) !! f = Some (Some r) → known_kind r) ∧
   (∀ f, pending_decisions (handle w e) !! decision_key n = Some f → b ≤ f)).
Proof.
  intros (Hlen & Hfut & Hkey).
  destruct (written_record e) as [[m r0]|] eqn:Hrec.
  - rewrite (handle_writer _ _ _ _ Hrec), set_result_registry, set_result_length.
    split; [exact Hlen|]. split; [|exact Hkey].
    intros f r Hb. unfold set_result_if_pending.
    destruct (pending_decisions w !! decision_key m) as [g|]; [|by apply Hfut].
    destruct (futures w !! g) as [[r1|]|] eqn:Hg; try by apply Hfut.
    cbn. destruct (decide (g = f)) as [->|Hne].
    + rewrite list_lookup_insert_eq by (by eapply lookup_lt_Some).
      intros [= <-]. by eapply written_record_known_kind.
    + rewrite list_lookup_insert_ne by done. by apply Hfut.
  - destruct e; try discriminate.
    + unfold handle, register. cbn. rewrite length_app. cbn.
      split; [lia|]. split.
      * intros f r Hb Hf.
        destruct (decide (f < length (futures w))) as [Hlt|Hge].
        -- rewrite lookup_app_l in Hf by done. by eapply Hfut.
        -- rewrite lookup_app_r in Hf by lia.
           destruct (f - length (futures w)) as [|k]; cbn in Hf; [done|].
           by destruct k.
      * intros f Hf.
        destruct (decide (decision_key issue_number = decision_key n)) as [Heq|Hne].
        -- rewrite Heq, lookup_insert_eq in Hf. injection Hf as <-. exact Hlen.
        -- rewrite lookup_insert_ne in Hf by done. by apply Hkey.
    + unfold handle, cleanup. cbn. split; [exact Hlen|]. split; [exact Hfut|].
      intros f Hf. apply lookup_delete_Some in Hf as [_ Hf]. by apply Hkey.
Qed.

Lemma run_events_keeps_kinds n b evs w :
  (b ≤ length (futures w) ∧
   (∀ f r, b ≤ f → futures w !! f = Some (Some r) → known_kind r) ∧
   (∀ f, pending_decisions w !! decision_key n = Some f → b ≤ f)) →
  (b ≤ length (futures (run_events evs w)) ∧
   (∀ f r, b ≤ f → futures (run_events evs w) !! f = Some (Some r) → known_kind r) ∧
   (∀ f, pending_decisions (run_events evs w) !! decision_key n = Some f → b ≤ f)).
Proof.
  revert w. induction evs as [|e evs IH]; intros w Hw; [done|].
  rewrite run_events_cons. apply IH. by apply handle_keeps_kinds.
Qed.

Lemma wait_loop_known_kind n b fuel start w x w' :
  (b ≤ length (futures w) ∧
   (∀ f r, b ≤ f → futures w !! f = Some (Some r) → known_kind r) ∧
   (∀ f, pending_decisions w !! decision_key n = Some f → b ≤ f)) →
  wait_loop fuel (decision_key n) start w = (Return x, w') →
  known_kind match x with Break r | ReturnNow r => r end.
Proof.
  revert w. induction fuel as [|fuel IH]; intros w Hinv Hrun; [done|].
  assert (known_kind timeout_record) as Hto by (right; by right).
  rewrite wait_loop_S, loop_body_cases in Hrun.
  destruct Hinv as (Hlen & Hfut & Hkey).
  destruct (pending_decisions w !! decision_key n) as [f|] eqn:Hk;
    [|by injection Hrun as <- <-].
  assert (∀ o,
    (if Qle_bool (clock w - start)%Q timeout_duration then
       match schedule w with
       | [] => (Waiting, w)
       | t :: rest =>
           (Return None,
            run_events (tick_events t) (set_time (clock w + tick_dt t)%Q rest w))
       end
     else (Return (Some (ReturnNow timeout_record)), w)) = o →
    match o with
    | (Return (Some x0), w'0) => (Return x0, w'0)
    | (Return None, w'0) => wait_loop fuel (decision_key n) start w'0
    | (Raise e, w'0) => (Raise e, w'0)
    | (Waiting, w'0) => (Waiting, w'0)
    end = (Return x, w') →
    known_kind match x with Break r | ReturnNow r => r end) as Hstep.
  { intros o Ho Hres. destruct (Qle_bool _ _).
    - destruct (schedule w) as [|t rest]; subst o; [done|].
      eapply IH; [|exact Hres]. apply run_events_keeps_kinds.
      split; [exact Hlen|]. split; [exact Hfut|].
      intros f0 Hf0. cbn in Hf0. rewrite Hk in Hf0. by apply Hkey.
    - subst o. by injection Hres as <- <-. }
  destruct (futures w !! f) as [[r|]|] eqn:Hf.
  - injection Hrun as <- <-. eapply Hfut; [|exact Hf]. by apply Hkey.
  - by eapply Hstep.
  - by eapply Hstep.
Qed.

Lemma wait_for_decision_known_kind n w1 x w3 :
  wait_for_decision (decision_key n) (clock w1) (register (decision_key n) w1)
  = (Return x, w3) →
  known_kind match x with Break r | ReturnNow r => r end.
Proof.
  unfold wait_for_decision.
  apply (wait_loop_known_kind n (length (futures w1))).
  unfold register. cbn. rewrite length_app. cbn. split; [lia|]. split.
  - intros f r Hb Hf. rewrite lookup_app_r in Hf by lia.
    destruct (f - length (futures w1)) as [|k]; cbn in Hf; [done|]. by destruct k.
  - intros f Hf. rewrite lookup_insert_eq in Hf. injection Hf as <-. lia.
Qed.

(** Whatever the registry and the futures hold when the call starts and
    whatever runs during the wait, a record the call returns is of kind
    approve, reject or timeout: it was written by one of the four callbacks
    of this module or is the synthesized timeout. *)
Theorem bot_returns_a_known_kind E n w r :
  (discord_bot.send_triage_request E n w).1 = Return r →
  known_kind r.
Proof.
  destruct (discord_bot.send_triage_request E n w) as [o w'] eqn:Hcall.
  cbn. intros ->.
  destruct (send_triage_request_return_inv E n w r w' Hcall)
    as (_ & w1 & x & w3 & _ & Hwait & -> & _).
  by eapply wait_for_decision_known_kind.
Qed.

Lemma bot_returns_a_known_kind_witness :
  let w := Sample.world
             [Sample.idle 1;
              Sample.during [modal_submit 101 "Critical" "Login is down" false;
                             view_timeout 101]] in
  (discord_bot.send_triage_request Sample.env 101 w).1
  = Return (discord_bot.modified_data "Critical" "Login is down" false) ∧
  known_kind (discord_bot.modified_data "Critical" "Login is down" false).
Proof.
  intros w.
  assert ((discord_bot.send_triage_request Sample.env 101 w).1
          = Return (discord_bot.modified_data "Critical" "Login is down" false))
    as Hcall by (vm_compute; reflexivity).
  split; [exact Hcall|].
  exact (bot_returns_a_known_kind Sample.env 101%Z w _ Hcall).
Defined.

(* ===================================================================== *)
(** ** What a run can have done *)
(* ===================================================================== *)

Lemma keeps_try_finally {S A X} (f : S → X) (m : M S A) (cleanup : S → S) :
  keeps f m → (∀ s, f (cleanup s) = f s) → keeps f (try_finally m cleanup).
Proof.
  intros Hm Hc s. unfold try_finally. specialize (Hm s).
  destruct (m s) as [[a|msg|] s']; cbn in *; by rewrite ?Hc.
Qed.

Lemma keeps_get {S X} (f : S → X) : keeps f (get (S := S)).
Proof. intros s. done. Qed.

(** The channel does not touch the record store or the index. *)
Lemma handle_store w e : store (handle w e) = store w.
Proof.
  destruct e; cbn;
    unfold approve_button, reject_button, on_submit, on_timeout,
      set_result_if_pending, register, cleanup;
    by repeat case_match.
Qed.

Lemma run_events_store evs w : store (run_events evs w) = store w.
Proof.
  revert w. induction evs as [|e evs IH]; intros w; [done|].
  by rewrite run_events_cons, IH, handle_store.
Qed.

Lemma keeps_store_suspend : keeps store suspend.
Proof.
  intros w. unfold suspend. destruct (schedule w); [done|].
  cbn. by rewrite run_events_store.
Qed.

Lemma keeps_store_loop_body key start : keeps store (loop_body key start).
Proof.
  unfold loop_body. apply keeps_try_except; [|py_keeps].
  apply keeps_bind; [apply keeps_get|]. intros w0.
  repeat case_match; py_keeps; apply keeps_store_suspend.
Qed.

Lemma keeps_store_wait_loop fuel key start : keeps store (wait_loop fuel key start).
Proof.
  induction fuel as [|fuel IH]; [by intros w|].
  cbn [wait_loop]. apply keeps_bind; [apply keeps_store_loop_body|].
  intros [x|]; [apply keeps_ret|exact IH].
Qed.

Lemma keeps_store_bot E n : keeps store (discord_bot.send_triage_request E n).
Proof.
  unfold discord_bot.send_triage_request.
  apply keeps_try_finally; [|done].
  py_keeps.
  - destruct (bot_ready E); [apply keeps_ret|apply keeps_store_suspend].
  - destruct (channel_found E); [apply keeps_ret|apply keeps_raise].
  - apply keeps_store_suspend.
  - by intros w.
  - apply keeps_get.
  - intros w. unfold wait_for_decision. apply keeps_store_wait_loop.
  - case_match; py_keeps.
Qed.

Lemma keeps_store_post E p : keeps store (discord_tools.post E p).
Proof. intros w. unfold discord_tools.post. by case_match. Qed.

Lemma keeps_store_manager E c : keeps store (discord_tools.send_triage_request E c).
Proof.
  unfold discord_tools.send_triage_request.
  apply keeps_try_except; [|py_keeps].
  destruct (String.eqb _ _); [apply keeps_ret|].
  destruct (bot_importable E).
  - destruct (bot_loop E) as [| |[]|m]; try apply keeps_store_bot; try apply keeps_raise.
    + intros w. unfold discord_tools.run_coroutine_threadsafe.
      pose proof (keeps_store_bot E (discord_tools.issue_number c) w) as H.
      destruct (discord_bot.send_triage_request _ _ w) as [o w'].
      by destruct (Qle_bool _ _).
    + intros w. unfold discord_tools.run_coroutine_threadsafe.
      pose proof (keeps_store_bot E (discord_tools.issue_number c) w) as H.
      destruct (discord_bot.send_triage_request _ _ w) as [o w'].
      by destruct (Qle_bool _ _).
  - py_keeps. apply keeps_store_post.
Qed.

Lemma keeps_store_completion E c o a s :
  keeps store (discord_tools.send_completion_message E c o a s).
Proof.
  unfold discord_tools.send_completion_message.
  apply keeps_try_except; [|py_keeps].
  destruct (String.eqb _ _); py_keeps. apply keeps_store_post.
Qed.

(** A record the manager returns is of a known kind as well: it is the
    bot's, or the [approve] of the unconfigured webhook. *)
Lemma manager_returns_known_kind E c w r w' :
  discord_tools.send_triage_request E c w = (Return r, w') → known_kind r.
Proof.
  assert (∀ o w0,
            discord_bot.send_triage_request E (discord_tools.issue_number c) w
            = (o, w0) →
            ∀ r0, o = Return r0 → known_kind r0) as Hbot.
  { intros o w0 Hcall r0 ->.
    destruct (send_triage_request_return_inv E _ w r0 w0 Hcall)
      as (_ & w1 & x & w3 & _ & Hwait & -> & _).
    by eapply wait_for_decision_known_kind. }
  unfold discord_tools.send_triage_request, try_except.
  destruct (String.eqb _ _).
  { cbn. intros [= <- <-]. by left. }
  destruct (bot_importable E).
  - destruct (bot_loop E) as [| |[]|m]; cbn; try discriminate.
    + destruct (discord_bot.send_triage_request _ _ w) as [[r0|e|] w0] eqn:Hcall;
        cbn; try discriminate.
      intros [= <- <-]. by eapply Hbot.
    + unfold discord_tools.run_coroutine_threadsafe.
      destruct (discord_bot.send_triage_request _ _ w) as [[r0|e|] w0] eqn:Hcall;
        destruct (Qle_bool _ _); cbn; try discriminate.
      intros [= <- <-]. by eapply Hbot.
    + unfold discord_tools.run_coroutine_threadsafe.
      destruct (discord_bot.send_triage_request _ _ w) as [[r0|e|] w0] eqn:Hcall;
        destruct (Qle_bool _ _); cbn; try discriminate.
      intros [= <- <-]. by eapply Hbot.
  - unfold bind, discord_tools.post.
    destruct (requests_post E _ _); cbn; discriminate.
Qed.

(** Phase 3 returns only with the record the manager returned. *)
Lemma _request_human_clarification_return_inv E st w st' w' :
  agent._request_human_clarification E (st, w) = (Return tt, (st', w')) →
  ∃ r, discord_tools.send_triage_request E (agent.clarification_of st) w
       = (Return r, w') ∧
       st' = set_human_decision (Some r) st.
Proof.
  unfold agent._request_human_clarification, try_except, bind, agent.state,
    agent.world, agent.update, raise.
  cbn.
  destruct (discord_tools.send_triage_request E (agent.clarification_of st) w)
    as [[r|e|] w0]; cbn; try discriminate.
  intros [= <- <-]. by exists r.
Qed.

(** Phase 4 on a decision of a known kind. *)
Lemma _execute_decision_known_kind E st w r :
  human_decision st = Some r → known_kind r → actions_executed st = [] →
  ∃ a w',
    agent._execute_decision E (st, w) = (Return tt, (set_actions_executed a st, w')) ∧
    ((decision r = "approve" ∧ is_duplicate st = true ∧
      ∃ b1 b2 b3,
        a = [("comment_posted", PBool b1); ("duplicate_label_added", PBool b2);
             ("issue_closed", PBool b3)]) ∨
     (decision r = "approve" ∧ is_duplicate st = false ∧
      ∃ b1 b2,
        a = [("severity_label_added", PBool b1); ("summary_posted", PBool b2);
             ("added_to_knowledge_base", PBool true)]) ∨
     (decision r = "reject" ∧ a = [("rejected", PBool true)] ∧ w' = w) ∨
     (decision r = "timeout" ∧ a = [("timed_out", PBool true)] ∧ w' = w)).
Proof.
  intros Hhd Hkind Hact.
  destruct Hkind as [Hdec|[Hdec|Hdec]].
  - destruct (is_duplicate st) eqn:Hdup.
    + set (comment := dict_get_default "comment" (of_opt (proposed_comment st)) (data r)).
      destruct (post_comment_returns E (issue_id st) comment w) as (b1 & w1 & H1).
      destruct (add_label_returns E (issue_id st) (PStr "duplicate") w1)
        as (b2 & w2 & H2).
      destruct (close_issue_returns E (issue_id st) "duplicate" w2) as (b3 & w3 & H3).
      eexists _, w3. split; [|left; repeat split; eauto].
      unfold agent._execute_decision, bind, agent.state, agent.world, agent.update,
        try_except.
      cbn. rewrite Hhd, Hdec, Hdup. cbn. fold comment. rewrite H1. cbn. rewrite H2.
      cbn. rewrite H3. cbn. unfold record_action. cbn. rewrite Hact. reflexivity.
    + set (severity_label := dict_get_default "severity" (of_opt (severity st)) (data r)).
      set (summary := dict_get_default "summary" (of_opt (ai_summary st)) (data r)).
      destruct (add_label_returns E (issue_id st) severity_label w) as (b1 & w1 & H1).
      destruct (post_comment_returns E (issue_id st)
                  (PStr (agent.summary_comment severity_label summary)) w1)
        as (b2 & w2 & H2).
      destruct (add_issue_registers E (issue_id st) (issue_title st) (issue_body st) w2)
        as (w3 & H3 & _).
      eexists _, w3. split; [|right; left; repeat split; eauto].
      unfold agent._execute_decision, bind, agent.state, agent.world, agent.update,
        try_except.
      cbn. rewrite Hhd, Hdec, Hdup. cbn. fold severity_label summary.
      rewrite H1. cbn. rewrite H2. cbn. rewrite H3. cbn.
      unfold record_action. cbn. rewrite Hact. reflexivity.
  - eexists _, w. split; [|right; right; left; repeat split; eauto].
    unfold agent._execute_decision, bind, agent.state, agent.update.
    cbn. rewrite Hhd, Hdec. cbn. unfold record_action. by rewrite Hact.
  - eexists _, w. split; [|right; right; right; repeat split; eauto].
    unfold agent._execute_decision, bind, agent.state, agent.update.
    cbn. rewrite Hhd, Hdec. cbn. unfold record_action. by rewrite Hact.
Qed.

Lemma keeps_store__send_completion_notification E st w :
  store (agent._send_completion_notification E (st, w)).2.2 = store w.
Proof.
  unfold agent._send_completion_notification, try_except, bind, agent.state,
    agent.world, agent.update.
  cbn.
  pose proof (keeps_store_completion E "general"
                ("triage-" +:+ pretty (issue_id st)) "Discord User"
                ("Issue #" +:+ pretty (issue_id st) +:+ " processed: "
                 +:+ join ", " (agent.executed_actions (actions_executed st))) w) as H.
  destruct (discord_tools.send_completion_message _ _ _ _ _ w) as [[b|e|] w'];
    cbn in *; done.
Qed.

(** A run that ends with the success dictionary carries a decision of kind
    approve, reject or timeout, and its action map has one of four shapes:
    the three booleans of a duplicate, the three entries of a new report,
    [rejected] alone or [timed_out] alone.  It never holds an [error] key.
    After a rejection or a timeout the record store has been asked nothing
    more than before the run, and the two stores of the duplicate index hold
    the reports they held. *)
Theorem successful_run_shapes E issue_data w n sev summ dup score hd actions sent :
  (agent.triage_new_issue E issue_data w).1
  = Return (TriageSuccess n sev summ dup score hd actions sent) →
  ∃ r, hd = Some r ∧
    ((decision r = "approve" ∧ dup = true ∧
      ∃ b1 b2 b3,
        actions = [("comment_posted", PBool b1); ("duplicate_label_added", PBool b2);
                   ("issue_closed", PBool b3)]) ∨
     (decision r = "approve" ∧ dup = false ∧
      ∃ b1 b2,
        actions = [("severity_label_added", PBool b1); ("summary_posted", PBool b2);
                   ("added_to_knowledge_base", PBool true)]) ∨
     (decision r = "reject" ∧ actions = [("rejected", PBool true)] ∧
      store (agent.triage_new_issue E issue_data w).2 = store w) ∨
     (decision r = "timeout" ∧ actions = [("timed_out", PBool true)] ∧
      store (agent.triage_new_issue E issue_data w).2 = store w)).
Proof.
  destruct (agent.triage_new_issue E issue_data w) as [o wf] eqn:Hrun.
  cbn. intros ->. revert Hrun.
  unfold agent.triage_new_issue, agent.phases.
  destruct (_perform_ai_analysis_returns E (new_TriageState issue_data) w)
    as (st1 & H1 & _ & Ha1).
  destruct (_perform_duplicate_detection_returns E st1 w) as (st2 & H2 & _ & Ha2).
  unfold bind at 1. rewrite H1. unfold bind at 1. rewrite H2. unfold bind at 1.
  destruct (agent._request_human_clarification E (st2, w)) as [[[]|e|] [st3 w3]] eqn:H3;
    [|cbn; discriminate|cbn; discriminate].
  destruct (_request_human_clarification_return_inv E st2 w st3 w3 H3)
    as (r & Hcall & ->).
  pose proof (manager_returns_known_kind E _ w r w3 Hcall) as Hkind.
  pose proof (keeps_store_manager E (agent.clarification_of st2) w) as Hst3.
  rewrite Hcall in Hst3. cbn in Hst3.
  destruct (_execute_decision_known_kind E (set_human_decision (Some r) st2) w3 r)
    as (a & w4 & H4 & Hshape); [done|done|cbn; by rewrite Ha2, Ha1|].
  unfold bind at 1. rewrite H4.
  destruct (_send_completion_notification_returns E
              (set_actions_executed a (set_human_decision (Some r) st2)) w4)
    as (b & w5 & H5 & _).
  pose proof (keeps_store__send_completion_notification E
                (set_actions_executed a (set_human_decision (Some r) st2)) w4) as Hst5.
  rewrite H5 in *. cbn in Hst5. cbn.
  intros [= <- <- <- <- <- <- <- <- <-].
  exists r. split; [done|].
  destruct Hshape as [(?&?&?)|[(?&?&?)|[(?&?&->)|(?&?&->)]]].
  - left. eauto.
  - right; left. eauto.
  - right; right; left. repeat split; try done. by rewrite Hst5.
  - right; right; right. repeat split; try done. by rewrite Hst5.
Qed.

Lemma successful_run_shapes_witness :
  let w := Sample.world [Sample.idle 1; Sample.during [reject_click 101]] in
  let hd := {| decision := "reject"; data := [] |} in
  ∃ r, Some hd = Some r ∧
    ((decision r = "approve" ∧ false = true ∧
      ∃ b1 b2 b3,
        [("rejected", PBool true)]
        = [("comment_posted", PBool b1); ("duplicate_label_added", PBool b2);
           ("issue_closed", PBool b3)]) ∨
     (decision r = "approve" ∧ false = false ∧
      ∃ b1 b2,
        [("rejected", PBool true)]
        = [("severity_label_added", PBool b1); ("summary_posted", PBool b2);
           ("added_to_knowledge_base", PBool true)]) ∨
     (decision r = "reject" ∧ [("rejected", PBool true)] = [("rejected", PBool true)] ∧
      store (agent.triage_new_issue Sample.env Sample.issue101 w).2 = store w) ∨
     (decision r = "timeout" ∧ [("rejected", PBool true)] = [("timed_out", PBool true)] ∧
      store (agent.triage_new_issue Sample.env Sample.issue101 w).2 = store w)).
Proof.
  intros w hd.
  eapply (successful_run_shapes Sample.env Sample.issue101 w).
  vm_compute. reflexivity.
Defined.

(* ===================================================================== *)
(** ** The record store: what its answers mean *)
(* ===================================================================== *)

(** Without a client each of the three operations answers [False] and sends
    nothing to the API: [_get_repo] raises before the first request. *)
Theorem no_client_no_request E n label comment reason w :
  github_client E = false →
  (∃ w', github_tools.add_label E n label w = (Return false, w') ∧
         github_requests w' = github_requests w) ∧
  (∃ w', github_tools.post_comment E n comment w = (Return false, w') ∧
         github_requests w' = github_requests w) ∧
  (∃ w', github_tools.close_issue E n reason w = (Return false, w') ∧
         github_requests w' = github_requests w).
Proof.
  intros Hc.
  unfold github_tools.add_label, github_tools.post_comment, github_tools.close_issue,
    github_tools.invoked, github_tools._get_repo, modify, bind, try_except, raise, ret.
  rewrite Hc. cbn. repeat split; eexists; split; reflexivity.
Qed.

Lemma no_client_no_request_witness :
  let E := Sample.with_github_client false Sample.env in
  let w := Sample.world [] in
  github_client E = false ∧
  (∃ w', github_tools.add_label E 101 (PStr "High") w = (Return false, w') ∧
         github_requests w' = github_requests w) ∧
  (∃ w', github_tools.post_comment E 101 (PStr "Thanks") w = (Return false, w') ∧
         github_requests w' = github_requests w) ∧
  (∃ w', github_tools.close_issue E 101 "duplicate" w = (Return false, w') ∧
         github_requests w' = github_requests w).
Proof.
  intros E w. split; [reflexivity|].
  apply (no_client_no_request E 101 (PStr "High") (PStr "Thanks") "duplicate" w).
  reflexivity.
Defined.

(** Once repository and issue are found, [add_label] looks the label up,
    creates it exactly when the lookup fails, goes on whatever the creation
    answers, and returns what the final [add_to_labels] request answers. *)
Theorem add_label_creates_missing_label E n label w :
  let h0 := github_requests w in
  let h1 := h0 ++ [GetRepo (GITHUB_REPO E)] in
  let h2 := h1 ++ [GetIssue n] in
  let h3 := h2 ++ [GetLabel label] in
  let h4 := if github_api E h2 (GetLabel label) then h3
            else h3 ++ [CreateLabel label (github_tools.label_color label)] in
  github_client E = true →
  github_api E h0 (GetRepo (GITHUB_REPO E)) = true →
  github_api E h1 (GetIssue n) = true →
  ∃ w', github_tools.add_label E n label w
        = (Return (github_api E h4 (AddToLabels n label)), w') ∧
        github_requests w' = h4 ++ [AddToLabels n label].
Proof.
  intros h0 h1 h2 h3 h4 Hc Hrepo Hissue.
  unfold github_tools.add_label, github_tools.invoked, github_tools._get_repo, modify,
    bind, try_except, raise, ret, github_tools.request.
  rewrite Hc. cbn. fold h0. rewrite Hrepo. cbn. fold h0 h1. rewrite Hissue. cbn.
  fold h0 h1 h2. subst h4.
  destruct (github_api E h2 (GetLabel label)) eqn:Hlabel; cbn.
  - fold h0 h1 h2 h3.
    destruct (github_api E h3 (AddToLabels n label)); cbn; eexists; split; reflexivity.
  - fold h0 h1 h2 h3.
    destruct (github_api E h3 (CreateLabel label (github_tools.label_color label)));
      cbn; fold h0 h1 h2 h3;
      destruct (github_api E (h3 ++ [CreateLabel label (github_tools.label_color label)])
                  (AddToLabels n label));
      cbn; eexists; split; reflexivity.
Qed.

Lemma add_label_creates_missing_label_witness :
  let E := Sample.with_github_api Sample.labels_unknown Sample.env in
  let w := Sample.world [] in
  github_client E = true ∧
  ∃ w', github_tools.add_label E 101 (PStr "Critical") w = (Return true, w') ∧
        github_requests w'
        = [GetRepo "kunal-004/triage-ninja"; GetIssue 101; GetLabel (PStr "Critical");
           CreateLabel (PStr "Critical") "d73a4a"; AddToLabels 101 (PStr "Critical")].
Proof.
  intros E w. split; [reflexivity|].
  exact (add_label_creates_missing_label E 101%Z (PStr "Critical") w
           eq_refl eq_refl eq_refl).
Defined.

(** [post_comment] answers [True] exactly when there is a client and the
    API accepted the repository lookup, the issue lookup and the comment,
    in this order; it never raises. *)
Theorem post_comment_true_iff_accepted E n comment w :
  let h0 := github_requests w in
  let h1 := h0 ++ [GetRepo (GITHUB_REPO E)] in
  let h2 := h1 ++ [GetIssue n] in
  ∃ b w', github_tools.post_comment E n comment w = (Return b, w') ∧
    (b = true ↔
       github_client E = true ∧
       github_api E h0 (GetRepo (GITHUB_REPO E)) = true ∧
       github_api E h1 (GetIssue n) = true ∧
       github_api E h2 (CreateComment n comment) = true) ∧
    (b = true → github_requests w' = h2 ++ [CreateComment n comment]).
Proof.
  intros h0 h1 h2.
  unfold github_tools.post_comment, github_tools.invoked, github_tools._get_repo,
    modify, bind, try_except, raise, ret, github_tools.request.
  destruct (github_client E); cbn;
    [|eexists _, _; split; [reflexivity|]; split; [split; [done|]|done];
      by intros (? & ?)].
  fold h0.
  destruct (github_api E h0 (GetRepo (GITHUB_REPO E))); cbn;
    [|eexists _, _; split; [reflexivity|]; split; [split; [done|]|done];
      by intros (? & ? & ?)].
  fold h0 h1.
  destruct (github_api E h1 (GetIssue n)); cbn;
    [|eexists _, _; split; [reflexivity|]; split; [split; [done|]|done];
      by intros (? & ? & ? & ?)].
  fold h0 h1 h2.
  destruct (github_api E h2 (CreateComment n comment)); cbn;
    [|eexists _, _; split; [reflexivity|]; split; [split; [done|]|done];
      by intros (? & ? & ? & ?)].
  eexists _, _. split; [reflexivity|]. by repeat split.
Qed.

(** [close_issue] never sends the reason [duplicate] to the API: whatever
    reason it is called with, no request it adds edits an issue with that
    state reason, and for [duplicate] an answer of [True] means the API
    accepted the edit to [closed] with the reason [not_planned]. *)
Theorem close_issue_never_sends_duplicate E n reason w :
  ∃ b w' new,
    github_tools.close_issue E n reason w = (Return b, w') ∧
    github_requests w' = github_requests w ++ new ∧
    (∀ m s, EditIssue m s "duplicate" ∉ new) ∧
    (reason = "duplicate" → b = true →
     last new = Some (EditIssue n "closed" "not_planned") ∧
     github_api E (github_requests w ++ [GetRepo (GITHUB_REPO E); GetIssue n])
       (EditIssue n "closed" "not_planned") = true).
Proof.
  assert ((if String.eqb reason "duplicate" then "not_planned" else reason)
          ≠ "duplicate") as Hne.
  { destruct (String.eqb_spec reason "duplicate"); [discriminate|done]. }
  unfold github_tools.close_issue, github_tools.invoked, github_tools._get_repo,
    modify, bind, try_except, raise, ret, github_tools.request.
  destruct (github_client E); cbn.
  2:{ exists false, (set_github (github_calls w ++ [OpCloseIssue n reason])
                       (github_requests w) w), [].
      repeat split; try done.
      - cbn. by rewrite app_nil_r.
      - intros m s Hin. by apply elem_of_nil in Hin. }
  set (h0 := github_requests w).
  destruct (github_api E h0 (GetRepo (GITHUB_REPO E))); cbn.
  2:{ eexists false, _, [GetRepo (GITHUB_REPO E)].
      repeat split; try done.
      intros m s Hin. set_solver. }
  destruct (github_api E (h0 ++ [GetRepo (GITHUB_REPO E)]) (GetIssue n)); cbn.
  2:{ eexists false, _, [GetRepo (GITHUB_REPO E); GetIssue n].
      repeat split; try done.
      - cbn. by rewrite <- app_assoc.
      - intros m s Hin. set_solver. }
  destruct (github_api E ((h0 ++ [GetRepo (GITHUB_REPO E)]) ++ [GetIssue n])
              (EditIssue n "closed"
                 (if String.eqb reason "duplicate" then "not_planned" else reason)))
    eqn:Hedit; cbn.
  - eexists true, _,
      [GetRepo (GITHUB_REPO E); GetIssue n;
       EditIssue n "closed"
         (if String.eqb reason "duplicate" then "not_planned" else reason)].
    repeat split; try done.
    + cbn. by rewrite <- !app_assoc.
    + intros m s Hin. set_solver.
    + subst reason. reflexivity.
    + subst reason. cbn in Hedit. by rewrite <- app_assoc in Hedit.
  - eexists false, _,
      [GetRepo (GITHUB_REPO E); GetIssue n;
       EditIssue n "closed"
         (if String.eqb reason "duplicate" then "not_planned" else reason)].
    repeat split; try done.
    + cbn. by rewrite <- !app_assoc.
    + intros m s Hin. set_solver.
Qed.

(* ===================================================================== *)
(** ** Publication failures, the two timeouts, and edited decisions *)
(* ===================================================================== *)

Lemma publish_failure_is_fatal_witness :
  let E := Sample.with_channel_send (Exc "503 Service Unavailable") Sample.env in
  let w := Sample.world [Sample.idle 1] in
  DISCORD_WEBHOOK_URL E ≠ EmptyString ∧
  ¬ published E ∧
  ∃ msg w',
    agent.triage_new_issue E Sample.issue101 w
    = (Return
         (TriageFailure 101
            ("Human clarification required but failed: "
             +:+ "Discord triage request failed: " +:+ msg
             +:+ " - HUMAN INPUT REQUIRED")), w').
Proof.
  intros E w.
  assert (DISCORD_WEBHOOK_URL E ≠ EmptyString) as Hurl by discriminate.
  assert (¬ published E) as Hnot by (intros (_ & _ & Hsend); discriminate).
  split; [exact Hurl|]. split; [exact Hnot|].
  apply (publish_failure_is_fatal E Sample.issue101 w Hurl Hnot).
  cbn. lia.
Defined.

Lemma Qle_bool_false a b : Qle_bool a b = false → (b < a)%Q.
Proof.
  intros H. destruct (Qlt_le_dec b a) as [|Hle]; [done|].
  apply Qle_bool_iff in Hle. congruence.
Qed.

(** With nothing happening for the issue the wait ends by its own clock,
    and not before the clock has passed the timeout. *)
Lemma wait_loop_deadline fuel n f start w :
  no_dangling w →
  registered_pending (decision_key n) f w →
  forallb (calm_for n) (schedule w) = true →
  length (schedule w) < fuel →
  (3700 < clock w - start + duration (schedule w))%Q →
  ∃ w', wait_loop fuel (decision_key n) start w
        = (Return (ReturnNow timeout_record), w') ∧
        (3700 < clock w' - start)%Q.
Proof.
  revert w. induction fuel as [|fuel IH]; intros w Hnd Hrp Hq Hlen Hdur; [lia|].
  pose proof Hrp as (Hk & Hf & _).
  rewrite wait_loop_S, loop_body_cases, Hk, Hf.
  destruct (Qle_bool _ _) eqn:Hle.
  2:{ apply Qle_bool_false in Hle. unfold timeout_duration in Hle. eauto. }
  apply Qle_bool_iff in Hle. unfold timeout_duration in Hle.
  destruct (schedule w) as [|t rest] eqn:Hs.
  { cbn in Hdur. lra. }
  cbn in Hq. apply andb_prop in Hq as [Ht Hq].
  set (w0 := set_time (clock w + tick_dt t)%Q rest w).
  destruct (run_events_unrelated n f (tick_events t) w0) as [Hnd' Hrp']; try done.
  destruct (run_events_time (tick_events t) w0) as [Hc' Hs'].
  apply IH; try done.
  - rewrite Hs'. cbn. done.
  - rewrite Hs'. cbn in *. lia.
  - rewrite Hc', Hs'. cbn in *. lra.
Qed.

Lemma prelude_clock E w w1 :
  forward (schedule w) = true →
  prelude E w = (Return tt, w1) →
  (clock w <= clock w1)%Q.
Proof.
  unfold prelude, bind, ret. intros Hfw.
  destruct (bot_ready E).
  - destruct (schedule w) as [|t rest] eqn:Hs.
    { by rewrite (suspend_nil _ Hs). }
    rewrite (suspend_cons _ _ _ Hs). intros [= <-].
    cbn in Hfw. apply andb_prop in Hfw as [Ht _]. apply Qle_bool_iff in Ht.
    destruct (run_events_time (tick_events t)
                (set_time (clock w + tick_dt t)%Q rest w)) as [-> _].
    cbn. lra.
  - destruct (schedule w) as [|t rest] eqn:Hs.
    { by rewrite (suspend_nil _ Hs). }
    rewrite (suspend_cons _ _ _ Hs).
    set (w0 := run_events _ _).
    assert (clock w0 = (clock w + tick_dt t)%Q) as Hc0 by apply run_events_time.
    assert (schedule w0 = rest) as Hs0 by apply run_events_time.
    cbn in Hfw. apply andb_prop in Hfw as [Ht Hfw]. apply Qle_bool_iff in Ht.
    destruct rest as [|t' rest'].
    { by rewrite (suspend_nil _ Hs0). }
    rewrite (suspend_cons _ _ _ Hs0). intros [= <-].
    cbn in Hfw. apply andb_prop in Hfw as [Ht' _]. apply Qle_bool_iff in Ht'.
    destruct (run_events_time (tick_events t')
                (set_time (clock w0 + tick_dt t')%Q rest' w0)) as [-> _].
    cbn. rewrite Hc0. lra.
Qed.

(** When the bot runs in another event loop than the caller, the bot's own
    timeout never reaches the pipeline: the bot measures its 3700 seconds
    from the moment the request is out, the caller's [future.result]
    measures the same 3700 seconds from the moment the coroutine was handed
    over, so with nothing happening for the issue the caller gives up first
    and the manager raises, with the empty message of the timeout error,
    where the bot would have answered [timeout]. *)
Theorem other_loop_preempts_the_timeout E c w :
  DISCORD_WEBHOOK_URL E ≠ EmptyString →
  bot_importable E = true →
  bot_loop E = OtherLoop →
  published E →
  no_dangling w →
  forallb (calm_for (discord_tools.issue_number c)) (schedule w) = true →
  forward (schedule w) = true →
  (3700 < duration (drop (publish_ticks E) (schedule w)))%Q →
  ∃ w', discord_tools.send_triage_request E c w
        = (Raise "Discord triage request failed:  - HUMAN INPUT REQUIRED", w').
Proof.
  intros Hurl Himp Hloop Hpub Hnd Hcalm Hfw Hdur.
  set (n := discord_tools.issue_number c) in *.
  assert (publish_ticks E < length (schedule w)) as Hlen
    by (apply duration_drop_length; lra).
  destruct (prelude_returns E w) as (w1 & Hrun & Hs1 & Hnd1); [lia|].
  pose proof (prelude_clock E w w1 Hfw Hrun) as Hclock.
  pose proof (send_triage_request_after_publish E n w w1 Hpub Hrun) as Hcall.
  destruct (register_fresh (decision_key n) w1) as (_ & _ & Hs2 & Hc2).
  destruct (register_registered_pending n w1 (Hnd1 Hnd)) as [Hnd2 Hrp2].
  destruct (wait_loop_deadline (S (length (schedule (register (decision_key n) w1))))
              n (length (futures w1)) (clock w1) (register (decision_key n) w1))
    as (w3 & Hwait & Hlate); try done.
  - rewrite Hs2, Hs1. by apply forallb_drop.
  - lia.
  - rewrite Hc2, Hs2, Hs1. lra.
  - unfold wait_for_decision in Hcall. rewrite Hwait in Hcall.
    unfold discord_tools.send_triage_request, try_except.
    destruct (String.eqb_spec (DISCORD_WEBHOOK_URL E) EmptyString) as [|_]; [done|].
    rewrite Himp, Hloop. unfold discord_tools.run_coroutine_threadsafe.
    fold n. rewrite Hcall.
    assert (Qle_bool (clock (cleanup (decision_key n) w3) - clock w) 3700 = false)
      as ->.
    { apply not_true_is_false. intros Hle. apply Qle_bool_iff in Hle.
      cbn in Hle. lra. }
    eexists. reflexivity.
Qed.

Lemma other_loop_preempts_the_timeout_witness :
  let E := Sample.with_bot_loop OtherLoop Sample.env in
  let w := Sample.world [Sample.idle 1; Sample.idle 3600; Sample.idle 101] in
  ∃ w', discord_tools.send_triage_request E Sample.clarification101 w
        = (Raise "Discord triage request failed:  - HUMAN INPUT REQUIRED", w').
Proof.
  intros E w.
  apply (other_loop_preempts_the_timeout E Sample.clarification101 w).
  - discriminate.
  - reflexivity.
  - reflexivity.
  - split; [by exists 1234%Z|by split].
  - apply map_Forall_empty.
  - reflexivity.
  - reflexivity.
  - vm_compute. reflexivity.
Defined.

(** What the human typed into the modification dialog is what reaches the
    record store.  For a new report the edited severity is the label and
    the edited summary is in the comment; for a duplicate the edited comment
    is posted in place of the proposed one, and the edited severity is
    ignored: the label is [duplicate] and the issue is closed. *)
Theorem human_edits_reach_github E st w sev text :
  human_decision st
  = Some (discord_bot.modified_data sev text (is_duplicate st)) →
  actions_executed st = [] →
  ∃ st' w',
    agent._execute_decision E (st, w) = (Return tt, (st', w')) ∧
    github_calls w' =
      github_calls w ++
        (if is_duplicate st then
           [OpPostComment (issue_id st) (PStr text);
            OpAddLabel (issue_id st) (PStr "duplicate");
            OpCloseIssue (issue_id st) "duplicate"]
         else
           [OpAddLabel (issue_id st) (PStr sev);
            OpPostComment (issue_id st)
              (PStr (agent.summary_comment (PStr sev) (PStr text)))]).
Proof.
  intros Hhd Hact.
  destruct (is_duplicate st) eqn:Hdup.
  - destruct (post_comment_returns E (issue_id st) (PStr text) w) as (b1 & w1 & H1).
    destruct (add_label_returns E (issue_id st) (PStr "duplicate") w1)
      as (b2 & w2 & H2).
    destruct (close_issue_returns E (issue_id st) "duplicate" w2) as (b3 & w3 & H3).
    pose proof (post_comment_calls E (issue_id st) (PStr text) w) as C1.
    pose proof (add_label_calls E (issue_id st) (PStr "duplicate") w1) as C2.
    pose proof (close_issue_calls E (issue_id st) "duplicate" w2) as C3.
    rewrite H1 in C1. rewrite H2 in C2. rewrite H3 in C3. cbn in C1, C2, C3.
    eexists _, w3. split.
    + unfold agent._execute_decision, bind, agent.state, agent.world, agent.update,
        try_except.
      cbn. rewrite Hhd, Hdup. cbn. rewrite H1. cbn. rewrite H2. cbn. rewrite H3.
      cbn. reflexivity.
    + rewrite C3, C2, C1. by rewrite <- !app_assoc.
  - set (comment := PStr (agent.summary_comment (PStr sev) (PStr text))).
    destruct (add_label_returns E (issue_id st) (PStr sev) w) as (b1 & w1 & H1).
    destruct (post_comment_returns E (issue_id st) comment w1) as (b2 & w2 & H2).
    destruct (add_issue_registers E (issue_id st) (issue_title st) (issue_body st) w2)
      as (w3 & H3 & _ & C3).
    pose proof (add_label_calls E (issue_id st) (PStr sev) w) as C1.
    pose proof (post_comment_calls E (issue_id st) comment w1) as C2.
    rewrite H1 in C1. rewrite H2 in C2. cbn in C1, C2.
    eexists _, w3. split.
    + unfold agent._execute_decision, bind, agent.state, agent.world, agent.update,
        try_except.
      cbn. rewrite Hhd, Hdup. cbn. fold comment. rewrite H1. cbn. rewrite H2. cbn.
      rewrite H3. cbn. reflexivity.
    + rewrite C3, C2, C1. by rewrite <- !app_assoc.
Qed.

Lemma human_edits_reach_github_witness :
  let st := Sample.decided (discord_bot.modified_data "Critical" "See #7" true)
              Sample.duplicate101 in
  let w := Sample.world [] in
  actions_executed st = [] ∧
  ∃ st' w',
    agent._execute_decision Sample.env (st, w) = (Return tt, (st', w')) ∧
    github_calls w' =
      [OpPostComment 101 (PStr "See #7"); OpAddLabel 101 (PStr "duplicate");
       OpCloseIssue 101 "duplicate"].
Proof.
  intros st w. split; [reflexivity|].
  exact (human_edits_reach_github Sample.env st w "Critical" "See #7"
           eq_refl eq_refl).
Defined.

(* ===================================================================== *)
(** ** The analysis provider and the duplicate index *)
(* ===================================================================== *)

Arguments ai_tools.severity_levels : simpl never.

(** [AIManager] never lets an exception out: whatever the model is and
    whatever it answers, [classify_severity] returns one of the five levels
    and [summarize_issue] returns a text, which is the title behind
    [Issue: ] when there is no model or the model fails. *)
Theorem ai_manager_always_answers {S} model strip title body (s : S) :
  (∃ sev, ai_tools.classify_severity model strip title body s = (Return sev, s) ∧
          In sev ai_tools.severity_levels) ∧
  (∃ summ, ai_tools.summarize_issue model strip title body s = (Return summ, s) ∧
           (match model with
            | None => True
            | Some generate_content =>
                ∃ msg, generate_content
                         {| ai_tools.prompt := ai_tools.summarize_prompt title body;
                            ai_tools.max_output_tokens := 100;
                            ai_tools.temperature := (3 # 10)%Q |} = Exc msg
            end → summ = "Issue: " +:+ title)).
Proof.
  split.
  - unfold ai_tools.classify_severity, try_except, bind, call, ret, raise.
    destruct model as [g|]; [|exists "Medium"; split; [done|unfold ai_tools.severity_levels; cbn; tauto]].
    destruct (g _) as [text|msg]; cbn; [|exists "Medium"; split; [done|unfold ai_tools.severity_levels; cbn; tauto]].
    destruct (existsb _ _) eqn:Hin; cbn; [|exists "Medium"; split; [done|unfold ai_tools.severity_levels; cbn; tauto]].
    exists (strip text). split; [done|].
    apply existsb_exists in Hin as (l & Hl & Heq).
    apply String.eqb_eq in Heq. by subst.
  - unfold ai_tools.summarize_issue, try_except, bind, call, ret, raise.
    destruct model as [g|]; [|by eexists].
    destruct (g _) as [text|msg]; cbn.
    + eexists. split; [done|]. by intros (? & ?).
    + by eexists.
Qed.

Section Index.
Variable E : Env.
Variables (lower strip : string → string) (split : string → list string).
Variable near_vector : list stored_issue → string → pyresult (list (Z * option Q)).

Lemma first_overlap_spec sw th l d s :
  weaviate_tools.first_overlap lower split sw th l = Some (d, s) →
  Qle_bool th s = true ∧ ∃ i, i ∈ l ∧ stored_id i = d.
Proof.
  induction l as [|i l IH]; cbn; [done|].
  assert (weaviate_tools.first_overlap lower split sw th l = Some (d, s) →
          Qle_bool th s = true ∧ ∃ j, j ∈ i :: l ∧ stored_id j = d) as IH'.
  { intros H. destruct (IH H) as (? & j & ? & ?). split; [done|].
    exists j. split; [by apply list_elem_of_further|done]. }
  destruct (_ && _); [|exact IH'].
  destruct (Qle_bool th (weaviate_tools.overlap _ _)) eqn:Hle; [|exact IH'].
  intros Heq. simplify_eq. split; [done|].
  exists i. split; [apply list_elem_of_here|done].
Qed.

Lemma _fallback_text_similarity_returns title body th w :
  ∃ r, weaviate_tools._fallback_text_similarity lower split title body th w
       = (Return r, w) ∧
       (r = (None, None) ∨
        ∃ d s, r = (Some d, Some s) ∧ Qle_bool th s = true).
Proof.
  unfold weaviate_tools._fallback_text_similarity, try_except, bind, get, ret.
  destruct (_mock_issues w) as [l|]; cbn; [|by eauto].
  destruct (weaviate_tools.first_overlap _ _ _ _ _) as [[d s]|] eqn:H; cbn;
    [|by eauto].
  apply first_overlap_spec in H as [Hle _]. eauto 10.
Qed.

Lemma first_certain_cases th objects w :
  (∃ r, weaviate_tools.first_certain th objects w = (Return r, w) ∧
        (r = (None, None) ∨ ∃ d s, r = (Some d, Some s) ∧ Qle_bool th s = true)) ∨
  (∃ e, weaviate_tools.first_certain th objects w = (Raise e, w)).
Proof.
  induction objects as [|[d [c|]] rest IH]; cbn.
  - left. by eauto.
  - destruct (Qle_bool th c) eqn:Hle; [|exact IH]. left. eauto 10.
  - right. by eauto.
Qed.

(** In mock mode a stored report with the same title is enough for a
    match, whatever the threshold. *)
Lemma mock_search_finds_same_title title body th w i :
  weaviate_client E = false →
  i ∈ default [] (_mock_issues w) →
  weaviate_tools.same_title lower strip title i = true →
  ∃ d s w',
    weaviate_tools.find_duplicate E lower strip split near_vector title body th w
    = (Return (Some d, Some s), w') ∧
    (Qle_bool th s = true ∨ s = (95 # 100)%Q) ∧
    ∃ j, j ∈ default [] (_mock_issues w) ∧ stored_id j = d.
Proof.
  intros Hmock Hin Hsame.
  unfold weaviate_tools.find_duplicate, try_except, bind, modify, get, ret.
  rewrite Hmock. cbn.
  set (l := default [] (_mock_issues w)) in *.
  destruct (weaviate_tools.first_overlap _ _ _ _ l) as [[d s]|] eqn:Hfirst; cbn.
  - apply first_overlap_spec in Hfirst as (Hle & j & Hj & Hd). eauto 10.
  - destruct (List.find _ l) as [j|] eqn:Hfind; cbn.
    + apply find_some in Hfind as [Hj _]. apply list_elem_of_In in Hj. eauto 10.
    + exfalso. apply list_elem_of_In in Hin.
      pose proof (find_none _ _ Hfind i Hin) as Hno. congruence.
Qed.

Lemma add_issue_mock n title body w :
  weaviate_client E = false →
  weaviate_tools.add_issue E n title body w
  = (Return tt,
     set_mock_issues
       (Some (default [] (_mock_issues w)
              ++ [{| stored_id := n; stored_title := title; stored_body := body |}]))
       w).
Proof.
  intros Hmock.
  unfold weaviate_tools.add_issue, weaviate_tools.mock_append, try_except, modify.
  by rewrite Hmock.
Qed.

Lemma first_certain_pure th objects :
  ∃ o, ∀ w, weaviate_tools.first_certain th objects w = (o, w).
Proof.
  induction objects as [|[d [c|]] rest IH]; cbn.
  - by eexists.
  - destruct (Qle_bool th c); [by eexists|exact IH].
  - by eexists.
Qed.

(** The search reads nothing of the world but the two stores. *)
Lemma find_duplicate_reads_the_stores title body th w w0 :
  _mock_issues w0 = _mock_issues w →
  collection w0 = collection w →
  (weaviate_tools.find_duplicate E lower strip split near_vector title body th w0).1
  = (weaviate_tools.find_duplicate E lower strip split near_vector title body th w).1.
Proof.
  intros Hm Hc.
  assert (∃ r,
            weaviate_tools._fallback_text_similarity lower split title body th w0
            = (Return r, w0) ∧
            weaviate_tools._fallback_text_similarity lower split title body th w
            = (Return r, w)) as (rf & Hf0 & Hf).
  { unfold weaviate_tools._fallback_text_similarity, try_except, bind, get, ret.
    rewrite Hm. destruct (_mock_issues w); cbn; [|by eauto].
    destruct (weaviate_tools.first_overlap _ _ _ _ _) as [[]|]; by eauto. }
  unfold weaviate_tools.find_duplicate, try_except.
  destruct (weaviate_client E); cbn.
  - destruct (embed_content E _); [|by rewrite Hf0, Hf].
    unfold bind, get, call. rewrite Hc.
    destruct (near_vector _ _) as [objects|e]; cbn; [|by rewrite Hf0, Hf].
    destruct (first_certain_pure th objects) as [o Ho]. rewrite !Ho.
    destruct o; cbn; [done|by rewrite Hf0, Hf|done].
  - unfold bind, modify, get, ret. cbn. rewrite Hm.
    destruct (weaviate_tools.first_overlap _ _ _ _ _) as [[d s]|]; cbn; [done|].
    by destruct (List.find _ _).
Qed.

(** Whatever the index holds and whatever the services answer,
    [find_duplicate] returns, with nothing or with an identifier and a
    score; it changes neither store; and the score is at least the threshold
    except for the title shortcut of mock mode, which gives 0.95 to a stored
    report with the same title, below a threshold that is higher. *)
Theorem find_duplicate_score_meaning title body th w :
  ∃ r w',
    weaviate_tools.find_duplicate E lower strip split near_vector title body th w
    = (Return r, w') ∧
    collection w' = collection w ∧
    default [] (_mock_issues w') = default [] (_mock_issues w) ∧
    (r = (None, None) ∨
     ∃ d s, r = (Some d, Some s) ∧
       (Qle_bool th s = true ∨
        (weaviate_client E = false ∧ s = (95 # 100)%Q ∧
         ∃ i, i ∈ default [] (_mock_issues w) ∧ stored_id i = d ∧
              weaviate_tools.same_title lower strip title i = true))).
Proof.
  assert (∀ w0, ∃ r,
            weaviate_tools._fallback_text_similarity lower split title body th w0
            = (Return r, w0) ∧
            (r = (None, None) ∨
             ∃ d s, r = (Some d, Some s) ∧
               (Qle_bool th s = true ∨
                (weaviate_client E = false ∧ s = (95 # 100)%Q ∧
                 ∃ i, i ∈ default [] (_mock_issues w) ∧ stored_id i = d ∧
                      weaviate_tools.same_title lower strip title i = true)))) as Hfb.
  { intros w0.
    destruct (_fallback_text_similarity_returns title body th w0)
      as (r & Hr & [->|(d & s & -> & Hle)]); eauto 10. }
  unfold weaviate_tools.find_duplicate, try_except.
  destruct (weaviate_client E) eqn:Hclient; cbn.
  - destruct (embed_content E _).
    + unfold bind, get, call.
      destruct (near_vector _ _) as [objects|e]; cbn.
      * destruct (first_certain_cases th objects w)
          as [(r & -> & Hr)|(e & ->)].
        -- exists r, w. repeat split; try done.
           destruct Hr as [->|(d & s & -> & Hle)]; eauto 10.
        -- destruct (Hfb w) as (r & -> & Hr). by exists r, w.
      * destruct (Hfb w) as (r & -> & Hr). by exists r, w.
    + destruct (Hfb w) as (r & Hr' & Hr). rewrite Hr'. by exists r, w.
  - unfold bind, modify, get, ret. cbn.
    set (l := default [] (_mock_issues w)).
    destruct (weaviate_tools.first_overlap _ _ _ _ l) as [[d s]|] eqn:Hfirst; cbn.
    + apply first_overlap_spec in Hfirst as (Hle & j & Hj & Hd).
      eexists _, _. split; [reflexivity|]. repeat split; try done. eauto 10.
    + destruct (List.find _ l) as [j|] eqn:Hfind; cbn.
      * apply find_some in Hfind as [Hj Hsame]. apply list_elem_of_In in Hj.
        eexists _, _. split; [reflexivity|]. repeat split; try done.
        right. exists (stored_id j), (95 # 100)%Q. split; [done|]. right.
        repeat split; try done. by exists j.
      * eexists _, _. split; [reflexivity|]. repeat split; try done. by left.
Qed.

(** A report that was registered in mock mode is found again when it is
    submitted once more, whatever the threshold, even one above 1: the word
    overlap or else the title shortcut gives a match, and it names a stored
    report, the registered one when the store was empty before. *)
Theorem registered_report_is_found_again n title body th w :
  weaviate_client E = false →
  ∃ d s w2,
    weaviate_tools.find_duplicate E lower strip split near_vector title body th
      (weaviate_tools.add_issue E n title body w).2
    = (Return (Some d, Some s), w2) ∧
    (∃ j, j ∈ default [] (_mock_issues (weaviate_tools.add_issue E n title body w).2) ∧
          stored_id j = d) ∧
    (default [] (_mock_issues w) = [] → d = n).
Proof.
  intros Hmock. rewrite (add_issue_mock n title body w Hmock). cbn [snd].
  set (i := {| stored_id := n; stored_title := title; stored_body := body |}).
  set (w1 := set_mock_issues _ w).
  destruct (mock_search_finds_same_title title body th w1 i Hmock)
    as (d & s & w2 & Hfind & _ & j & Hj & Hd).
  { cbn. apply elem_of_app. right. apply list_elem_of_here. }
  { unfold weaviate_tools.same_title. apply String.eqb_refl. }
  exists d, s, w2. split; [exact Hfind|]. split; [by exists j|].
  intros Hempty. cbn in Hj. rewrite Hempty in Hj. cbn in Hj.
  apply list_elem_of_singleton in Hj. by subst.
Qed.

(** The same through the pipeline, when its duplicate index is this
    implementation in mock mode: once a report has been registered, the
    duplicate detection of a later run on a report with the same title and
    body sets the duplicate flag, the target and the proposed comment,
    provided no stored report carries the identifier 0. *)
Theorem registered_report_is_flagged_next_time n title body st w :
  weaviate_client E = false →
  (∀ w0 t b th r,
     (weaviate_tools.find_duplicate E lower strip split near_vector t b th w0).1
     = Return r →
     find_duplicate E (_mock_issues w0) (collection w0) t b th = Ok r) →
  n ≠ 0%Z →
  Forall (λ i, stored_id i ≠ 0%Z) (default [] (_mock_issues w)) →
  issue_title st = title →
  issue_body st = body →
  ∃ st',
    agent._perform_duplicate_detection E
      (st, (weaviate_tools.add_issue E n title body w).2)
    = (Return tt, (st', (weaviate_tools.add_issue E n title body w).2)) ∧
    is_duplicate st' = true ∧
    is_Some (duplicate_issue_id st') ∧
    is_Some (proposed_comment st').
Proof.
  intros Hmock Htie Hn Hids <- <-.
  rewrite (add_issue_mock n (issue_title st) (issue_body st) w Hmock). cbn [snd].
  set (i := {| stored_id := n; stored_title := issue_title st;
               stored_body := issue_body st |}).
  set (w1 := set_mock_issues _ w).
  destruct (mock_search_finds_same_title (issue_title st) (issue_body st)
              (85 # 100)%Q w1 i Hmock)
    as (d & s & w2 & Hfind & Hs & j & Hj & Hd).
  { cbn. apply elem_of_app. right. apply list_elem_of_here. }
  { unfold weaviate_tools.same_title. apply String.eqb_refl. }
  assert (d ≠ 0%Z) as Hd0.
  { cbn in Hj. apply elem_of_app in Hj as [Hj|Hj].
    - rewrite Forall_forall in Hids. subst d. by apply Hids.
    - apply list_elem_of_singleton in Hj. by subst. }
  assert (Qeq_bool s 0 = false) as Hs0.
  { apply not_true_is_false. intros Heq. apply Qeq_bool_iff in Heq.
    destruct Hs as [Hle| ->].
    - apply Qle_bool_iff in Hle. lra.
    - discriminate. }
  pose proof (Htie w1 (issue_title st) (issue_body st) (85 # 100)%Q (Some d, Some s))
    as Hok.
  rewrite Hfind in Hok. specialize (Hok eq_refl).
  rewrite (duplicate_flagged E st w1 d s Hok Hd0 Hs0).
  eexists. split; [reflexivity|]. cbn. by repeat split.
Qed.

End Index.

Lemma registered_report_is_found_again_witness :
  weaviate_client Sample.env = false ∧
  ∃ d s w2,
    weaviate_tools.find_duplicate Sample.env Sample.lower Sample.strip Sample.split
      Sample.no_objects "Login broken" "Nobody can log in" 2
      (weaviate_tools.add_issue Sample.env 101 "Login broken" "Nobody can log in"
         (Sample.world [])).2
    = (Return (Some d, Some s), w2) ∧
    (∃ j, j ∈ default []
              (_mock_issues
                 (weaviate_tools.add_issue Sample.env 101 "Login broken"
                    "Nobody can log in" (Sample.world [])).2) ∧
          stored_id j = d) ∧
    (default [] (_mock_issues (Sample.world [])) = [] → d = 101%Z).
Proof.
  split; [reflexivity|].
  exact (registered_report_is_found_again Sample.env Sample.lower Sample.strip
           Sample.split Sample.no_objects 101%Z "Login broken" "Nobody can log in" 2
           (Sample.world []) eq_refl).
Defined.

Lemma registered_report_is_flagged_next_time_witness :
  let E := Sample.with_index Sample.env in
  let st := new_TriageState
              {| number := Some 102%Z; title := Some "login BROKEN";
                 body := Some "nobody can log in"; html_url := None;
                 repository_full_name := None |} in
  weaviate_client E = false ∧
  ∃ st',
    agent._perform_duplicate_detection E
      (st, (weaviate_tools.add_issue E 101 "login BROKEN" "nobody can log in"
              (Sample.world [])).2)
    = (Return tt,
       (st', (weaviate_tools.add_issue E 101 "login BROKEN" "nobody can log in"
                (Sample.world [])).2)) ∧
    is_duplicate st' = true ∧
    is_Some (duplicate_issue_id st') ∧
    is_Some (proposed_comment st').
Proof.
  intros E st. split; [reflexivity|].
  apply (registered_report_is_flagged_next_time E Sample.lower Sample.strip
           Sample.split Sample.no_objects 101%Z "login BROKEN" "nobody can log in"
           st (Sample.world [])).
  - reflexivity.
  - intros w0 t b th r Hr.
    rewrite <- (find_duplicate_reads_the_stores E Sample.lower Sample.strip
                  Sample.split Sample.no_objects t b th w0
                  {| pending_decisions := ∅; futures := []; clock := 0;
                     schedule := []; github_calls := []; github_requests := [];
                     _mock_issues := _mock_issues w0; collection := collection w0;
                     webhook_posts := [] |} eq_refl eq_refl) in Hr.
    change (find_duplicate E (_mock_issues w0) (collection w0) t b th)
      with (match (weaviate_tools.find_duplicate Sample.env Sample.lower Sample.strip
                     Sample.split Sample.no_objects t b th
                     {| pending_decisions := ∅; futures := []; clock := 0;
                        schedule := []; github_calls := []; github_requests := [];
                        _mock_issues := _mock_issues w0; collection := collection w0;
                        webhook_posts := [] |}).1 with
            | Return r => Ok r
            | Raise e => Exc e
            | Waiting => Exc "suspended"
            end).
    change (weaviate_tools.find_duplicate E) with
      (weaviate_tools.find_duplicate Sample.env) in Hr.
    by rewrite Hr.
  - discriminate.
  - constructor.
  - reflexivity.
  - reflexivity.
Defined.

(* ===================================================================== *)
(** ** The webhook endpoint *)
(* ===================================================================== *)

Lemma triage_new_issue_never_raises E issue_data w e w' :
  agent.triage_new_issue E issue_data w ≠ (Raise e, w').
Proof.
  unfold agent.triage_new_issue, agent.finish.
  by destruct (agent.phases E _) as [[[]|msg|] [st w0]].
Qed.

Lemma is_opened_inv action : agent.is_opened action = true → action = PStr "opened".
Proof.
  destruct action as [| |s]; try discriminate. cbn.
  by intros ->%String.eqb_eq.
Qed.

(** [process_webhook] never raises; it leaves the world alone unless it
    runs the pipeline, which it does for the action [opened] only. *)
Lemma process_webhook_cases E payload w :
  match agent.process_webhook E payload w with
  | (Return (agent.WebhookTriaged result action), w') =>
      action = PStr "opened" ∧
      ∃ issue_data, agent.triage_new_issue E issue_data w = (Return result, w')
  | (Return _, w') => w' = w
  | (Raise _, _) => False
  | (Waiting, _) => True
  end.
Proof.
  unfold agent.process_webhook, try_except, raise, ret.
  destruct payload as [action issue repo|t]; [|done].
  destruct (agent.is_opened (default (PStr "") action)) eqn:Hopen; cbn; [|done].
  apply is_opened_inv in Hopen.
  destruct (default (agent.issue_object agent.empty_issue) issue) as [d|t]; [|done].
  unfold bind.
  destruct (agent.triage_new_issue E d w) as [[res|e|] w'] eqn:Hrun; cbn.
  - split; [done|]. by exists d.
  - by apply triage_new_issue_never_raises in Hrun.
  - done.
Qed.

Arguments agent.process_webhook : simpl never.

Section Endpoint.
Variable E : Env.
Variable secret : string.
Variable hexdigest : string → string → string.
Variable json_loads : string → webhook_server.json_result.

(** What processing an [opened] event does to the counters: exactly one of
    them goes up by one, [issues_triaged] with a successful result and
    [errors] with a failed one. *)
Lemma run_async_processing_cases payload s :
  match webhook_server.run_async_processing E payload s with
  | (Return r, s') =>
      s'.1 = (if webhook_server.processing_success r
              then webhook_server.count_triaged s
              else webhook_server.count_error s).1
  | (Raise _, _) => False
  | (Waiting, _) => True
  end.
Proof.
  unfold webhook_server.run_async_processing, try_except, bind,
    webhook_server.in_world, modify, ret.
  pose proof (process_webhook_cases E payload s.2) as H.
  destruct (agent.process_webhook E payload s.2) as [[r|e|] w']; cbn; [|done|done].
  destruct (agent.webhook_success r) eqn:Hs; cbn; by rewrite Hs.
Qed.

Arguments webhook_server.run_async_processing : simpl never.

(** The counters follow the status code.  Every request that is answered
    counts as received; [errors] goes up by one exactly with the answers
    400, 401 and 500 and stays as it is with 200; [issues_triaged] goes up,
    by one, only with an answer 200.  The handler itself never raises. *)
Theorem webhook_counters_match_the_status request s :
  match webhook_server.handle_webhook E secret hexdigest json_loads request s with
  | (Return (body, code), s') =>
      webhook_server.total_received s'.1 = S (webhook_server.total_received s.1) ∧
      ((code = 200%Z ∧ webhook_server.errors s'.1 = webhook_server.errors s.1) ∨
       ((code = 400%Z ∨ code = 401%Z ∨ code = 500%Z) ∧
        webhook_server.errors s'.1 = S (webhook_server.errors s.1))) ∧
      (webhook_server.issues_triaged s'.1 = webhook_server.issues_triaged s.1 ∨
       (webhook_server.issues_triaged s'.1 = S (webhook_server.issues_triaged s.1) ∧
        code = 200%Z))
  | (Raise _, _) => False
  | (Waiting, _) => True
  end.
Proof.
  unfold webhook_server.handle_webhook, try_except, bind, modify, call, ret, raise.
  cbn.
  destruct (webhook_server.verify_webhook_signature _ _ _ _) as [[|]|e]; cbn; [|by intuition|by intuition].
  destruct (json_loads _) as [payload|e|e]; cbn; [|by intuition|by intuition].
  destruct (String.eqb _ "issues"); cbn; [|by intuition].
  destruct payload as [action issue repo|t]; cbn; [|by intuition].
  destruct (default (agent.issue_object agent.empty_issue) issue) as [d|t]; cbn;
    [|by intuition].
  destruct (default (agent.repository_object None) repo) as [full_name|t]; cbn;
    [|by intuition].
  destruct (agent.is_opened _); cbn; [|by intuition].
  pose proof (run_async_processing_cases (agent.payload_object action issue repo)
                (webhook_server.received s)) as H.
  destruct (webhook_server.run_async_processing _ _ _) as [[r|e|] s']; cbn;
    [|done|done].
  destruct (webhook_server.processing_success r); cbn; rewrite H; cbn; by intuition.
Qed.

(** A triage is started only for a request whose signature is accepted,
    whose event is [issues] and whose action is [opened]; with any other
    answer than the report of a triage, done or failed, the world of the
    pipeline is as it was and nothing was counted as triaged. *)
Theorem triage_starts_only_for_opened_issues request s body code :
  (webhook_server.handle_webhook E secret hexdigest json_loads request s).1
  = Return (body, code) →
  match body with
  | webhook_server.BodyError _ | webhook_server.BodyMessage _ =>
      (webhook_server.handle_webhook E secret hexdigest json_loads request s).2.2 = s.2 ∧
      webhook_server.issues_triaged
        (webhook_server.handle_webhook E secret hexdigest json_loads request s).2.1
      = webhook_server.issues_triaged s.1
  | webhook_server.BodyTriaged _ _ _ | webhook_server.BodyFailed _ _ _ =>
      webhook_server.verify_webhook_signature secret hexdigest
        (webhook_server.get_data request)
        (default "" (webhook_server.X_Hub_Signature_256 request)) = Ok true ∧
      webhook_server.X_GitHub_Event request = Some "issues" ∧
      ∃ issue repo,
        json_loads (webhook_server.get_data request)
        = webhook_server.Parsed
            (agent.payload_object (Some (PStr "opened")) issue repo)
  end.
Proof.
  unfold webhook_server.handle_webhook, try_except, bind, modify, call, ret, raise.
  cbn.
  destruct (webhook_server.verify_webhook_signature _ _ _ _) as [[|]|e]; cbn;
    [|by intros [= <- <-]|by intros [= <- <-]].
  destruct (json_loads _) as [payload|e|e]; cbn;
    [|by intros [= <- <-]|by intros [= <- <-]].
  destruct (String.eqb _ "issues") eqn:Hev; cbn; [|by intros [= <- <-]].
  destruct payload as [action issue repo|t]; cbn; [|by intros [= <- <-]].
  destruct (default (agent.issue_object agent.empty_issue) issue) as [d|t]; cbn;
    [|by intros [= <- <-]].
  destruct (default (agent.repository_object None) repo) as [full_name|t]; cbn;
    [|by intros [= <- <-]].
  destruct (agent.is_opened _) eqn:Hopen; cbn; [|by intros [= <- <-]].
  assert (webhook_server.X_GitHub_Event request = Some "issues") as Hevent.
  { apply String.eqb_eq in Hev.
    destruct (webhook_server.X_GitHub_Event request) as [ev|]; cbn in Hev;
      by subst. }
  assert (action = Some (PStr "opened")) as ->.
  { apply is_opened_inv in Hopen. destruct action as [a|]; cbn in Hopen; by subst. }
  pose proof (run_async_processing_cases (agent.payload_object (Some (PStr "opened"))
                issue repo) (webhook_server.received s)) as H.
  destruct (webhook_server.run_async_processing _ _ _) as [[r|e|] s']; cbn;
    [|done|done].
  destruct (webhook_server.processing_success r); cbn; intros [= <- <-];
    repeat split; eauto.
Qed.

(** With a secret configured, a request whose signature header is not the
    expected digest is refused before its body is even parsed: the answer
    is 401, or 500 when the comparison itself fails on text that is not
    ASCII; one error is counted and the world is as it was. *)
Theorem unsigned_request_is_refused request s :
  secret ≠ EmptyString →
  default "" (webhook_server.X_Hub_Signature_256 request)
  ≠ "sha256=" +:+ hexdigest secret (webhook_server.get_data request) →
  ∃ msg code,
    webhook_server.handle_webhook E secret hexdigest json_loads request s
    = (Return (webhook_server.BodyError msg, code),
       webhook_server.count_error (webhook_server.received s)) ∧
    (code = 401%Z ∨
     (code = 500%Z ∧
      webhook_server.is_ascii
        ("sha256=" +:+ hexdigest secret (webhook_server.get_data request))
      && webhook_server.is_ascii
           (default "" (webhook_server.X_Hub_Signature_256 request)) = false)).
Proof.
  intros Hsecret Hsig.
  unfold webhook_server.handle_webhook, try_except, bind, modify, call, ret, raise,
    webhook_server.verify_webhook_signature, webhook_server.compare_digest.
  cbn.
  destruct (String.eqb_spec secret EmptyString) as [|_]; [done|].
  destruct (String.eqb_spec (default "" (webhook_server.X_Hub_Signature_256 request))
              EmptyString) as [|_]; cbn.
  { eexists _, _. split; [reflexivity|by left]. }
  destruct (_ && _) eqn:Hascii; cbn.
  - destruct (String.eqb_spec
                ("sha256=" +:+ hexdigest secret (webhook_server.get_data request))
                (default "" (webhook_server.X_Hub_Signature_256 request))) as [Heq|_];
      [by rewrite Heq in Hsig|].
    cbn. eexists _, _. split; [reflexivity|by left].
  - eexists _, _. split; [reflexivity|]. right. by split.
Qed.

End Endpoint.

Lemma triage_starts_only_for_opened_issues_witness :
  let s := Sample.server [Sample.idle 1; Sample.during [reject_click 101]] in
  let request := Sample.request None in
  ∃ result,
    (webhook_server.handle_webhook Sample.env "" Sample.hexdigest Sample.json_loads
       request s).1
    = Return (webhook_server.BodyTriaged (Some 101%Z) (Some "kunal-004/triage-ninja")
                result, 200%Z) ∧
    webhook_server.verify_webhook_signature "" Sample.hexdigest
      (webhook_server.get_data request)
      (default "" (webhook_server.X_Hub_Signature_256 request)) = Ok true ∧
    webhook_server.X_GitHub_Event request = Some "issues" ∧
    ∃ issue repo,
      Sample.json_loads (webhook_server.get_data request)
      = webhook_server.Parsed (agent.payload_object (Some (PStr "opened")) issue repo).
Proof.
  intros s request. eexists.
  assert ((webhook_server.handle_webhook Sample.env "" Sample.hexdigest
             Sample.json_loads request s).1
          = Return (webhook_server.BodyTriaged (Some 101%Z)
                      (Some "kunal-004/triage-ninja")
                      (webhook_server.Processed
                         (agent.WebhookTriaged
                            (TriageSuccess 101 (Some "High")
                               (Some "Login fails for every user") false None
                               (Some discord_bot.reject_record)
                               [("rejected", PBool true)] true)
                            (PStr "opened"))), 200%Z)) as Hrun
    by (vm_compute; reflexivity).
  split; [exact Hrun|].
  exact (triage_starts_only_for_opened_issues Sample.env "" Sample.hexdigest
           Sample.json_loads request s _ _ Hrun).
Defined.

Lemma unsigned_request_is_refused_witness :
  let s := Sample.server [] in
  let request := Sample.request (Some "sha256=0000") in
  ∃ msg code,
    webhook_server.handle_webhook Sample.env "s3cret" Sample.hexdigest
      Sample.json_loads request s
    = (Return (webhook_server.BodyError msg, code),
       webhook_server.count_error (webhook_server.received s)) ∧
    (code = 401%Z ∨
     (code = 500%Z ∧
      webhook_server.is_ascii
        ("sha256=" +:+ Sample.hexdigest "s3cret" (webhook_server.get_data request))
      && webhook_server.is_ascii
           (default "" (webhook_server.X_Hub_Signature_256 request)) = false)).
Proof.
  intros s request.
  apply (unsigned_request_is_refused Sample.env "s3cret" Sample.hexdigest
           Sample.json_loads request s); discriminate.
Defined.

(* ===================================================================== *)
(** ** From the click to the result *)
(* ===================================================================== *)

(** In the bot's own event loop the manager hands back what the bot
    returns. *)
Lemma manager_same_loop_returns E c w r w' :
  DISCORD_WEBHOOK_URL E ≠ EmptyString →
  bot_importable E = true →
  bot_loop E = SameLoop →
  discord_bot.send_triage_request E (discord_tools.issue_number c) w = (Return r, w') →
  discord_tools.send_triage_request E c w = (Return r, w').
Proof.
  intros Hurl Himp Hloop Hcall.
  unfold discord_tools.send_triage_request, try_except.
  destruct (String.eqb_spec (DISCORD_WEBHOOK_URL E) EmptyString) as [|_]; [done|].
  by rewrite Himp, Hloop, Hcall.
Qed.

(** The whole run, from the webhook's issue to the result: when the request
    goes out and the first callback for the issue arrives before the
    timeout, the run returns the success dictionary and the decision in it
    is the record of that callback, whatever callbacks follow and whatever
    the record store and the webhook answer afterwards. *)
Theorem run_executes_the_first_answer E issue_data w pre calm dt before e1 later rest r1 :
  DISCORD_WEBHOOK_URL E ≠ EmptyString →
  bot_importable E = true →
  bot_loop E = SameLoop →
  published E →
  no_dangling w →
  length pre = publish_ticks E →
  schedule w
  = pre ++ calm ++ {| tick_events := before ++ e1 :: later; tick_dt := dt |} :: rest →
  forallb (calm_for (default 0%Z (number issue_data))) calm = true →
  forward calm = true →
  (duration calm <= 3700)%Q →
  forallb (unrelated_to (default 0%Z (number issue_data))) before = true →
  written_record e1 = Some (default 0%Z (number issue_data), r1) →
  forallb is_writer later = true →
  ∃ sev summ dup score actions sent w',
    agent.triage_new_issue E issue_data w
    = (Return (TriageSuccess (default 0%Z (number issue_data)) sev summ dup score
                 (Some r1) actions sent), w').
Proof.
  intros Hurl Himp Hloop Hpub Hnd Hpre Hs Hcalm Hfw Hdur Hbefore He1 Hlater.
  set (n := default 0%Z (number issue_data)) in *.
  unfold agent.triage_new_issue, agent.phases.
  destruct (_perform_ai_analysis_returns E (new_TriageState issue_data) w)
    as (st1 & H1 & Hid1 & Ha1).
  destruct (_perform_duplicate_detection_returns E st1 w) as (st2 & H2 & Hid2 & Ha2).
  assert (issue_id st2 = n) as Hid by (by rewrite Hid2, Hid1).
  destruct (first_writer_wins E n w pre calm dt before e1 later rest r1)
    as (w3 & Hbot & _); try done.
  pose proof (manager_same_loop_returns E (agent.clarification_of st2) w r1 w3
                Hurl Himp Hloop) as Hman.
  cbn in Hman. rewrite Hid in Hman. specialize (Hman Hbot).
  unfold bind at 1. rewrite H1. unfold bind at 1. rewrite H2. unfold bind at 1.
  assert (agent._request_human_clarification E (st2, w)
          = (Return tt, (set_human_decision (Some r1) st2, w3))) as ->.
  { unfold agent._request_human_clarification, try_except, bind, agent.state,
      agent.world, agent.update.
    cbn. by rewrite Hman. }
  destruct (_execute_decision_known_kind E (set_human_decision (Some r1) st2) w3 r1)
    as (a & w4 & H4 & _);
    [done|exact (written_record_known_kind _ _ _ He1)|cbn; by rewrite Ha2, Ha1|].
  unfold bind at 1. rewrite H4.
  destruct (_send_completion_notification_returns E
              (set_actions_executed a (set_human_decision (Some r1) st2)) w4)
    as (b & w5 & H5 & _).
  rewrite H5. cbn. unfold agent.success_result. cbn. rewrite Hid.
  by eexists _, _, _, _, _, _, _.
Qed.

Lemma run_executes_the_first_answer_witness :
  let w := Sample.world
             [Sample.idle 1; Sample.idle 600;
              Sample.during [approve_click 7; reject_click 101; approve_click 101]] in
  ∃ sev summ dup score actions sent w',
    agent.triage_new_issue Sample.env Sample.issue101 w
    = (Return (TriageSuccess 101 sev summ dup score (Some discord_bot.reject_record)
                 actions sent), w').
Proof.
  intros w.
  apply (run_executes_the_first_answer Sample.env Sample.issue101 w
           [Sample.idle 1] [Sample.idle 600] 1 [approve_click 7]
           (reject_click 101) [approve_click 101] [] discord_bot.reject_record).
  - discriminate.
  - reflexivity.
  - reflexivity.
  - split; [by exists 1234%Z|by split].
  - apply map_Forall_empty.
  - reflexivity.
  - reflexivity.
  - reflexivity.
  - reflexivity.
  - vm_compute. discriminate.
  - reflexivity.
  - reflexivity.
  - reflexivity.
Defined.

(** The completion flag of a run says whether the completion message went
    out: it is set exactly when a webhook URL is configured and the webhook
    accepted the post; the message names the actions whose entry in the
    action map is true; without a URL nothing is posted; and a refused post
    does not raise. *)
Theorem completion_flag_means_posted E st w :
  let message :=
    CompletionPost ("triage-" +:+ pretty (issue_id st)) "Discord User"
      ("Issue #" +:+ pretty (issue_id st) +:+ " processed: "
       +:+ join ", " (agent.executed_actions (actions_executed st))) in
  ∃ sent w',
    agent._send_completion_notification E (st, w)
    = (Return tt, (set_completion_message_sent sent st, w')) ∧
    (sent = true ↔
       DISCORD_WEBHOOK_URL E ≠ EmptyString ∧
       requests_post E (webhook_posts w) message = Ok tt) ∧
    webhook_posts w'
    = (if String.eqb (DISCORD_WEBHOOK_URL E) EmptyString then webhook_posts w
       else webhook_posts w ++ [message]).
Proof.
  intros message.
  unfold agent._send_completion_notification, try_except, bind, agent.state,
    agent.world, agent.update.
  cbn.
  unfold discord_tools.send_completion_message, discord_tools.post, try_except, bind,
    ret.
  fold message.
  destruct (String.eqb_spec (DISCORD_WEBHOOK_URL E) EmptyString) as [Hurl|Hurl].
  - exists false, w. split; [done|]. split; [|done].
    split; [done|]. by intros [? _].
  - destruct (requests_post E (webhook_posts w) message) as [[]|msg] eqn:Hpost; cbn.
    + eexists true, _. by repeat split.
    + eexists false, _. split; [done|]. split; [|done].
      split; [done|]. by intros [_ ?].
Qed.

(* ===================================================================== *)
(** ** The legacy approval entry point *)
(* ===================================================================== *)

(** [post_for_approval] never raises, and it reports an approval exactly
    when the manager returned a record whose decision is [approve] and did
    so within the 3700 seconds the caller waits for the worker thread; the
    modified data are then the data of that record.  A failure of the
    manager, an answer that comes later than that and every other decision
    give [approved: False].  The world is the one the manager leaves. *)
Theorem legacy_approval_follows_the_decision E issue_data severity duplicate_info
    ai_summary w :
  let asked :=
    discord_tools.send_triage_request E
      (legacy_clarification issue_data severity duplicate_info ai_summary) w in
  match discord_tools.post_for_approval E issue_data severity duplicate_info
          ai_summary w with
  | (Return a, w') =>
      w' = asked.2 ∧
      (discord_tools.approved a = true ↔
         ∃ r, asked.1 = Return r ∧ decision r = "approve" ∧
              (clock asked.2 - clock w <= 3700)%Q) ∧
      (∀ r, asked.1 = Return r → discord_tools.approved a = true →
            discord_tools.modified_data_of a = Some (data r))
  | (Raise _, _) => False
  | (Waiting, _) => True
  end.
Proof.
  intros asked.
  unfold discord_tools.post_for_approval, try_except, bind, ret,
    discord_tools.TriageRequestTool_run, try_except, raise.
  change (discord_tools.send_triage_request E _ w) with asked.
  destruct asked as [[r|e|] w0]; cbn [fst snd].
  - destruct (Qle_bool (clock w0 - clock w) 3700) eqn:Hle; cbn.
    + apply Qle_bool_iff in Hle. split; [done|]. split.
      * split.
        -- intros Happ. apply String.eqb_eq in Happ. by exists r.
        -- intros (r' & [= <-] & Hdec & _). by apply String.eqb_eq.
      * by intros r' [= <-] _.
    + split; [done|]. split; [|done]. split; [done|].
      intros (r' & _ & _ & Hle'). apply Qle_bool_iff in Hle'. congruence.
  - destruct (Qle_bool (clock w0 - clock w) 3700); cbn;
      (split; [done|]; split; [|done]; split; [done|]; by intros (r' & ? & _)).
  - destruct (Qle_bool (clock w0 - clock w) 3700); cbn; [done|].
    split; [done|]. split; [|done]. split; [done|]. by intros (r' & ? & _).
Qed.

(** Without a webhook URL the legacy entry point approves on its own:
    nobody is asked, nothing is posted and no time passes, and the answer
    says that a human decided. *)
Theorem legacy_approval_is_automatic_without_webhook E issue_data severity
    duplicate_info ai_summary w :
  DISCORD_WEBHOOK_URL E = EmptyString →
  discord_tools.post_for_approval E issue_data severity duplicate_info ai_summary w
  = (Return {| discord_tools.approved := true;
               discord_tools.user := "discord-user";
               discord_tools.reason := "Human decision: approve";
               discord_tools.modified_data_of := Some [] |}, w).
Proof.
  intros Hurl.
  unfold discord_tools.post_for_approval, try_except, bind, ret,
    discord_tools.TriageRequestTool_run, try_except.
  rewrite (unconfigured_webhook_approves E _ w Hurl).
  assert (Qle_bool (clock w - clock w) 3700 = true) as ->.
  { apply Qle_bool_iff. lra. }
  reflexivity.
Qed.

Lemma legacy_approval_is_automatic_without_webhook_witness :
  discord_tools.post_for_approval (Sample.with_webhook_url EmptyString Sample.env)
    Sample.issue101 "High" None "Login fails for every user" (Sample.world [])
  = (Return {| discord_tools.approved := true;
               discord_tools.user := "discord-user";
               discord_tools.reason := "Human decision: approve";
               discord_tools.modified_data_of := Some [] |}, Sample.world []).
Proof.
  exact (legacy_approval_is_automatic_without_webhook
           (Sample.with_webhook_url EmptyString Sample.env) Sample.issue101 "High" None
           "Login fails for every user" (Sample.world []) eq_refl).
Defined.
